(** * ChatLab storage-and-query engine: a shallow embedding

    The development follows two source files of the repository:

    - [electron/main/database/index.ts]: session files, [importData] with its
      nickname-timeline walk, [getSession], [deleteSession], the time filter
      and the statistics [getMemberActivity], [getHourlyActivity],
      [getDailyActivity], [getMessageTypeDistribution], [getTimeRange],
      [getAvailableYears] and [getMemberNameHistory] (module [Database]
      below);
    - the AI query module ([getRecentMessages], [searchMessages],
      [getMessageContext], [getConversationBetween]), which runs against the
      later member schema (module [AiQuery] below).

    SQL tables are lists of rows in rowid order, JavaScript numbers that hold
    ids, timestamps and counts are integers ([Z]), nullable columns are
    [option]s, and a statement that can raise is a computation in a small
    error-and-state monad. *)

From Stdlib Require Import ZArith List Bool Lia Permutation Sorted QArith Qround Ascii.
From Stdlib Require OrderedTypeEx.
From stdpp Require Import gmap strings list fin_maps.

Close Scope Q_scope.
Open Scope Z_scope.

(** * JavaScript and SQL primitives shared by both modules *)

(** [Array.prototype.sort(cmp)]: a stable sort; an element goes before the
    first later element that does not compare strictly smaller. *)
Fixpoint sort_insert {A : Type} (cmp : A -> A -> Z) (x : A) (l : list A) : list A :=
  match l with
  | [] => [x]
  | y :: l' => if cmp x y <=? 0 then x :: y :: l' else y :: sort_insert cmp x l'
  end.

Definition Array_sort {A : Type} (cmp : A -> A -> Z) (l : list A) : list A :=
  fold_right (sort_insert cmp) [] l.

(** SQL [LIMIT n]: a negative bound means no bound at all. *)
Definition sql_limit {A : Type} (n : Z) (l : list A) : list A :=
  if n <? 0 then l else firstn (Z.to_nat n) l.

(** The number of rows [LIMIT n] keeps of [l], at most. *)
Definition limit_count {A : Type} (n : Z) (l : list A) : nat :=
  if n <? 0 then length l else Z.to_nat n.

(** SQL [ORDER BY key ASC] and [ORDER BY key DESC] over a scan, rows with
    equal keys staying in scan order. *)
Definition order_by_asc {A : Type} (key : A -> Z) (l : list A) : list A :=
  Array_sort (fun a b => key a - key b) l.

Definition order_by_desc {A : Type} (key : A -> Z) (l : list A) : list A :=
  Array_sort (fun a b => key b - key a) l.

(** SQL [GROUP BY key] with [COUNT( * )]: one row per distinct key, holding
    the number of rows with that key. *)
Definition key_count {K : Type} `{EqDecision K} (keys : list K) (k : K) : Z :=
  Z.of_nat (length (List.filter (fun x => bool_decide (x = k)) keys)).

Definition group_count {K : Type} `{EqDecision K} (keys : list K) : list (K * Z) :=
  List.map (fun k => (k, key_count keys k)) (remove_dups keys).

(** SQL [MIN(x)] and [MAX(x)]: null over no row. *)
Definition sql_min (l : list Z) : option Z :=
  match l with
  | [] => None
  | x :: l' => Some (fold_left Z.min l' x)
  end.

Definition sql_max (l : list Z) : option Z :=
  match l with
  | [] => None
  | x :: l' => Some (fold_left Z.max l' x)
  end.

(** The order of text values under SQLite's binary collation, as the sign a
    comparator returns. *)
Definition text_cmp (a b : string) : Z :=
  match String.compare a b with
  | Lt => -1
  | Eq => 0
  | Gt => 1
  end.

(** SQL [x IS NULL]. *)
Definition is_null {A : Type} (o : option A) : bool :=
  match o with None => true | Some _ => false end.

(** The reserved system sender, compared by name at query time. *)
Definition SYSTEM_SENDER : string := "系统消息".

(** The [message] relation is the same in both schema versions. *)
Record MessageRow := {
  msg_id : Z;
  msg_sender_id : Z;
  msg_ts : Z;
  msg_type : Z;
  msg_content : option string
}.

(** [TimeFilter]: both bounds optional and inclusive. *)
Record TimeFilter := {
  startTs : option Z;
  endTs : option Z
}.

(** A condition pushed by [buildTimeFilter], with its bound parameter. *)
Inductive TsCond := TsGe (bound : Z) | TsLe (bound : Z).

Definition buildTimeFilter (filter : option TimeFilter) : list TsCond :=
  let conditions := [] in
  let conditions :=
    match filter with
    | Some f => match startTs f with Some s => conditions ++ [TsGe s] | None => conditions end
    | None => conditions
    end in
  let conditions :=
    match filter with
    | Some f => match endTs f with Some e => conditions ++ [TsLe e] | None => conditions end
    | None => conditions
    end in
  conditions.

Definition eval_cond (c : TsCond) (ts : Z) : bool :=
  match c with
  | TsGe b => b <=? ts
  | TsLe b => ts <=? b
  end.

(** The clause [conditions.join(' AND ')]; the empty clause holds of every row. *)
Definition eval_clause (conds : list TsCond) (ts : Z) : bool :=
  forallb (fun c => eval_cond c ts) conds.

(** * The database service: [electron/main/database/index.ts] *)
Module Database.

Record MetaRow := {
  meta_name : string;
  meta_platform : string;
  meta_type : string;
  meta_imported_at : Z
}.

Record MemberRow := {
  m_id : Z;
  m_platform_id : string;
  m_name : string
}.

Record NameHistoryRow := {
  h_id : Z;
  h_member_id : Z;
  h_name : string;
  h_start_ts : Z;
  h_end_ts : option Z
}.

(** The four relations; the [seq_] fields are the AUTOINCREMENT counters
    SQLite keeps in [sqlite_sequence]. *)
Record Db := {
  meta : list MetaRow;
  member : list MemberRow;
  member_name_history : list NameHistoryRow;
  message : list MessageRow;
  seq_member : Z;
  seq_history : Z;
  seq_message : Z
}.

Definition empty_db : Db :=
  {| meta := []; member := []; member_name_history := []; message := [];
     seq_member := 0; seq_history := 0; seq_message := 0 |}.

(** ** The import input *)

Record ParsedMeta := {
  pmeta_name : string;
  pmeta_platform : string;
  pmeta_type : string
}.

Record ParsedMember := {
  platformId : string;
  name : string
}.

Record ParsedMessage := {
  senderPlatformId : string;
  senderName : string;
  timestamp : Z;
  type : Z;
  content : option string
}.

Record ParseResult := {
  pr_meta : ParsedMeta;
  members : list ParsedMember;
  messages : list ParsedMessage
}.

(** ** Session files *)

Inductive FileData :=
| SqliteFile (db : Db)
| SideFile.

(** A file on disk; [file_busy] marks a file whose [unlinkSync] raises
    (held open or not permitted). *)
Record File := {
  file_data : FileData;
  file_busy : bool
}.

Abbreviation Fs := (gmap string File).

(** [getDbPath]: the session file inside the database directory
    [getDbDir ()]. *)
Definition getDbPath (DB_DIR sessionId : string) : string :=
  DB_DIR +:+ "/" +:+ sessionId +:+ ".db".

(** ** Computations that may raise *)

Inductive outcome (A : Type) :=
| Done (a : A)
| Raised (e : string).
Arguments Done {A} a.
Arguments Raised {A} e.

(** Inside a transaction: the working copy of the database, and how many
    statements still run before one raises ([None]: none ever does). *)
Record TxState := {
  tx_db : Db;
  tx_fault : option nat
}.

Definition Tx (A : Type) : Type := TxState -> outcome (A * TxState).

Definition ret {A : Type} (a : A) : Tx A := fun st => Done (a, st).

Definition bind {A B : Type} (m : Tx A) (k : A -> Tx B) : Tx B :=
  fun st =>
    match m st with
    | Done (a, st') => k a st'
    | Raised e => Raised e
    end.

Definition throw {A : Type} (e : string) : Tx A := fun _ => Raised e.

Declare Scope tx_scope.
Delimit Scope tx_scope with tx.
Notation "x <- m ;; k" := (bind m (fun x => k))
  (at level 100, m at next level, right associativity) : tx_scope.
Notation "m ;; k" := (bind m (fun _ => k))
  (at level 100, right associativity) : tx_scope.
Open Scope tx_scope.

(** Running one prepared statement. *)
Definition exec {A : Type} (stmt : Db -> A * Db) : Tx A :=
  fun st =>
    match tx_fault st with
    | Some O => Raised "SqliteError"%string
    | Some (S n) =>
        let (a, db') := stmt (tx_db st) in
        Done (a, {| tx_db := db'; tx_fault := Some n |})
    | None =>
        let (a, db') := stmt (tx_db st) in
        Done (a, {| tx_db := db'; tx_fault := None |})
    end.

(** [for (const x of l) body], threading the local JavaScript state. *)
Fixpoint forEach {A S : Type} (body : S -> A -> Tx S) (l : list A) (s : S) : Tx S :=
  match l with
  | [] => ret s
  | x :: l' => s' <- body s x ;; forEach body l' s'
  end.

(** [db.transaction(fn)()]: commit the working copy, or roll back to the
    state at BEGIN and let the exception through. *)
Definition db_transaction {A : Type} (fn : Tx A) (db : Db) (fault : option nat)
  : Db * outcome A :=
  match fn {| tx_db := db; tx_fault := fault |} with
  | Done (a, st) => (tx_db st, Done a)
  | Raised e => (db, Raised e)
  end.

(** ** Prepared statements of [importData] *)

Definition set_meta (d : Db) v := {| meta := v; member := member d;
  member_name_history := member_name_history d; message := message d;
  seq_member := seq_member d; seq_history := seq_history d; seq_message := seq_message d |}.

Definition set_member (d : Db) v s := {| meta := meta d; member := v;
  member_name_history := member_name_history d; message := message d;
  seq_member := s; seq_history := seq_history d; seq_message := seq_message d |}.

Definition set_history (d : Db) v s := {| meta := meta d; member := member d;
  member_name_history := v; message := message d;
  seq_member := seq_member d; seq_history := s; seq_message := seq_message d |}.

Definition set_message (d : Db) v s := {| meta := meta d; member := member d;
  member_name_history := member_name_history d; message := v;
  seq_member := seq_member d; seq_history := seq_history d; seq_message := s |}.

Definition insertMeta (n p t : string) (now : Z) (d : Db) : unit * Db :=
  (tt, set_meta d (meta d ++ [{| meta_name := n; meta_platform := p; meta_type := t;
                                  meta_imported_at := now |}])).

(** [INSERT OR IGNORE INTO member]: the UNIQUE platform_id decides. *)
Definition insertMember (pid nm : string) (d : Db) : unit * Db :=
  if existsb (fun r => String.eqb (m_platform_id r) pid) (member d)
  then (tt, d)
  else (tt, set_member d
              (member d ++ [{| m_id := seq_member d + 1; m_platform_id := pid; m_name := nm |}])
              (seq_member d + 1)).

Definition getMemberId (pid : string) (d : Db) : option Z * Db :=
  (option_map m_id (List.find (fun r => String.eqb (m_platform_id r) pid) (member d)), d).

Definition insertMessage (sender ts ty : Z) (c : option string) (d : Db) : unit * Db :=
  (tt, set_message d
         (message d ++ [{| msg_id := seq_message d + 1; msg_sender_id := sender;
                           msg_ts := ts; msg_type := ty; msg_content := c |}])
         (seq_message d + 1)).

Definition insertNameHistory (mid : Z) (nm : string) (start : Z) (e : option Z) (d : Db)
  : unit * Db :=
  (tt, set_history d
         (member_name_history d ++ [{| h_id := seq_history d + 1; h_member_id := mid;
                                       h_name := nm; h_start_ts := start; h_end_ts := e |}])
         (seq_history d + 1)).

Definition updateMemberName (nm pid : string) (d : Db) : unit * Db :=
  (tt, set_member d
         (List.map (fun r => if String.eqb (m_platform_id r) pid
                             then {| m_id := m_id r; m_platform_id := m_platform_id r; m_name := nm |}
                             else r) (member d))
         (seq_member d)).

Definition set_end_ts (ts : Z) (r : NameHistoryRow) : NameHistoryRow :=
  {| h_id := h_id r; h_member_id := h_member_id r; h_name := h_name r;
     h_start_ts := h_start_ts r; h_end_ts := Some ts |}.

(** [UPDATE member_name_history SET end_ts = ? WHERE member_id = ? AND
    end_ts IS NULL] *)
Definition updateNameHistoryEndTs (ts mid : Z) (d : Db) : unit * Db :=
  (tt, set_history d
         (List.map (fun r => if (h_member_id r =? mid) && is_null (h_end_ts r)
                             then set_end_ts ts r else r) (member_name_history d))
         (seq_history d)).

(** ** JavaScript [Map], iterated in insertion order *)

Definition JsMap (V : Type) : Type := list (string * V).

Fixpoint Map_get {V : Type} (k : string) (m : JsMap V) : option V :=
  match m with
  | [] => None
  | (k', v) :: m' => if String.eqb k' k then Some v else Map_get k m'
  end.

Fixpoint Map_set {V : Type} (k : string) (v : V) (m : JsMap V) : JsMap V :=
  match m with
  | [] => [(k, v)]
  | (k', v') :: m' => if String.eqb k' k then (k', v) :: m' else (k', v') :: Map_set k v m'
  end.

Record Tracker := {
  currentName : string;
  lastSeenTs : Z
}.

(** ** [importData] *)

(** The first loop: insert-if-absent, then read the assigned id back. *)
Definition import_member (memberIdMap : gmap string Z) (member : ParsedMember)
  : Tx (gmap string Z) :=
  exec (insertMember (platformId member) (name member)) ;;
  row <- exec (getMemberId (platformId member)) ;;
  match row with
  | Some id => ret (<[platformId member := id]> memberIdMap)
  | None => throw "TypeError"%string
  end.

(** One turn of the walk over the sorted messages. *)
Definition import_message (memberIdMap : gmap string Z)
  (nicknameTracker : JsMap Tracker) (msg : ParsedMessage) : Tx (JsMap Tracker) :=
  match memberIdMap !! senderPlatformId msg with
  | None => ret nicknameTracker
  | Some senderId =>
      exec (insertMessage senderId (timestamp msg) (type msg) (content msg)) ;;
      let currentName' := senderName msg in
      match Map_get (senderPlatformId msg) nicknameTracker with
      | None =>
          let nicknameTracker' :=
            Map_set (senderPlatformId msg)
              {| currentName := currentName'; lastSeenTs := timestamp msg |} nicknameTracker in
          exec (insertNameHistory senderId currentName' (timestamp msg) None) ;;
          ret nicknameTracker'
      | Some tracker =>
          if negb (String.eqb (currentName tracker) currentName') then
            exec (updateNameHistoryEndTs (timestamp msg) senderId) ;;
            exec (insertNameHistory senderId currentName' (timestamp msg) None) ;;
            ret (Map_set (senderPlatformId msg)
                   {| currentName := currentName'; lastSeenTs := timestamp msg |} nicknameTracker)
          else
            ret (Map_set (senderPlatformId msg)
                   {| currentName := currentName tracker; lastSeenTs := timestamp msg |}
                   nicknameTracker)
      end
  end.

Definition sortedMessages (parseResult : ParseResult) : list ParsedMessage :=
  Array_sort (fun a b => timestamp a - timestamp b) (messages parseResult).

Definition importTransaction (parseResult : ParseResult) (now : Z) : Tx unit :=
  exec (insertMeta (pmeta_name (pr_meta parseResult)) (pmeta_platform (pr_meta parseResult))
          (pmeta_type (pr_meta parseResult)) now) ;;
  memberIdMap <- forEach import_member (members parseResult) ∅ ;;
  nicknameTracker <- forEach (import_message memberIdMap) (sortedMessages parseResult) [] ;;
  forEach (fun (_ : unit) (entry : string * Tracker) =>
             exec (updateMemberName (currentName (snd entry)) (fst entry)))
          nicknameTracker tt.

Section SessionFiles.

(** [getDbDir ()], fixed once the application runs. *)
Variable DB_DIR : string.

(** [new Database(dbPath)] followed by the CREATE ... IF NOT EXISTS script:
    a missing file is created with empty relations, an existing database
    keeps its rows. *)
Definition createDatabase (fs : Fs) (sessionId : string) : outcome (Fs * Db) :=
  let dbPath := getDbPath DB_DIR sessionId in
  match fs !! dbPath with
  | None => Done (<[dbPath := {| file_data := SqliteFile empty_db; file_busy := false |}]> fs,
                  empty_db)
  | Some f =>
      match file_data f with
      | SqliteFile db => Done (fs, db)
      | SideFile => Raised "SqliteError"%string
      end
  end.

Definition openDatabase (fs : Fs) (sessionId : string) : outcome (option Db) :=
  match fs !! getDbPath DB_DIR sessionId with
  | None => Done None
  | Some f =>
      match file_data f with
      | SqliteFile db => Done (Some db)
      | SideFile => Raised "SqliteError"%string
      end
  end.

(** What [db.close ()] leaves in the session file. *)
Definition store_db (path : string) (db : Db) (fs : Fs) : Fs :=
  alter (fun f => {| file_data := SqliteFile db; file_busy := file_busy f |}) path fs.

(** [importData]: [sessionId] is the identifier [generateSessionId] drew,
    [now] the import time in seconds, [fault] the statement that raises. *)
Definition importData (fs : Fs) (sessionId : string) (now : Z) (fault : option nat)
  (parseResult : ParseResult) : Fs * outcome string :=
  match createDatabase fs sessionId with
  | Raised e => (fs, Raised e)
  | Done (fs1, db) =>
      match db_transaction (importTransaction parseResult now) db fault with
      | (db', Done _) => (store_db (getDbPath DB_DIR sessionId) db' fs1, Done sessionId)
      | (db', Raised e) => (store_db (getDbPath DB_DIR sessionId) db' fs1, Raised e)
      end
  end.

(** ** [deleteSession] *)

Definition existsSync (path : string) (fs : Fs) : bool :=
  bool_decide (is_Some (fs !! path)).

Definition unlinkSync (path : string) (fs : Fs) : outcome Fs :=
  match fs !! path with
  | None => Raised "ENOENT"%string
  | Some f => if file_busy f then Raised "EBUSY"%string else Done (delete path fs)
  end.

(** [if (fs.existsSync(p)) fs.unlinkSync(p)] *)
Definition unlink_if_exists (path : string) (fs : Fs) : outcome Fs :=
  if existsSync path fs then unlinkSync path fs else Done fs.

Definition deleteSession (fs : Fs) (sessionId : string) : Fs * bool :=
  let dbPath := getDbPath DB_DIR sessionId in
  let walPath := dbPath +:+ "-wal" in
  let shmPath := dbPath +:+ "-shm" in
  match unlink_if_exists dbPath fs with
  | Raised _ => (fs, false)
  | Done fs1 =>
      match unlink_if_exists walPath fs1 with
      | Raised _ => (fs1, false)
      | Done fs2 =>
          match unlink_if_exists shmPath fs2 with
          | Raised _ => (fs2, false)
          | Done fs3 => (fs3, true)
          end
      end
  end.

End SessionFiles.

(** A removal of [path] that would not raise. *)
Definition removable (path : string) (fs : Fs) : Prop :=
  forall f, fs !! path = Some f -> file_busy f = false.

(** ** [getMemberActivity] *)

(** A condition of a WHERE or ON clause over a joined (message, member) row. *)
Inductive Cond :=
| CTs (c : TsCond)
| CNotSystem.

(** [m.name != '系统消息'] *)
Definition not_system (m : MemberRow) : bool :=
  negb (String.eqb (m_name m) SYSTEM_SENDER).

Definition eval_Cond (c : Cond) (msg : MessageRow) (m : MemberRow) : bool :=
  match c with
  | CTs c => eval_cond c (msg_ts msg)
  | CNotSystem => not_system m
  end.

Definition eval_where (cs : list Cond) (msg : MessageRow) (m : MemberRow) : bool :=
  forallb (fun c => eval_Cond c msg m) cs.

(** [buildSystemMessageFilter]: the system-sender exclusion, appended to the
    time clause when there is one. *)
Definition buildSystemMessageFilter (existingClause : list TsCond) : list Cond :=
  match existingClause with
  | [] => [CNotSystem]
  | _ :: _ => List.map CTs existingClause ++ [CNotSystem]
  end.

(** [FROM message msg JOIN member m ON msg.sender_id = m.id] *)
Definition message_join_member (d : Db) : list (MessageRow * MemberRow) :=
  flat_map (fun msg =>
              List.map (fun m => (msg, m))
                (List.filter (fun m => msg_sender_id msg =? m_id m) (member d)))
           (message d).

(** The separately computed total: [SELECT COUNT] over the join. *)
Definition totalMessages (d : Db) (clause : list TsCond) : Z :=
  Z.of_nat (length (List.filter (fun row => eval_where (buildSystemMessageFilter clause)
                                              (fst row) (snd row))
                      (message_join_member d))).

(** [COUNT(msg.id)] of the group of member [m] in the LEFT JOIN, whose ON
    clause carries the time filter and the system-sender exclusion. *)
Definition member_message_count (d : Db) (clause : list TsCond) (m : MemberRow) : Z :=
  Z.of_nat (length (List.filter
                      (fun msg => (m_id m =? msg_sender_id msg) &&
                                  eval_where (List.map CTs clause ++ [CNotSystem]) msg m)
                      (message d))).

(** The grouped rows: one group per member row ([member.id] is the primary
    key), [WHERE m.name != system], [HAVING messageCount > 0],
    [ORDER BY messageCount DESC]. *)
Definition member_activity_rows (d : Db) (clause : list TsCond) : list (MemberRow * Z) :=
  order_by_desc snd
    (List.filter (fun row => 0 <? snd row)
       (List.map (fun m => (m, member_message_count d clause m))
          (List.filter not_system (member d)))).

Record MemberActivity := {
  memberId : Z;
  ma_platformId : string;
  ma_name : string;
  messageCount : Z;
  percentage : Q
}.

(** [Math.round], on exact rationals: the nearest integer, halves upwards. *)
Definition Math_round (x : Q) : Z := Qfloor (x + (1 # 2))%Q.

Definition percentage_of (count total : Z) : Q :=
  if 0 <? total
  then (inject_Z (Math_round ((inject_Z count / inject_Z total) * 10000)) / 100)%Q
  else 0%Q.

Definition getMemberActivity (DB_DIR : string) (fs : Fs) (sessionId : string)
  (filter : option TimeFilter) : outcome (list MemberActivity) :=
  match openDatabase DB_DIR fs sessionId with
  | Raised e => Raised e
  | Done None => Done []
  | Done (Some db) =>
      let clause := buildTimeFilter filter in
      let totalMessages' := totalMessages db clause in
      let rows := member_activity_rows db clause in
      Done (List.map (fun row =>
                        {| memberId := m_id (fst row);
                           ma_platformId := m_platform_id (fst row);
                           ma_name := m_name (fst row);
                           messageCount := snd row;
                           percentage := percentage_of (snd row) totalMessages' |})
                     rows)
  end.

Definition Zsum (l : list Z) : Z := fold_right Z.add 0 l.

(** ** Reading the result of an import *)

(** The name-history rows of one member, in rowid order. *)
Definition history_of (mid : Z) (d : Db) : list NameHistoryRow :=
  List.filter (fun r => h_member_id r =? mid) (member_name_history d).

(** A member's rows form a timeline: every row but the last is closed
    exactly where the next one starts, starts never decrease, and the last
    row is open. *)
Fixpoint timeline (l : list NameHistoryRow) : Prop :=
  match l with
  | [] => False
  | r :: l' =>
      match l' with
      | [] => h_end_ts r = None
      | r' :: _ =>
          h_end_ts r = Some (h_start_ts r') /\ h_start_ts r <= h_start_ts r' /\ timeline l'
      end
  end.

(** What closing the open interval at [ts] does to a row of the member. *)
Definition close_row (ts : Z) (r : NameHistoryRow) : NameHistoryRow :=
  if is_null (h_end_ts r) then set_end_ts ts r else r.

(** A message whose sender resolves through [memberIdMap]. *)
Definition known (mm : gmap string Z) (msg : ParsedMessage) : bool :=
  bool_decide (is_Some (mm !! senderPlatformId msg)).

(** [row] is the stored form of [msg], sent by member [sid]. *)
Definition stored (msg : ParsedMessage) (sid : Z) (row : MessageRow) : Prop :=
  msg_sender_id row = sid /\ msg_ts row = timestamp msg /\
  msg_type row = type msg /\ msg_content row = content msg.

(** ** Invariants of the import loops *)

(** The member relation and the in-memory [memberIdMap] agree. *)
Record members_ok (mm : gmap string Z) (d : Db) : Prop := {
  mo_pid_nodup : NoDup (List.map m_platform_id (member d));
  mo_id_nodup : NoDup (List.map m_id (member d));
  mo_id_bound : Forall (fun r => m_id r <= seq_member d) (member d);
  mo_map : forall p i,
      mm !! p = Some i <->
      exists r, In r (member d) /\ m_platform_id r = p /\ m_id r = i
}.

(** The history rows and the tracker after the messages [pre]. *)
Record walk_hist (mm : gmap string Z) (pre : list ParsedMessage) (tracker : JsMap Tracker) (d : Db) : Prop := {
  wh_timeline : forall mid, history_of mid d = [] \/ timeline (history_of mid d);
  wh_tracker : forall p mid, mm !! p = Some mid ->
      match Map_get p tracker with
      | None => history_of mid d = [] /\ ~ In p (List.map senderPlatformId pre)
      | Some tr =>
          exists init open,
            history_of mid d = init ++ [open] /\ h_name open = currentName tr /\
            In p (List.map senderPlatformId pre)
      end;
  wh_keys : NoDup (List.map fst tracker);
  wh_starts :
    Forall (fun r => In (h_start_ts r) (List.map timestamp pre)) (member_name_history d);
  wh_covered : forall msg sid,
      In msg pre -> mm !! senderPlatformId msg = Some sid ->
      exists r, In r (member_name_history d) /\ h_member_id r = sid /\
                h_name r = senderName msg /\ h_start_ts r <= timestamp msg
}.

(** The other relations after the messages [pre], from the state [db1] in
    which the walk began. *)
Record walk_msgs (mm : gmap string Z) (db1 : Db) (pre : list ParsedMessage) (d : Db) : Prop := {
  wm_meta : meta d = meta db1;
  wm_member : member d = member db1;
  wm_seq : seq_member d = seq_member db1;
  wm_stored : forall msg sid,
      In msg pre -> mm !! senderPlatformId msg = Some sid ->
      exists row, In row (message d) /\ stored msg sid row;
  wm_origin : forall row,
      In row (message d) ->
      In row (message db1) \/
      exists msg sid, In msg pre /\ mm !! senderPlatformId msg = Some sid /\ stored msg sid row;
  wm_len : length (message d) =
           (length (message db1) + length (List.filter (known mm) pre))%nat
}.

(** The member row once the closing loop has written the tracked name. *)
Definition rename_row (tracker : JsMap Tracker) (r : MemberRow) : MemberRow :=
  match Map_get (m_platform_id r) tracker with
  | Some tr => {| m_id := m_id r; m_platform_id := m_platform_id r; m_name := currentName tr |}
  | None => r
  end.

(** A message whose sender is in the member list of the parse result. *)
Definition listed (pr : ParseResult) (msg : ParsedMessage) : bool :=
  existsb (fun m => String.eqb (platformId m) (senderPlatformId msg)) (members pr).


(** The name-history invariant of one member row. *)
Definition nickname_invariant (d : Db) (m : MemberRow) : Prop :=
  exists init open,
    history_of (m_id m) d = init ++ [open] /\
    h_end_ts open = None /\
    Forall (fun r => h_end_ts r <> None) init /\
    StronglySorted (fun a b => h_start_ts a <= h_start_ts b) (history_of (m_id m) d) /\
    (forall l1 r l2 r' l3,
        history_of (m_id m) d = l1 ++ r :: l2 ++ r' :: l3 ->
        exists e, h_end_ts r = Some e /\ h_start_ts r <= e /\ e <= h_start_ts r') /\
    m_name m = h_name open.

(** The scenario of the specification: X sends as Alice, Alicia, Alicia and
    Y sends as Bob. *)
Definition scenario : ParseResult :=
  {| pr_meta := {| pmeta_name := "g"; pmeta_platform := "qq"; pmeta_type := "group" |};
     members := [ {| platformId := "X"; name := "Alice" |};
                  {| platformId := "Y"; name := "Bob" |} ];
     messages := [ {| senderPlatformId := "X"; senderName := "Alicia"; timestamp := 300;
                      type := 0; content := Some "c"%string |};
                   {| senderPlatformId := "X"; senderName := "Alice"; timestamp := 100;
                      type := 0; content := Some "a"%string |};
                   {| senderPlatformId := "Y"; senderName := "Bob"; timestamp := 150;
                      type := 0; content := Some "hi"%string |};
                   {| senderPlatformId := "X"; senderName := "Alicia"; timestamp := 200;
                      type := 0; content := Some "b"%string |} ] |}.

(** The same conversation with a third member who never writes. *)
Definition silent_scenario : ParseResult :=
  {| pr_meta := pr_meta scenario;
     members := members scenario ++ [ {| platformId := "Z"; name := "Zed" |} ];
     messages := messages scenario |}.


(** Two messages of one sender at the same second, under two nicknames, in
    both input orders. *)
Definition tie_ab : ParseResult :=
  {| pr_meta := pr_meta scenario;
     members := [ {| platformId := "X"; name := "x" |} ];
     messages := [ {| senderPlatformId := "X"; senderName := "A"; timestamp := 100;
                      type := 0; content := None |};
                   {| senderPlatformId := "X"; senderName := "B"; timestamp := 100;
                      type := 0; content := None |} ] |}.

Definition tie_ba : ParseResult :=
  {| pr_meta := pr_meta tie_ab;
     members := members tie_ab;
     messages := rev (messages tie_ab) |}.

(** ** The other analytics queries *)

(** The joined rows a WHERE clause built by [buildSystemMessageFilter]
    keeps. *)
Definition filtered_join (d : Db) (clause : list TsCond) : list (MessageRow * MemberRow) :=
  List.filter (fun row => eval_where (buildSystemMessageFilter clause) (fst row) (snd row))
    (message_join_member d).

Record HourlyActivity := {
  hour : Z;
  ha_messageCount : Z
}.

Record DailyActivity := {
  date : string;
  da_messageCount : Z
}.

Record TypeCount := {
  tc_type : Z;
  tc_count : Z
}.

Record TimeRange := {
  tr_start : Z;
  tr_end : Z
}.

Record NameHistoryEntry := {
  nh_name : string;
  nh_startTs : Z;
  nh_endTs : option Z
}.

Record AnalysisSession := {
  as_id : string;
  as_name : string;
  as_platform : string;
  as_type : string;
  as_importedAt : Z;
  as_messageCount : Z;
  as_memberCount : Z;
  as_dbPath : string
}.

Section Analytics.

Variable DB_DIR : string.

(** SQLite's [strftime(..., ts, 'unixepoch', 'localtime')] for the formats
    [%H], [%Y-%m-%d] and [%Y]: the local hour, date and year of a timestamp,
    as the time zone of the machine gives them. *)
Variable local_hour : Z -> Z.
Variable local_date : Z -> string.
Variable local_year : Z -> Z.

(** [getAvailableYears]: [SELECT DISTINCT year ... ORDER BY year DESC]. *)
Definition getAvailableYears (fs : Fs) (sessionId : string) : outcome (list Z) :=
  match openDatabase DB_DIR fs sessionId with
  | Raised e => Raised e
  | Done None => Done []
  | Done (Some db) =>
      Done (order_by_desc (fun year => year)
              (remove_dups (List.map (fun msg => local_year (msg_ts msg)) (message db))))
  end.

(** The grouped rows of [getHourlyActivity], [ORDER BY hour]. *)
Definition hourly_rows (d : Db) (clause : list TsCond) : list (Z * Z) :=
  order_by_asc fst
    (group_count (List.map (fun row => local_hour (msg_ts (fst row))) (filtered_join d clause))).

(** [getHourlyActivity]: the loop over [h = 0 .. 23] fills the hours the
    query did not return. *)
Definition getHourlyActivity (fs : Fs) (sessionId : string) (filter : option TimeFilter)
  : outcome (list HourlyActivity) :=
  match openDatabase DB_DIR fs sessionId with
  | Raised e => Raised e
  | Done None => Done []
  | Done (Some db) =>
      let rows := hourly_rows db (buildTimeFilter filter) in
      Done (List.map (fun h =>
                        let found := List.find (fun r => fst r =? h) rows in
                        {| hour := h;
                           ha_messageCount := match found with
                                              | Some r => snd r
                                              | None => 0
                                              end |})
                     (List.map Z.of_nat (seq 0 24)))
  end.

(** [getDailyActivity]: [GROUP BY date ORDER BY date]. *)
Definition getDailyActivity (fs : Fs) (sessionId : string) (filter : option TimeFilter)
  : outcome (list DailyActivity) :=
  match openDatabase DB_DIR fs sessionId with
  | Raised e => Raised e
  | Done None => Done []
  | Done (Some db) =>
      let rows :=
        Array_sort (fun a b => text_cmp (fst a) (fst b))
          (group_count (List.map (fun row => local_date (msg_ts (fst row)))
                          (filtered_join db (buildTimeFilter filter)))) in
      Done (List.map (fun r => {| date := fst r; da_messageCount := snd r |}) rows)
  end.

(** [getMessageTypeDistribution]: [GROUP BY msg.type ORDER BY count DESC]. *)
Definition getMessageTypeDistribution (fs : Fs) (sessionId : string)
  (filter : option TimeFilter) : outcome (list TypeCount) :=
  match openDatabase DB_DIR fs sessionId with
  | Raised e => Raised e
  | Done None => Done []
  | Done (Some db) =>
      let rows :=
        order_by_desc snd
          (group_count (List.map (fun row => msg_type (fst row))
                          (filtered_join db (buildTimeFilter filter)))) in
      Done (List.map (fun r => {| tc_type := fst r; tc_count := snd r |}) rows)
  end.

(** [getTimeRange]: [SELECT MIN(ts), MAX(ts) FROM message]. *)
Definition getTimeRange (fs : Fs) (sessionId : string) : outcome (option TimeRange) :=
  match openDatabase DB_DIR fs sessionId with
  | Raised e => Raised e
  | Done None => Done None
  | Done (Some db) =>
      match sql_min (List.map msg_ts (message db)), sql_max (List.map msg_ts (message db)) with
      | Some s, Some e => Done (Some {| tr_start := s; tr_end := e |})
      | _, _ => Done None
      end
  end.

(** [getMemberNameHistory]: the rows of one member, [ORDER BY start_ts DESC]. *)
Definition getMemberNameHistory (fs : Fs) (sessionId : string) (memberId : Z)
  : outcome (list NameHistoryEntry) :=
  match openDatabase DB_DIR fs sessionId with
  | Raised e => Raised e
  | Done None => Done []
  | Done (Some db) =>
      Done (List.map (fun r => {| nh_name := h_name r; nh_startTs := h_start_ts r;
                                  nh_endTs := h_end_ts r |})
              (order_by_desc h_start_ts (history_of memberId db)))
  end.

(** [getSession]: the meta row and the two counts that leave the system
    sender out. *)
Definition getSession (fs : Fs) (sessionId : string) : outcome (option AnalysisSession) :=
  match openDatabase DB_DIR fs sessionId with
  | Raised e => Raised e
  | Done None => Done None
  | Done (Some db) =>
      match meta db with
      | [] => Done None
      | meta :: _ =>
          let messageCount :=
            Z.of_nat (length (List.filter (fun row => not_system (snd row))
                                (message_join_member db))) in
          let memberCount := Z.of_nat (length (List.filter not_system (member db))) in
          Done (Some {| as_id := sessionId;
                        as_name := meta_name meta;
                        as_platform := meta_platform meta;
                        as_type := meta_type meta;
                        as_importedAt := meta_imported_at meta;
                        as_messageCount := messageCount;
                        as_memberCount := memberCount;
                        as_dbPath := getDbPath DB_DIR sessionId |})
      end
  end.

End Analytics.

(** ** What the import stores, written out *)

(** The message rows the walk inserts for the messages [l], ids counting
    from [next]. *)
Fixpoint stored_rows (mm : gmap string Z) (next : Z) (l : list ParsedMessage)
  : list MessageRow :=
  match l with
  | [] => []
  | msg :: l' =>
      match mm !! senderPlatformId msg with
      | Some sid =>
          {| msg_id := next; msg_sender_id := sid; msg_ts := timestamp msg;
             msg_type := type msg; msg_content := content msg |}
          :: stored_rows mm (next + 1) l'
      | None => stored_rows mm next l'
      end
  end.

(** The nickname changes in a run of messages of one sender: every message
    whose sender name differs from the one before it, with its timestamp. *)
Fixpoint nickname_changes (prev : option string) (l : list ParsedMessage)
  : list (string * Z) :=
  match l with
  | [] => []
  | msg :: l' =>
      if bool_decide (prev = Some (senderName msg))
      then nickname_changes prev l'
      else (senderName msg, timestamp msg) :: nickname_changes (Some (senderName msg)) l'
  end.

(** The messages of the sender [pid], in the order of the walk. *)
Definition messages_of (pid : string) (l : list ParsedMessage) : list ParsedMessage :=
  List.filter (fun msg => String.eqb (senderPlatformId msg) pid) l.

(** The sender name of the last message, or [prev] when there is none. *)
Definition last_name (prev : option string) (l : list ParsedMessage) : option string :=
  match last l with
  | Some msg => Some (senderName msg)
  | None => prev
  end.

(** The name and the start of an interval. *)
Definition name_start (r : NameHistoryRow) : string * Z := (h_name r, h_start_ts r).

(** The name under which the member list first gives [pid]. *)
Definition listed_name (l : list ParsedMember) (pid : string) : option string :=
  option_map name (List.find (fun m => String.eqb (platformId m) pid) l).

(** The walk after the messages [pre], row for row: the message rows, the
    intervals of every known sender and the name the tracker holds for it. *)
Record walk_exact (mm : gmap string Z) (db1 : Db) (pre : list ParsedMessage)
  (tracker : JsMap Tracker) (d : Db) : Prop := {
  we_message : message d = message db1 ++ stored_rows mm (seq_message db1 + 1) pre;
  we_seq : seq_message d =
           seq_message db1 + Z.of_nat (length (stored_rows mm (seq_message db1 + 1) pre));
  we_history : forall p sid, mm !! p = Some sid ->
      List.map name_start (history_of sid d) = nickname_changes None (messages_of p pre);
  we_tracker : forall p sid, mm !! p = Some sid ->
      option_map currentName (Map_get p tracker) = last_name None (messages_of p pre)
}.

(** The member relation after the first loop went over [pre]: ids count
    from 1 in row order, and every row carries the name of the first entry
    with its platform id. *)
Record member_table (pre : list ParsedMember) (d : Db) : Prop := {
  mt_ids : List.map m_id (member d) = List.map Z.of_nat (seq 1 (length (member d)));
  mt_seq : seq_member d = Z.of_nat (length (member d));
  mt_pids : forall p, In p (List.map m_platform_id (member d)) <->
                      In p (List.map platformId pre);
  mt_names : forall r, In r (member d) -> listed_name pre (m_platform_id r) = Some (m_name r)
}.

(** The name the import leaves with the member [pid]: the sender name of
    its latest message, or its listed name when it sent none. *)
Definition final_name (pr : ParseResult) (pid : string) : option string :=
  last_name (listed_name (members pr) pid) (messages_of pid (sortedMessages pr)).

Definition not_system_name (o : option string) : bool :=
  match o with
  | Some n => negb (String.eqb n SYSTEM_SENDER)
  | None => false
  end.

(** A message the counts of [getSession] include: its sender is listed and
    does not end up under the system name. *)
Definition counted (pr : ParseResult) (msg : ParsedMessage) : bool :=
  listed pr msg && not_system_name (final_name pr (senderPlatformId msg)).

(** Local time of a machine on UTC, for the examples. *)
Definition utc_hour (ts : Z) : Z := (ts / 3600) mod 24.

End Database.

(** * The AI query module: search, recent messages, context windows *)
Module AiQuery.

(** The member relation of the schema this module queries. *)
Record MemberRow := {
  m_id : Z;
  m_platform_id : string;
  m_account_name : option string;
  m_group_nickname : option string
}.

Record Db := {
  member : list MemberRow;
  message : list MessageRow
}.

(** Modelled from the spec: [openDatabase] is imported from the core module,
    which is not among the sources; the specification gives it as
    [open(session_id) -> Store | NotFound], a lookup of the session's store
    that may find nothing (the older [openDatabase] of the database service
    returns [null] for a missing file in the same way). *)
Definition openDatabase (stores : gmap string Db) (sessionId : string) : option Db :=
  stores !! sessionId.

Record SearchMessageResult := {
  id : Z;
  senderName : string;
  senderPlatformId : string;
  content : option string;
  timestamp : Z;
  type : Z
}.

(** [COALESCE(a, b, c)] with a last argument that is never null. *)
Definition COALESCE (a b : option string) (c : string) : string :=
  match a with
  | Some x => x
  | None => match b with Some y => y | None => c end
  end.

(** [FROM message msg JOIN member m ON msg.sender_id = m.id] *)
Definition message_join_member (d : Db) : list (MessageRow * MemberRow) :=
  flat_map (fun msg =>
              List.map (fun m => (msg, m))
                (List.filter (fun m => msg_sender_id msg =? m_id m) (member d)))
           (message d).

(** The SELECT list shared by the three queries. *)
Definition select_result (row : MessageRow * MemberRow) : SearchMessageResult :=
  {| id := msg_id (fst row);
     senderName := COALESCE (m_group_nickname (snd row)) (m_account_name (snd row))
                     (m_platform_id (snd row));
     senderPlatformId := m_platform_id (snd row);
     content := msg_content (fst row);
     timestamp := msg_ts (fst row);
     type := msg_type (fst row) |}.

(** [COALESCE(m.account_name, '') != '系统消息'] *)
Definition not_system (m : MemberRow) : bool :=
  negb (String.eqb (match m_account_name m with Some a => a | None => ""%string end)
          SYSTEM_SENDER).


(** SQL [OFFSET n]: a negative offset counts as none. *)
Definition sql_offset {A : Type} (n : Z) (l : list A) : list A :=
  skipn (Z.to_nat n) l.

(** ** [getRecentMessages] *)



(** ** [searchMessages] *)

(** ASCII upper case, the only case folding SQLite's LIKE does. *)
Definition upper (c : ascii) : ascii :=
  let n := nat_of_ascii c in
  if ((97 <=? n) && (n <=? 122))%nat then ascii_of_nat (n - 32) else c.

(** SQLite's [text LIKE pattern] on single-byte text: [%] stands for any
    run of characters, [_] for any one character, anything else for itself
    up to ASCII case. *)
Fixpoint like (pattern : string) : string -> bool :=
  match pattern with
  | EmptyString => fun text => match text with EmptyString => true | String _ _ => false end
  | String p pattern' =>
      if Ascii.eqb p "%" then
        fix any (text : string) : bool :=
          like pattern' text ||
          match text with
          | EmptyString => false
          | String _ text' => any text'
          end
      else if Ascii.eqb p "_" then
        fun text =>
          match text with
          | EmptyString => false
          | String _ text' => like pattern' text'
          end
      else
        fun text =>
          match text with
          | EmptyString => false
          | String c text' => Ascii.eqb (upper p) (upper c) && like pattern' text'
          end
  end.

(** [msg.content LIKE ?], false on a null content. *)
Definition content_like (pattern : string) (c : option string) : bool :=
  match c with
  | Some text => like pattern text
  | None => false
  end.

(** The keyword condition: [1=1] without keywords, else the OR of
    [msg.content LIKE '%' + k + '%']. *)
Definition keywordCondition (keywords : list string) (c : option string) : bool :=
  match keywords with
  | [] => true
  | _ :: _ => existsb (fun k => content_like ("%" +:+ k +:+ "%") c) keywords
  end.

Definition search_where (keywords : list string) (clause : list TsCond)
  (senderId : option Z) (row : MessageRow * MemberRow) : bool :=
  keywordCondition keywords (msg_content (fst row)) &&
  eval_clause clause (msg_ts (fst row)) &&
  not_system (snd row) &&
  match senderId with
  | Some s => msg_sender_id (fst row) =? s
  | None => true
  end.

Definition searchMessages (stores : gmap string Db) (sessionId : string)
  (keywords : list string) (filter : option TimeFilter) (limit offset : option Z)
  (senderId : option Z) : list SearchMessageResult * Z :=
  let limit := default 20 limit in
  let offset := default 0 offset in
  match openDatabase stores sessionId with
  | None => ([], 0)
  | Some db =>
      let timeCondition := buildTimeFilter filter in
      let matching :=
        List.filter (search_where keywords timeCondition senderId) (message_join_member db) in
      let total := Z.of_nat (length matching) in
      let rows :=
        sql_limit limit (sql_offset offset (order_by_desc (fun row => msg_ts (fst row)) matching)) in
      (List.map select_result rows, total)
  end.

(** [k] occurs in [s] as a literal substring. *)
Fixpoint contains (k s : string) : bool :=
  String.prefix k s ||
  match s with
  | EmptyString => false
  | String _ s' => contains k s'
  end.

(** ** [getMessageContext] *)

(** [messageIds: number | number[]] *)
Inductive MessageIds :=
| OneId (messageId : Z)
| ManyIds (messageIds : list Z).

(** The ids of the [contextSize] nearest messages below [messageId]. *)
Definition beforeRows (d : Db) (messageId contextSize : Z) : list Z :=
  sql_limit contextSize
    (order_by_desc (fun i => i)
       (List.map msg_id (List.filter (fun msg => msg_id msg <? messageId) (message d)))).

(** The ids of the [contextSize] nearest messages above [messageId]. *)
Definition afterRows (d : Db) (messageId contextSize : Z) : list Z :=
  sql_limit contextSize
    (order_by_asc (fun i => i)
       (List.map msg_id (List.filter (fun msg => messageId <? msg_id msg) (message d)))).

(** One turn of the loop over the target ids, on the [Set] of context ids. *)
Definition add_context (d : Db) (contextSize : Z) (contextIds : gset Z) (messageId : Z)
  : gset Z :=
  let contextIds := {[messageId]} ∪ contextIds in
  let contextIds := fold_left (fun s i => {[i]} ∪ s) (beforeRows d messageId contextSize) contextIds in
  fold_left (fun s i => {[i]} ∪ s) (afterRows d messageId contextSize) contextIds.

Definition getMessageContext (stores : gmap string Db) (sessionId : string)
  (messageIds : MessageIds) (contextSize : option Z) : list SearchMessageResult :=
  let contextSize := default 20 contextSize in
  match openDatabase stores sessionId with
  | None => []
  | Some db =>
      let ids := match messageIds with OneId i => [i] | ManyIds l => l end in
      match ids with
      | [] => []
      | _ :: _ =>
          let contextIds := fold_left (add_context db contextSize) ids ∅ in
          if decide (size contextIds = 0%nat) then []
          else
            let rows :=
              order_by_asc (fun row => msg_id (fst row))
                (List.filter (fun row => bool_decide (msg_id (fst row) ∈ contextIds))
                   (message_join_member db)) in
            List.map select_result rows
      end
  end.

(** ** [getConversationBetween] *)






(** Primary keys are unique and every message has its sender's row. *)
Definition well_formed (d : Db) : Prop :=
  NoDup (List.map msg_id (message d)) /\
  NoDup (List.map m_id (member d)) /\
  Forall (fun msg => Exists (fun m => m_id m = msg_sender_id msg) (member d)) (message d).

(** A small store: four text messages, a picture, an empty message and a
    system notice. *)
Definition sample_db : Db :=
  {| member := [ {| m_id := 1; m_platform_id := "u1"; m_account_name := Some "ann"%string;
                    m_group_nickname := None |};
                 {| m_id := 2; m_platform_id := "u2"; m_account_name := Some "bob"%string;
                    m_group_nickname := Some "Bobby"%string |};
                 {| m_id := 3; m_platform_id := "sys";
                    m_account_name := Some SYSTEM_SENDER; m_group_nickname := None |} ];
     message := [ {| msg_id := 1; msg_sender_id := 1; msg_ts := 100; msg_type := 0;
                     msg_content := Some "abc"%string |};
                  {| msg_id := 2; msg_sender_id := 2; msg_ts := 300; msg_type := 0;
                     msg_content := Some "hello"%string |};
                  {| msg_id := 3; msg_sender_id := 3; msg_ts := 150; msg_type := 0;
                     msg_content := Some "joined"%string |};
                  {| msg_id := 4; msg_sender_id := 1; msg_ts := 200; msg_type := 1;
                     msg_content := Some "pic"%string |};
                  {| msg_id := 5; msg_sender_id := 2; msg_ts := 250; msg_type := 0;
                     msg_content := Some ""%string |};
                  {| msg_id := 6; msg_sender_id := 1; msg_ts := 120; msg_type := 0;
                     msg_content := Some "a_c 100%"%string |};
                  {| msg_id := 7; msg_sender_id := 2; msg_ts := 400; msg_type := 0;
                     msg_content := None |} ] |}.

Definition sample_stores : gmap string Db := {[ "s1"%string := sample_db ]}.

End AiQuery.


(** * Facts about sorting and sorted lists *)
Module SortTheory.

Section SortingBy.
Context {A : Type} (cmp : A -> A -> Z) (R : A -> A -> Prop).
Hypothesis cmp_le : forall x y, cmp x y <= 0 -> R x y.
Hypothesis cmp_gt : forall x y, 0 < cmp x y -> R y x.
Hypothesis R_trans : forall x y z, R x y -> R y z -> R x z.

Lemma sort_insert_perm x l : Permutation (sort_insert cmp x l) (x :: l).
Proof.
  induction l as [|y l IH]; simpl; [reflexivity|].
  destruct (cmp x y <=? 0); [reflexivity|].
  rewrite IH. apply perm_swap.
Qed.

Lemma Array_sort_perm l : Permutation (Array_sort cmp l) l.
Proof.
  induction l as [|x l IH]; simpl; [reflexivity|].
  rewrite sort_insert_perm. constructor. exact IH.
Qed.

Lemma sort_insert_sorted x l :
  StronglySorted R l -> StronglySorted R (sort_insert cmp x l).
Proof.
  induction l as [|y l IH]; simpl; intros Hs.
  - repeat constructor.
  - apply StronglySorted_inv in Hs as [Hs Hy].
    destruct (Z.leb_spec (cmp x y) 0) as [Hle | Hgt].
    + constructor; [constructor; assumption|].
      constructor; [auto|].
      eapply Forall_impl; [exact Hy|]. simpl. intros z Hz. eapply R_trans; eauto.
    + constructor; [apply IH; exact Hs|].
      rewrite Forall_forall. intros z Hz.
      apply list_elem_of_In in Hz.
      apply (Permutation_in _ (sort_insert_perm x l)) in Hz as [<- | Hz].
      * auto.
      * rewrite Forall_forall in Hy. apply Hy, list_elem_of_In, Hz.
Qed.

Lemma Array_sort_sorted_by l : StronglySorted R (Array_sort cmp l).
Proof.
  induction l as [|x l IH]; simpl; [constructor|].
  apply sort_insert_sorted. exact IH.
Qed.

End SortingBy.

Section Sorting.
Context {A : Type} (key : A -> Z).

Let by_key (a b : A) : Z := key a - key b.
Let le_key (a b : A) : Prop := key a <= key b.

Lemma Array_sort_sorted l : StronglySorted le_key (Array_sort by_key l).
Proof.
  apply Array_sort_sorted_by; unfold by_key, le_key.
  - intros x y. lia.
  - intros x y. lia.
  - intros x y z. lia.
Qed.

(** In a sorted list, what comes before an element is not larger. *)
Lemma sorted_prefix_le l pre x suf :
  StronglySorted le_key l -> l = pre ++ x :: suf ->
  forall y, In y pre -> key y <= key x.
Proof.
  intros Hs -> y Hy. revert Hs. induction pre as [|z pre IH]; [destruct Hy|].
  simpl. intros Hs. apply StronglySorted_inv in Hs as [Hs Hz].
  destruct Hy as [-> | Hy]; [|auto].
  rewrite Forall_forall in Hz. apply Hz, list_elem_of_In, in_app_iff. right. left. reflexivity.
Qed.

(** Two strictly sorted lists with the same elements are the same list. *)
Lemma strictly_sorted_perm_eq l1 l2 :
  StronglySorted (fun a b => key a < key b) l1 ->
  StronglySorted (fun a b => key a < key b) l2 ->
  Permutation l1 l2 -> l1 = l2.
Proof.
  revert l2. induction l1 as [|a l1 IH]; intros l2 H1 H2 Hp.
  - apply Permutation_nil in Hp. auto.
  - destruct l2 as [|b l2]; [apply Permutation_sym, Permutation_nil in Hp; discriminate|].
    apply StronglySorted_inv in H1 as [H1 Ha].
    apply StronglySorted_inv in H2 as [H2 Hb].
    rewrite Forall_forall in Ha, Hb.
    assert (a = b) as ->.
    { assert (Hin1 : In a (b :: l2)) by (eapply Permutation_in; [exact Hp | left; reflexivity]).
      assert (Hin2 : In b (a :: l1))
        by (eapply Permutation_in; [symmetry; exact Hp | left; reflexivity]).
      destruct Hin1 as [-> | Hin1]; [reflexivity|].
      destruct Hin2 as [-> | Hin2]; [reflexivity|].
      apply list_elem_of_In, Hb in Hin1. apply list_elem_of_In, Ha in Hin2. lia. }
    f_equal. apply IH; auto. eapply Permutation_cons_inv; exact Hp.
Qed.

Lemma sorted_nodup_strict l :
  StronglySorted le_key l -> NoDup (List.map key l) ->
  StronglySorted (fun a b => key a < key b) l.
Proof.
  induction 1 as [|a l Hs IH Ha]; simpl; intros Hnd; [constructor|].
  apply NoDup_cons in Hnd as [Hx Hnd].
  constructor; [auto|].
  rewrite Forall_forall in *. intros y Hy. specialize (Ha y Hy). unfold le_key in Ha.
  assert (key a <> key y); [|lia].
  intros Heq. apply Hx. rewrite Heq. apply list_elem_of_In, in_map, list_elem_of_In, Hy.
Qed.

(** Sorting forgets the input order when the keys are pairwise distinct. *)
Lemma Array_sort_perm_eq l1 l2 :
  Permutation l1 l2 -> NoDup (List.map key l1) ->
  Array_sort by_key l1 = Array_sort by_key l2.
Proof.
  intros Hp Hnd.
  assert (Hk : forall l, Permutation l l1 -> NoDup (List.map key l)).
  { intros l Hl. apply (Permutation_map key) in Hl. rewrite Hl. exact Hnd. }
  apply strictly_sorted_perm_eq.
  - apply sorted_nodup_strict; [apply Array_sort_sorted|]. apply Hk, Array_sort_perm.
  - apply sorted_nodup_strict; [apply Array_sort_sorted|]. apply Hk.
    rewrite Array_sort_perm. symmetry. exact Hp.
  - rewrite !Array_sort_perm. exact Hp.
Qed.

End Sorting.


Lemma firstn_In {A : Type} n (l : list A) x : In x (firstn n l) -> In x l.
Proof.
  intros H. rewrite <- (firstn_skipn n l). apply in_app_iff. auto.
Qed.

Section SortedLists.
Context {A : Type} (R : A -> A -> Prop).



(** A prefix of a sorted list holds everything that sorts strictly before
    one of its elements. *)
Lemma firstn_closed n l a c :
  StronglySorted R l -> In a (firstn n l) -> In c l -> ~ R a c -> In c (firstn n l).
Proof.
  revert n. induction l as [|x l IH]; intros [|n] Hs Ha Hc Hnot; simpl in *; try tauto.
  apply StronglySorted_inv in Hs as [Hs Hx].
  destruct Hc as [-> | Hc]; [auto|].
  destruct Ha as [-> | Ha].
  - exfalso. apply Hnot. rewrite Forall_forall in Hx. apply Hx, list_elem_of_In, Hc.
  - right. apply IH; auto.
Qed.

End SortedLists.



Lemma StronglySorted_map {A B : Type} (f : A -> B) (R : B -> B -> Prop) l :
  StronglySorted (fun a b => R (f a) (f b)) l -> StronglySorted R (List.map f l).
Proof.
  induction 1 as [|a l Hs IH Ha]; simpl; constructor; [exact IH|].
  rewrite Forall_forall in Ha. rewrite Forall_forall. intros y Hy.
  apply list_elem_of_In, in_map_iff in Hy as (x & <- & Hx). apply Ha, list_elem_of_In, Hx.
Qed.


Lemma sql_limit_firstn {A : Type} n (l : list A) :
  sql_limit n l = firstn (limit_count n l) l.
Proof.
  unfold sql_limit, limit_count. destruct (n <? 0); [|reflexivity].
  symmetry. apply firstn_all.
Qed.

Lemma sql_limit_length {A : Type} n (l : list A) :
  0 <= n -> Z.of_nat (length (sql_limit n l)) <= n.
Proof.
  intros Hn. unfold sql_limit. destruct (Z.ltb_spec n 0); [lia|].
  rewrite length_firstn. lia.
Qed.

Lemma order_by_desc_sorted {A : Type} (key : A -> Z) l :
  StronglySorted (fun a b => key b <= key a) (order_by_desc key l).
Proof. unfold order_by_desc. apply Array_sort_sorted_by; intros; lia. Qed.

Lemma order_by_asc_sorted {A : Type} (key : A -> Z) l :
  StronglySorted (fun a b => key a <= key b) (order_by_asc key l).
Proof. unfold order_by_asc. apply Array_sort_sorted_by; intros; lia. Qed.

Lemma order_by_desc_perm {A : Type} (key : A -> Z) l : Permutation (order_by_desc key l) l.
Proof. apply Array_sort_perm. Qed.

Lemma order_by_asc_perm {A : Type} (key : A -> Z) l : Permutation (order_by_asc key l) l.
Proof. apply Array_sort_perm. Qed.

Lemma filter_none {A : Type} (p : A -> bool) l :
  (forall x, In x l -> p x = false) -> List.filter p l = [].
Proof.
  induction l as [|x l IH]; simpl; intros H; [reflexivity|].
  rewrite (H x) by auto. apply IH. auto.
Qed.

End SortTheory.

(** * Facts about the database service *)
Module DatabaseTheory.
Import Database SortTheory.

(** ** Reasoning about computations that completed *)

Lemma bind_Done {A B : Type} (m : Tx A) (k : A -> Tx B) st r :
  bind m k st = Done r -> exists a st1, m st = Done (a, st1) /\ k a st1 = Done r.
Proof.
  unfold bind. destruct (m st) as [[a st1]|e]; [eauto | discriminate].
Qed.

Lemma ret_Done {A : Type} (a b : A) st st' :
  ret a st = Done (b, st') -> a = b /\ st = st'.
Proof. unfold ret. intros [= -> ->]. auto. Qed.

Lemma exec_Done {A : Type} (stmt : Db -> A * Db) st a st' :
  exec stmt st = Done (a, st') -> stmt (tx_db st) = (a, tx_db st').
Proof.
  unfold exec. destruct (tx_fault st) as [[|n]|]; try discriminate;
    destruct (stmt (tx_db st)); intros [= <- <-]; reflexivity.
Qed.


(** Take a completed computation apart, statement by statement. *)
Ltac tx_inv H :=
  repeat match type of H with
  | bind _ _ _ = Done _ =>
      let a := fresh "a" in let st1 := fresh "st" in
      let H1 := fresh "Hstep" in
      apply bind_Done in H; destruct H as (a & st1 & H1 & H);
      try (apply exec_Done in H1; simpl in H1)
  | ret _ _ = Done _ => apply ret_Done in H; destruct H as [? ?]; subst
  | throw _ _ = Done _ => discriminate H
  end.

(** A loop that completed preserves what every completed turn preserves;
    the invariant sees the elements already visited. *)
Lemma forEach_invariant {A S : Type} (body : S -> A -> Tx S) (l : list A)
  (I : list A -> S -> Db -> Prop) :
  (forall pre x suf s st s' st',
      l = pre ++ x :: suf -> I pre s (tx_db st) ->
      body s x st = Done (s', st') -> I (pre ++ [x]) s' (tx_db st')) ->
  forall s st s' st',
    I [] s (tx_db st) -> forEach body l s st = Done (s', st') -> I l s' (tx_db st').
Proof.
  intros Hstep.
  assert (G : forall suf pre s st s' st',
             l = pre ++ suf -> I pre s (tx_db st) ->
             forEach body suf s st = Done (s', st') -> I l s' (tx_db st')).
  { induction suf as [|x suf IH]; intros pre s st s' st' Hl Hi Hrun.
    - simpl in Hrun. apply ret_Done in Hrun as [-> ->].
      rewrite app_nil_r in Hl. subst l. exact Hi.
    - simpl in Hrun. apply bind_Done in Hrun as (s1 & st1 & Hb & Hrun).
      apply (IH (pre ++ [x]) s1 st1 s' st').
      + rewrite <- app_assoc. exact Hl.
      + eapply Hstep; eauto.
      + exact Hrun. }
  intros s st s' st' Hi Hrun. eapply (G l []); eauto.
Qed.


(** ** The member loop *)

Lemma NoDup_map_inj {A B : Type} (f : A -> B) (l : list A) a b :
  NoDup (List.map f l) -> In a l -> In b l -> f a = f b -> a = b.
Proof.
  induction l as [|x l IH]; simpl; intros Hnd Ha Hb Hf; [contradiction|].
  apply NoDup_cons in Hnd as [Hx Hnd].
  rewrite list_elem_of_In in Hx.
  destruct Ha as [-> | Ha], Hb as [-> | Hb]; auto.
  - exfalso. apply Hx. rewrite Hf. apply in_map. exact Hb.
  - exfalso. apply Hx. rewrite <- Hf. apply in_map. exact Ha.
Qed.


Lemma members_ok_empty : members_ok ∅ empty_db.
Proof.
  split; simpl; try constructor.
  - intros H. rewrite lookup_empty in H. discriminate.
  - intros (r & [] & _).
Qed.

Lemma members_ok_inj mm d p q i :
  members_ok mm d -> mm !! p = Some i -> mm !! q = Some i -> p = q.
Proof.
  intros Hok Hp Hq.
  apply (mo_map _ _ Hok) in Hp as (r & Hr & <- & Hi).
  apply (mo_map _ _ Hok) in Hq as (r' & Hr' & <- & Hi').
  f_equal. eapply NoDup_map_inj; [apply (mo_id_nodup _ _ Hok) | auto..].
  congruence.
Qed.

Lemma existsb_pid_false l p :
  existsb (fun r => String.eqb (m_platform_id r) p) l = false ->
  forall r, In r l -> m_platform_id r <> p.
Proof.
  intros H r Hr Heq.
  assert (existsb (fun r => String.eqb (m_platform_id r) p) l = true).
  { apply existsb_exists. exists r. split; [exact Hr|]. apply String.eqb_eq. exact Heq. }
  congruence.
Qed.

Lemma insertMember_table pid nm d :
  NoDup (List.map m_platform_id (member d)) ->
  NoDup (List.map m_id (member d)) ->
  Forall (fun r => m_id r <= seq_member d) (member d) ->
  let d' := snd (insertMember pid nm d) in
  NoDup (List.map m_platform_id (member d')) /\
  NoDup (List.map m_id (member d')) /\
  Forall (fun r => m_id r <= seq_member d') (member d') /\
  (exists r, In r (member d') /\ m_platform_id r = pid) /\
  (forall r, In r (member d') -> m_platform_id r <> pid -> In r (member d)) /\
  (forall r, In r (member d) -> In r (member d')) /\
  meta d' = meta d /\ member_name_history d' = member_name_history d /\
  message d' = message d /\ seq_history d' = seq_history d /\
  seq_message d' = seq_message d.
Proof.
  intros Hp Hi Hb. unfold insertMember.
  destruct (existsb _ (member d)) eqn:E; simpl.
  - repeat split; auto.
    apply existsb_exists in E as (r & Hr & Heq). apply String.eqb_eq in Heq. eauto.
  - pose proof (existsb_pid_false _ _ E) as Hfresh.
    rewrite !List.map_app. simpl. repeat split.
    + apply NoDup_app. split; [exact Hp|]. split; [|apply NoDup_singleton].
      intros x Hx Hx'. apply list_elem_of_singleton in Hx'. subst x.
      apply list_elem_of_In, in_map_iff in Hx as (r & Hr & Hin).
      exact (Hfresh r Hin Hr).
    + apply NoDup_app. split; [exact Hi|]. split; [|apply NoDup_singleton].
      intros x Hx Hx'. apply list_elem_of_singleton in Hx'. subst x.
      apply list_elem_of_In, in_map_iff in Hx as (r & Hr & Hin).
      rewrite Forall_forall in Hb. apply list_elem_of_In, Hb in Hin. lia.
    + apply Forall_app. split.
      * eapply Forall_impl; [exact Hb|]. simpl. intros; lia.
      * constructor; [simpl; lia | constructor].
    + eexists. split; [apply in_app_iff; right; left; reflexivity | reflexivity].
    + intros r Hr Hne. apply in_app_iff in Hr as [Hr | [<- | []]]; [exact Hr|].
      simpl in Hne. congruence.
    + intros r Hr. apply in_app_iff. auto.
Qed.

Lemma import_member_ok mm m st mm' st' :
  members_ok mm (tx_db st) ->
  import_member mm m st = Done (mm', st') ->
  members_ok mm' (tx_db st') /\
  (exists i, mm' = <[platformId m := i]> mm) /\
  meta (tx_db st') = meta (tx_db st) /\
  member_name_history (tx_db st') = member_name_history (tx_db st) /\
  message (tx_db st') = message (tx_db st) /\
  seq_history (tx_db st') = seq_history (tx_db st) /\
  seq_message (tx_db st') = seq_message (tx_db st).
Proof.
  intros Hok Hrun. unfold import_member in Hrun. tx_inv Hrun.
  destruct (insertMember_table (platformId m) (name m) (tx_db st)
              (mo_pid_nodup _ _ Hok) (mo_id_nodup _ _ Hok) (mo_id_bound _ _ Hok))
    as (Hp & Hi & Hb & (r0 & Hr0 & Hr0p) & Hold & Hnew & Hrest).
  assert (E1 : tx_db st0 = snd (insertMember (platformId m) (name m) (tx_db st)))
    by (rewrite Hstep; reflexivity).
  rewrite <- E1 in *. clear E1 Hstep.
  unfold getMemberId in Hstep0. injection Hstep0 as Ha Hdb.
  destruct (List.find _ (member (tx_db st0))) as [r|] eqn:Hfind; simpl in Ha; subst a0.
  2:{ discriminate Hrun. }
  tx_inv Hrun. rewrite <- Hdb in *. clear Hdb.
  apply find_some in Hfind as [Hr Hrp]. apply String.eqb_eq in Hrp.
  split; [|split; [eauto | exact Hrest]].
  split; auto.
  intros p i. destruct (decide (platformId m = p)) as [<- | Hne].
  - rewrite lookup_insert_eq. split.
    + intros [= <-]. eauto.
    + intros (r' & Hr' & Hr'p & <-). f_equal.
      f_equal. eapply NoDup_map_inj; [exact Hp | auto..]. congruence.
  - rewrite lookup_insert_ne by exact Hne. rewrite (mo_map _ _ Hok). split.
    + intros (r' & Hr' & Hr'p & Hr'i). eauto 6.
    + intros (r' & Hr' & Hr'p & Hr'i). exists r'. repeat split; auto.
      apply Hold; [exact Hr' | congruence].
Qed.

Lemma member_loop mm0 l st mm st' :
  members_ok mm0 (tx_db st) ->
  forEach import_member l mm0 st = Done (mm, st') ->
  members_ok mm (tx_db st') /\
  (forall m, In m l -> is_Some (mm !! platformId m)) /\
  (forall p, is_Some (mm !! p) -> is_Some (mm0 !! p) \/ In p (List.map platformId l)) /\
  meta (tx_db st') = meta (tx_db st) /\
  member_name_history (tx_db st') = member_name_history (tx_db st) /\
  message (tx_db st') = message (tx_db st) /\
  seq_history (tx_db st') = seq_history (tx_db st) /\
  seq_message (tx_db st') = seq_message (tx_db st).
Proof.
  intros Hok Hrun.
  pose (I := fun (pre : list ParsedMember) (m : gmap string Z) (d : Db) =>
    members_ok m d /\
    (forall x, In x pre -> is_Some (m !! platformId x)) /\
    (forall p, is_Some (m !! p) -> is_Some (mm0 !! p) \/ In p (List.map platformId pre)) /\
    meta d = meta (tx_db st) /\
    member_name_history d = member_name_history (tx_db st) /\
    message d = message (tx_db st) /\
    seq_history d = seq_history (tx_db st) /\
    seq_message d = seq_message (tx_db st)).
  apply (forEach_invariant import_member l I) with (s := mm0) (st := st); [| |exact Hrun].
  - intros pre x suf s st1 s' st1' _ (Hm & Hdom & Hsub & H1 & H2 & H3 & H4 & H5) Hb.
    destruct (import_member_ok _ _ _ _ _ Hm Hb)
      as (Hm' & (i & ->) & G1 & G2 & G3 & G4 & G5).
    unfold I. split; [exact Hm'|]. split; [|split; [|repeat split; congruence]].
    + intros y Hy. apply in_app_iff in Hy as [Hy | [<- | []]].
      * destruct (decide (platformId x = platformId y)) as [-> | Hne].
        -- rewrite lookup_insert_eq. eauto.
        -- rewrite lookup_insert_ne by exact Hne. auto.
      * rewrite lookup_insert_eq. eauto.
    + intros p Hp. rewrite List.map_app, in_app_iff. simpl.
      destruct (decide (platformId x = p)) as [<- | Hne]; [auto|].
      rewrite lookup_insert_ne in Hp by exact Hne.
      destruct (Hsub p Hp); auto.
  - unfold I. split; [exact Hok|]. split; [intros x []|]. split; [auto|].
    repeat split; reflexivity.
Qed.


(** ** The insertion-ordered map *)

Lemma Map_get_set_eq {V : Type} k (v : V) m : Map_get k (Map_set k v m) = Some v.
Proof.
  induction m as [|[k' v'] m IH]; simpl.
  - rewrite String.eqb_refl. reflexivity.
  - destruct (String.eqb k' k) eqn:E; simpl; rewrite E; auto.
Qed.

Lemma Map_get_set_ne {V : Type} k k' (v : V) m :
  k <> k' -> Map_get k' (Map_set k v m) = Map_get k' m.
Proof.
  intros Hne. induction m as [|[k0 v0] m IH]; simpl.
  - apply String.eqb_neq in Hne. rewrite Hne. reflexivity.
  - destruct (String.eqb k0 k) eqn:E; simpl.
    + apply String.eqb_eq in E. subst k0.
      apply String.eqb_neq in Hne. rewrite Hne. reflexivity.
    + rewrite IH. reflexivity.
Qed.

Lemma Map_get_None {V : Type} k (m : JsMap V) :
  Map_get k m = None <-> ~ In k (List.map fst m).
Proof.
  induction m as [|[k' v'] m IH]; simpl; [tauto|].
  destruct (String.eqb k' k) eqn:E.
  - apply String.eqb_eq in E. split; [discriminate | intuition congruence].
  - apply String.eqb_neq in E. rewrite IH. intuition congruence.
Qed.

Lemma Map_set_keys {V : Type} k (v : V) m k' :
  In k' (List.map fst (Map_set k v m)) <-> k' = k \/ In k' (List.map fst m).
Proof.
  induction m as [|[k0 v0] m IH]; simpl; [intuition congruence|].
  destruct (String.eqb k0 k) eqn:E; simpl.
  - apply String.eqb_eq in E. subst. intuition congruence.
  - rewrite IH. intuition congruence.
Qed.

Lemma Map_set_NoDup {V : Type} k (v : V) m :
  NoDup (List.map fst m) -> NoDup (List.map fst (Map_set k v m)).
Proof.
  induction m as [|[k0 v0] m IH]; simpl; intros Hnd.
  - repeat constructor. intros H. inversion H.
  - apply NoDup_cons in Hnd as [Hx Hnd].
    destruct (String.eqb k0 k) eqn:E; simpl.
    + constructor; assumption.
    + constructor; [|auto]. rewrite list_elem_of_In in *.
      rewrite Map_set_keys. apply String.eqb_neq in E. intros [-> | H]; intuition congruence.
Qed.


(** ** Name-history rows of one member *)

Lemma history_of_snoc mid d new s :
  history_of mid (set_history d (member_name_history d ++ [new]) s) =
  history_of mid d ++ (if h_member_id new =? mid then [new] else []).
Proof.
  unfold history_of. simpl. rewrite List.filter_app. reflexivity.
Qed.

Lemma history_of_close t sid d mid :
  history_of mid (snd (updateNameHistoryEndTs t sid d)) =
  if mid =? sid then List.map (close_row t) (history_of mid d) else history_of mid d.
Proof.
  unfold history_of, updateNameHistoryEndTs. simpl.
  induction (member_name_history d) as [|r l IH]; simpl.
  - destruct (mid =? sid); reflexivity.
  - destruct (Z.eqb_spec mid sid) as [-> | Hne].
    + destruct (Z.eqb_spec (h_member_id r) sid) as [E | E]; simpl.
      * unfold close_row. destruct (is_null (h_end_ts r)); simpl;
          rewrite E, Z.eqb_refl; simpl; rewrite IH; reflexivity.
      * apply Z.eqb_neq in E. rewrite E. exact IH.
    + destruct (Z.eqb_spec (h_member_id r) sid) as [E | E]; simpl.
      * assert ((h_member_id r =? mid) = false) as Hm by (apply Z.eqb_neq; congruence).
        destruct (is_null (h_end_ts r)); simpl; rewrite Hm; exact IH.
      * destruct (h_member_id r =? mid); [f_equal|]; exact IH.
Qed.

Lemma timeline_last_open init x : timeline (init ++ [x]) -> h_end_ts x = None.
Proof.
  induction init as [|a init IH]; simpl; [auto|].
  destruct (init ++ [x]) eqn:E; [destruct init; discriminate|].
  intros (_ & _ & H). auto.
Qed.

Lemma timeline_init_closed init x :
  timeline (init ++ [x]) -> Forall (fun r => h_end_ts r <> None) init.
Proof.
  induction init as [|a init IH]; simpl; [constructor|].
  destruct (init ++ [x]) eqn:E; [destruct init; discriminate|].
  intros (Ha & _ & H). constructor; [congruence | auto].
Qed.

Lemma timeline_step t l new :
  timeline l -> Forall (fun r => h_start_ts r <= t) l ->
  h_start_ts new = t -> h_end_ts new = None ->
  timeline (List.map (close_row t) l ++ [new]).
Proof.
  intros Ht Hb Hs He. induction l as [|r l IH]; [destruct Ht|].
  apply Forall_cons in Hb as [Hr Hb].
  destruct l as [|r' l'].
  - simpl in *. unfold close_row. rewrite Ht. simpl. rewrite Hs.
    split; [reflexivity|]. split; [exact Hr | exact He].
  - destruct Ht as (E1 & E2 & Ht). specialize (IH Ht Hb).
    change (h_end_ts (close_row t r) = Some (h_start_ts (close_row t r')) /\
            h_start_ts (close_row t r) <= h_start_ts (close_row t r') /\
            timeline (List.map (close_row t) (r' :: l') ++ [new])).
    assert (Hc : close_row t r = r) by (unfold close_row; rewrite E1; reflexivity).
    assert (Hs' : h_start_ts (close_row t r') = h_start_ts r')
      by (unfold close_row; destruct (is_null _); reflexivity).
    rewrite Hc, Hs'. auto.
Qed.

Lemma timeline_Sorted l : timeline l -> Sorted (fun a b => h_start_ts a <= h_start_ts b) l.
Proof.
  induction l as [|r l IH]; [constructor|].
  destruct l as [|r' l']; simpl.
  - repeat constructor.
  - intros (_ & Hle & Ht). constructor; [auto | constructor; exact Hle].
Qed.

Lemma timeline_StronglySorted l :
  timeline l -> StronglySorted (fun a b => h_start_ts a <= h_start_ts b) l.
Proof.
  intros Ht. apply Sorted_StronglySorted; [|apply timeline_Sorted, Ht].
  intros a b c. lia.
Qed.

Lemma timeline_contiguous l1 r r' l2 :
  timeline (l1 ++ r :: r' :: l2) -> h_end_ts r = Some (h_start_ts r').
Proof.
  induction l1 as [|a l1 IH]; simpl.
  - tauto.
  - destruct (l1 ++ r :: r' :: l2) eqn:E; [destruct l1; discriminate|].
    intros (_ & _ & H). auto.
Qed.

Lemma StronglySorted_suffix {A : Type} (R : A -> A -> Prop) l1 l2 :
  StronglySorted R (l1 ++ l2) -> StronglySorted R l2.
Proof.
  induction l1 as [|a l1 IH]; simpl; [auto|].
  intros H. apply StronglySorted_inv in H as [H _]. auto.
Qed.

(** An earlier interval ends before any later one starts. *)
Lemma timeline_disjoint l1 r l2 r' l3 :
  timeline (l1 ++ r :: l2 ++ r' :: l3) ->
  exists e, h_end_ts r = Some e /\ h_start_ts r <= e /\ e <= h_start_ts r'.
Proof.
  intros Ht.
  assert (Hs := timeline_StronglySorted _ Ht).
  apply StronglySorted_suffix in Hs.
  destruct l2 as [|r2 l2]; simpl in *.
  - exists (h_start_ts r'). rewrite (timeline_contiguous _ _ _ _ Ht).
    apply StronglySorted_inv in Hs as [_ Hs]. apply Forall_cons in Hs as [Hs _].
    repeat split; lia.
  - exists (h_start_ts r2). rewrite (timeline_contiguous _ _ _ _ Ht).
    apply StronglySorted_inv in Hs as [Hs Hr]. apply Forall_cons in Hr as [Hr _].
    apply StronglySorted_inv in Hs as [_ Hs].
    rewrite Forall_forall in Hs.
    repeat split; [lia|]. apply Hs, list_elem_of_In, in_app_iff. right. left. reflexivity.
Qed.


(** ** The walk over the sorted messages *)

Lemma exec_Done_db {A : Type} (stmt : Db -> A * Db) st a st' :
  exec stmt st = Done (a, st') -> tx_db st' = snd (stmt (tx_db st)).
Proof. intros H. apply exec_Done in H. rewrite H. reflexivity. Qed.

(** What one completed turn of the walk did to the tracker and the rows. *)
Lemma import_message_effect mm tracker x st tracker' st' :
  import_message mm tracker x st = Done (tracker', st') ->
  match mm !! senderPlatformId x with
  | None => tracker' = tracker /\ tx_db st' = tx_db st
  | Some sid =>
      let d1 := snd (insertMessage sid (timestamp x) (type x) (content x) (tx_db st)) in
      let seen := {| currentName := senderName x; lastSeenTs := timestamp x |} in
      match Map_get (senderPlatformId x) tracker with
      | None =>
          tracker' = Map_set (senderPlatformId x) seen tracker /\
          tx_db st' = snd (insertNameHistory sid (senderName x) (timestamp x) None d1)
      | Some tr =>
          if String.eqb (currentName tr) (senderName x)
          then tracker' = Map_set (senderPlatformId x)
                            {| currentName := currentName tr; lastSeenTs := timestamp x |}
                            tracker /\
               tx_db st' = d1
          else tracker' = Map_set (senderPlatformId x) seen tracker /\
               tx_db st' = snd (insertNameHistory sid (senderName x) (timestamp x) None
                                  (snd (updateNameHistoryEndTs (timestamp x) sid d1)))
      end
  end.
Proof.
  unfold import_message. destruct (mm !! senderPlatformId x) as [sid|].
  2:{ intros H. apply ret_Done in H as [-> ->]. auto. }
  intros H. apply bind_Done in H as (a & st0 & H0 & H).
  apply exec_Done_db in H0. cbv zeta. rewrite <- H0.
  destruct (Map_get (senderPlatformId x) tracker) as [tr|].
  - destruct (String.eqb (currentName tr) (senderName x)); simpl in H.
    + apply ret_Done in H as [-> ->]. auto.
    + apply bind_Done in H as (a1 & st1 & H1 & H).
      apply bind_Done in H as (a2 & st2 & H2 & H).
      apply ret_Done in H as [-> ->].
      apply exec_Done_db in H1, H2. rewrite <- H1. auto.
  - apply bind_Done in H as (a1 & st1 & H1 & H).
    apply ret_Done in H as [-> ->].
    apply exec_Done_db in H1. auto.
Qed.

Lemma close_keeps t (c : NameHistoryRow -> bool) r :
  let r' := if c r then set_end_ts t r else r in
  h_member_id r' = h_member_id r /\ h_name r' = h_name r /\ h_start_ts r' = h_start_ts r.
Proof. simpl. destruct (c r); auto. Qed.

Section Walk.

Variable mm : gmap string Z.
Hypothesis mm_inj : forall p q i, mm !! p = Some i -> mm !! q = Some i -> p = q.


Lemma walk_hist_start d : member_name_history d = [] -> walk_hist mm [] [] d.
Proof.
  intros He. split; simpl.
  - intros mid. left. unfold history_of. rewrite He. reflexivity.
  - intros p mid _. split; [unfold history_of; rewrite He; reflexivity | tauto].
  - constructor.
  - rewrite He. constructor.
  - intros msg sid [].
Qed.

Lemma starts_weaken pre x (tbl : list NameHistoryRow) :
  Forall (fun r => In (h_start_ts r) (List.map timestamp pre)) tbl ->
  Forall (fun r => In (h_start_ts r) (List.map timestamp (pre ++ [x]))) tbl.
Proof.
  intros H. eapply Forall_impl; [exact H|].
  intros r Hr. simpl. rewrite List.map_app. apply in_app_iff. auto.
Qed.

Lemma starts_bound pre x d mid :
  (forall y, In y pre -> timestamp y <= timestamp x) ->
  Forall (fun r => In (h_start_ts r) (List.map timestamp pre)) (member_name_history d) ->
  Forall (fun r => h_start_ts r <= timestamp x) (history_of mid d).
Proof.
  intros Hle Hs. rewrite Forall_forall in *. intros r Hr.
  apply list_elem_of_In, filter_In in Hr as [Hr _].
  apply list_elem_of_In, Hs, in_map_iff in Hr as (y & <- & Hy). auto.
Qed.

(** A message of an unlisted sender leaves everything as it was. *)
Lemma walk_hist_skip pre x tracker d :
  mm !! senderPlatformId x = None ->
  walk_hist mm pre tracker d -> walk_hist mm (pre ++ [x]) tracker d.
Proof.
  intros Hx [H1 H2 H3 H4 H5]. split; auto.
  - intros p mid Hp. specialize (H2 p mid Hp).
    destruct (Map_get p tracker) as [tr|].
    + destruct H2 as (init & open & E1 & E2 & E3).
      exists init, open. rewrite List.map_app, in_app_iff. auto.
    + destruct H2 as [E1 E2]. split; [exact E1|].
      rewrite List.map_app, in_app_iff. simpl.
      intros [E | [E | []]]; [tauto | congruence].
  - apply starts_weaken, H4.
  - intros msg sid Hin Hs. apply in_app_iff in Hin as [Hin | [<- | []]]; [eauto | congruence].
Qed.

(** The name is the one the tracker holds: only [lastSeenTs] moves. *)
Lemma walk_hist_same pre x tracker d sid tr ty c :
  (forall y, In y pre -> timestamp y <= timestamp x) ->
  mm !! senderPlatformId x = Some sid ->
  Map_get (senderPlatformId x) tracker = Some tr ->
  String.eqb (currentName tr) (senderName x) = true ->
  walk_hist mm pre tracker d ->
  walk_hist mm (pre ++ [x])
    (Map_set (senderPlatformId x)
       {| currentName := currentName tr; lastSeenTs := timestamp x |} tracker)
    (snd (insertMessage sid (timestamp x) ty c d)).
Proof.
  intros Hle Hx Hget Hname [H1 H2 H3 H4 H5]. apply String.eqb_eq in Hname.
  split.
  - exact H1.
  - intros p mid Hp. specialize (H2 p mid Hp).
    change (history_of mid (snd (insertMessage sid (timestamp x) ty c d)))
      with (history_of mid d).
    destruct (decide (senderPlatformId x = p)) as [<- | Hne].
    + rewrite Map_get_set_eq. rewrite Hget in H2. simpl.
      destruct H2 as (init & open & E1 & E2 & E3).
      exists init, open. rewrite List.map_app, in_app_iff. auto.
    + rewrite Map_get_set_ne by exact Hne.
      destruct (Map_get p tracker) as [tr'|].
      * destruct H2 as (init & open & E1 & E2 & E3).
        exists init, open. rewrite List.map_app, in_app_iff. auto.
      * destruct H2 as [E1 E2]. split; [exact E1|].
        rewrite List.map_app, in_app_iff.
        simpl. intros [E | [E | []]]; [tauto | congruence].
  - apply Map_set_NoDup, H3.
  - apply starts_weaken, H4.
  - intros msg sid' Hin Hs. apply in_app_iff in Hin as [Hin | [<- | []]]; [eauto|].
    assert (sid' = sid) as -> by congruence.
    specialize (H2 _ _ Hx). rewrite Hget in H2.
    destruct H2 as (init & open & E1 & E2 & E3).
    assert (Hin : In open (history_of sid d)) by (rewrite E1; apply in_app_iff; simpl; auto).
    pose proof (starts_bound pre x d sid Hle H4) as Hb.
    rewrite Forall_forall in Hb. pose proof (Hb _ (proj2 (list_elem_of_In _ _) Hin)) as Hb'.
    apply filter_In in Hin as [Hin Hm]. apply Z.eqb_eq in Hm.
    exists open. simpl. repeat split; auto. congruence.
Qed.

Lemma senders_snoc_ne pre x p :
  senderPlatformId x <> p ->
  In p (List.map senderPlatformId (pre ++ [x])) <-> In p (List.map senderPlatformId pre).
Proof.
  intros Hne. rewrite List.map_app, in_app_iff. simpl. intuition congruence.
Qed.

(** What the untouched members see of a turn that only writes rows of [sid]. *)
Lemma walk_tracker_other pre x tracker d d' v p mid sid :
  mm !! senderPlatformId x = Some sid ->
  mm !! p = Some mid ->
  senderPlatformId x <> p ->
  (mid <> sid -> history_of mid d' = history_of mid d) ->
  match Map_get p tracker with
  | None => history_of mid d = [] /\ ~ In p (List.map senderPlatformId pre)
  | Some tr =>
      exists init open,
        history_of mid d = init ++ [open] /\ h_name open = currentName tr /\
        In p (List.map senderPlatformId pre)
  end ->
  match Map_get p (Map_set (senderPlatformId x) v tracker) with
  | None => history_of mid d' = [] /\ ~ In p (List.map senderPlatformId (pre ++ [x]))
  | Some tr =>
      exists init open,
        history_of mid d' = init ++ [open] /\ h_name open = currentName tr /\
        In p (List.map senderPlatformId (pre ++ [x]))
  end.
Proof.
  intros Hx Hp Hne Hsame H.
  assert (Hmid : mid <> sid).
  { intros ->. apply Hne. eapply mm_inj; eauto. }
  rewrite Map_get_set_ne by exact Hne. rewrite (Hsame Hmid).
  destruct (Map_get p tracker) as [tr|].
  - destruct H as (init & open & E1 & E2 & E3). exists init, open.
    rewrite senders_snoc_ne by exact Hne. auto.
  - rewrite senders_snoc_ne by exact Hne. exact H.
Qed.

(** First sighting of a sender: one open interval. *)
Lemma walk_hist_first pre x tracker d sid ty c :
  mm !! senderPlatformId x = Some sid ->
  Map_get (senderPlatformId x) tracker = None ->
  walk_hist mm pre tracker d ->
  walk_hist mm (pre ++ [x])
    (Map_set (senderPlatformId x)
       {| currentName := senderName x; lastSeenTs := timestamp x |} tracker)
    (snd (insertNameHistory sid (senderName x) (timestamp x) None
            (snd (insertMessage sid (timestamp x) ty c d)))).
Proof.
  intros Hx Hget [H1 H2 H3 H4 H5].
  set (d1 := snd (insertMessage sid (timestamp x) ty c d)).
  set (new := {| h_id := seq_history d1 + 1; h_member_id := sid; h_name := senderName x;
                 h_start_ts := timestamp x; h_end_ts := None |}).
  assert (Hh : forall mid,
             history_of mid (snd (insertNameHistory sid (senderName x) (timestamp x) None d1)) =
             history_of mid d ++ (if sid =? mid then [new] else [])).
  { intros mid. unfold insertNameHistory. cbn [snd]. rewrite history_of_snoc. reflexivity. }
  assert (Hsid : history_of sid d = []).
  { specialize (H2 _ _ Hx). rewrite Hget in H2. tauto. }
  split.
  - intros mid. rewrite Hh. destruct (Z.eqb_spec sid mid) as [<- | Hne].
    + right. rewrite Hsid. simpl. reflexivity.
    + rewrite app_nil_r. apply H1.
  - intros p mid Hp. destruct (decide (senderPlatformId x = p)) as [<- | Hne].
    + assert (mid = sid) as -> by congruence.
      rewrite Map_get_set_eq, Hh, Hsid, Z.eqb_refl. exists [], new.
      rewrite List.map_app, in_app_iff. simpl. auto.
    + apply (walk_tracker_other pre x tracker d _ _ p mid sid Hx Hp Hne); [|apply H2, Hp].
      intros Hmid. rewrite Hh. apply Z.eqb_neq in Hmid. rewrite Z.eqb_sym, Hmid.
      apply app_nil_r.
  - apply Map_set_NoDup, H3.
  - simpl. apply Forall_app. split; [apply starts_weaken, H4|].
    constructor; [|constructor]. simpl. rewrite List.map_app, in_app_iff. simpl. auto.
  - intros msg sid' Hin Hs. simpl.
    apply in_app_iff in Hin as [Hin | [<- | []]].
    + destruct (H5 _ _ Hin Hs) as (r & Hr & G). exists r. split; [|exact G].
      apply in_app_iff. auto.
    + assert (sid' = sid) as -> by congruence.
      exists new. split; [apply in_app_iff; simpl; auto|]. simpl. repeat split; lia.
Qed.

(** A rename: the open interval is closed where the new one starts. *)
Lemma walk_hist_rename pre x tracker d sid tr ty c :
  (forall y, In y pre -> timestamp y <= timestamp x) ->
  mm !! senderPlatformId x = Some sid ->
  Map_get (senderPlatformId x) tracker = Some tr ->
  walk_hist mm pre tracker d ->
  walk_hist mm (pre ++ [x])
    (Map_set (senderPlatformId x)
       {| currentName := senderName x; lastSeenTs := timestamp x |} tracker)
    (snd (insertNameHistory sid (senderName x) (timestamp x) None
            (snd (updateNameHistoryEndTs (timestamp x) sid
                    (snd (insertMessage sid (timestamp x) ty c d)))))).
Proof.
  intros Hle Hx Hget [H1 H2 H3 H4 H5].
  set (d1 := snd (insertMessage sid (timestamp x) ty c d)).
  set (d2 := snd (updateNameHistoryEndTs (timestamp x) sid d1)).
  set (new := {| h_id := seq_history d2 + 1; h_member_id := sid; h_name := senderName x;
                 h_start_ts := timestamp x; h_end_ts := None |}).
  assert (Hh : forall mid,
             history_of mid (snd (insertNameHistory sid (senderName x) (timestamp x) None d2)) =
             (if mid =? sid then List.map (close_row (timestamp x)) (history_of mid d)
              else history_of mid d) ++ (if sid =? mid then [new] else [])).
  { intros mid. unfold insertNameHistory. cbn [snd]. rewrite history_of_snoc.
    unfold d2. rewrite history_of_close. reflexivity. }
  pose proof (H2 _ _ Hx) as Hsid. rewrite Hget in Hsid.
  destruct Hsid as (init & open & E1 & E2 & E3).
  split.
  - intros mid. rewrite Hh. destruct (Z.eqb_spec sid mid) as [<- | Hne].
    + right. rewrite Z.eqb_refl. apply timeline_step; auto.
      * destruct (H1 sid) as [E | Ht]; [|exact Ht].
        rewrite E1 in E. destruct init; discriminate.
      * eapply starts_bound; eauto.
    + rewrite app_nil_r. apply not_eq_sym, Z.eqb_neq in Hne. rewrite Hne. apply H1.
  - intros p mid Hp. destruct (decide (senderPlatformId x = p)) as [<- | Hne].
    + assert (mid = sid) as -> by congruence.
      rewrite Map_get_set_eq, Hh, Z.eqb_refl.
      exists (List.map (close_row (timestamp x)) (history_of sid d)), new.
      rewrite List.map_app, in_app_iff. simpl. auto.
    + apply (walk_tracker_other pre x tracker d _ _ p mid sid Hx Hp Hne); [|apply H2, Hp].
      intros Hmid. rewrite Hh. apply Z.eqb_neq in Hmid. rewrite Hmid.
      rewrite Z.eqb_sym, Hmid. apply app_nil_r.
  - apply Map_set_NoDup, H3.
  - simpl. apply Forall_app. split.
    + rewrite Forall_forall in *. intros r Hr.
      apply list_elem_of_In, in_map_iff in Hr as (r0 & <- & Hr0).
      destruct (close_keeps (timestamp x)
                  (fun r => (h_member_id r =? sid) && is_null (h_end_ts r)) r0)
        as (_ & _ & ->).
      rewrite List.map_app, in_app_iff. left. apply H4, list_elem_of_In, Hr0.
    + constructor; [|constructor]. simpl. rewrite List.map_app, in_app_iff. simpl. auto.
  - intros msg sid' Hin Hs. simpl.
    apply in_app_iff in Hin as [Hin | [<- | []]].
    + destruct (H5 _ _ Hin Hs) as (r & Hr & G1 & G2 & G3).
      destruct (close_keeps (timestamp x)
                  (fun r => (h_member_id r =? sid) && is_null (h_end_ts r)) r)
        as (K1 & K2 & K3).
      eexists. split; [apply in_app_iff; left; apply in_map; exact Hr|].
      rewrite K1, K2, K3. auto.
    + assert (sid' = sid) as -> by congruence.
      exists new. split; [apply in_app_iff; simpl; auto|]. simpl. repeat split; lia.
Qed.


Lemma walk_msgs_start db1 : walk_msgs mm db1 [] db1.
Proof.
  split; auto; try (intros msg sid []).
Qed.

Lemma known_true x sid : mm !! senderPlatformId x = Some sid -> known mm x = true.
Proof. intros H. unfold known. apply bool_decide_eq_true. rewrite H. eauto. Qed.

Lemma known_false x : mm !! senderPlatformId x = None -> known mm x = false.
Proof.
  intros H. unfold known. apply bool_decide_eq_false. rewrite H. intros [? ?]. discriminate.
Qed.

Lemma walk_msgs_skip db1 pre x d :
  mm !! senderPlatformId x = None ->
  walk_msgs mm db1 pre d -> walk_msgs mm db1 (pre ++ [x]) d.
Proof.
  intros Hx [H1 H2 H3 H4 H5 H6]. split; auto.
  - intros msg sid Hin Hs. apply in_app_iff in Hin as [Hin | [<- | []]]; [eauto | congruence].
  - intros row Hr. destruct (H5 row Hr) as [G | (msg & sid & G1 & G2 & G3)]; [auto|].
    right. exists msg, sid. rewrite in_app_iff. auto.
  - rewrite List.filter_app, length_app. simpl. rewrite (known_false _ Hx). simpl. lia.
Qed.

Lemma walk_msgs_insert db1 pre x d d' sid :
  mm !! senderPlatformId x = Some sid ->
  meta d' = meta d -> member d' = member d -> seq_member d' = seq_member d ->
  message d' = message (snd (insertMessage sid (timestamp x) (type x) (content x) d)) ->
  walk_msgs mm db1 pre d -> walk_msgs mm db1 (pre ++ [x]) d'.
Proof.
  intros Hx E1 E2 E3 E4 [H1 H2 H3 H4 H5 H6]. simpl in E4.
  split; try congruence.
  - intros msg sid' Hin Hs. rewrite E4. apply in_app_iff in Hin as [Hin | [<- | []]].
    + destruct (H4 _ _ Hin Hs) as (row & Hr & G). exists row. rewrite in_app_iff. auto.
    + assert (sid' = sid) as -> by congruence.
      eexists. split; [apply in_app_iff; right; left; reflexivity|].
      repeat split.
  - intros row Hr. rewrite E4 in Hr. apply in_app_iff in Hr as [Hr | [<- | []]].
    + destruct (H5 row Hr) as [G | (msg & sid' & G1 & G2 & G3)]; [auto|].
      right. exists msg, sid'. rewrite in_app_iff. auto.
    + right. exists x, sid. rewrite in_app_iff. simpl. repeat split; auto.
  - rewrite E4, List.filter_app, !length_app. simpl. rewrite (known_true _ _ Hx).
    simpl. lia.
Qed.

(** The whole walk, when it completed. *)
Lemma walk_loop l st tracker st' :
  StronglySorted (fun a b => timestamp a <= timestamp b) l ->
  member_name_history (tx_db st) = [] ->
  forEach (import_message mm) l [] st = Done (tracker, st') ->
  walk_hist mm l tracker (tx_db st') /\ walk_msgs mm (tx_db st) l (tx_db st').
Proof.
  intros Hsorted Hempty Hrun.
  apply (forEach_invariant (import_message mm) l
           (fun pre tr d => walk_hist mm pre tr d /\ walk_msgs mm (tx_db st) pre d))
    with (s := []) (st := st); [| |exact Hrun].
  2:{ split; [apply walk_hist_start, Hempty | apply walk_msgs_start]. }
  intros pre x suf tr st1 tr' st1' Hl [Hh Hm] Hb.
  pose proof (sorted_prefix_le timestamp l pre x suf Hsorted Hl) as Hle.
  apply import_message_effect in Hb.
  destruct (mm !! senderPlatformId x) as [sid|] eqn:Hx.
  2:{ destruct Hb as [-> ->]. split; [apply walk_hist_skip | apply walk_msgs_skip]; auto. }
  cbv zeta in Hb.
  destruct (Map_get (senderPlatformId x) tr) as [t0|] eqn:Hget.
  - destruct (String.eqb (currentName t0) (senderName x)) eqn:Hname;
      destruct Hb as [-> ->]; split.
    + apply walk_hist_same; auto.
    + apply walk_msgs_insert with (d := tx_db st1) (sid := sid); auto.
    + eapply walk_hist_rename; eauto.
    + apply walk_msgs_insert with (d := tx_db st1) (sid := sid); auto.
  - destruct Hb as [-> ->]. split.
    + apply walk_hist_first; auto.
    + apply walk_msgs_insert with (d := tx_db st1) (sid := sid); auto.
Qed.

End Walk.

(** ** The closing loop over the tracker *)

Lemma rename_loop tracker st u st' :
  NoDup (List.map fst tracker) ->
  forEach (fun (_ : unit) (entry : string * Tracker) =>
             exec (updateMemberName (currentName (snd entry)) (fst entry)))
          tracker tt st = Done (u, st') ->
  member (tx_db st') = List.map (rename_row tracker) (member (tx_db st)) /\
  meta (tx_db st') = meta (tx_db st) /\
  member_name_history (tx_db st') = member_name_history (tx_db st) /\
  message (tx_db st') = message (tx_db st).
Proof.
  revert st. induction tracker as [|[k t] tracker IH]; intros st Hnd Hrun.
  - simpl in Hrun. apply ret_Done in Hrun as [_ <-]. repeat split.
    unfold rename_row. simpl. symmetry. apply List.map_id.
  - simpl in Hrun. apply bind_Done in Hrun as (a & st1 & H1 & Hrun).
    apply exec_Done_db in H1. simpl in H1. destruct a.
    simpl in Hnd. apply NoDup_cons in Hnd as [Hk Hnd].
    destruct (IH st1 Hnd Hrun) as (G1 & G2 & G3 & G4).
    rewrite G1, G2, G3, G4, H1. simpl. repeat split.
    rewrite List.map_map. apply List.map_ext. intros r.
    assert (Hn : Map_get k tracker = None)
      by (apply Map_get_None; rewrite <- list_elem_of_In; exact Hk).
    destruct (String.eqb_spec (m_platform_id r) k) as [E | E].
    + unfold rename_row. simpl.
      replace (Map_get (m_platform_id r) tracker) with (@None Tracker)
        by (rewrite E; symmetry; exact Hn).
      replace (String.eqb k (m_platform_id r)) with true
        by (symmetry; apply String.eqb_eq; auto).
      reflexivity.
    + unfold rename_row. simpl.
      replace (String.eqb k (m_platform_id r)) with false
        by (symmetry; apply String.eqb_neq; auto).
      reflexivity.
Qed.


(** ** The whole transaction *)

Lemma sortedMessages_sorted pr :
  StronglySorted (fun a b => timestamp a <= timestamp b) (sortedMessages pr).
Proof. apply (Array_sort_sorted timestamp). Qed.

Lemma sortedMessages_perm pr : Permutation (sortedMessages pr) (messages pr).
Proof. apply Array_sort_perm. Qed.

Lemma walk_hist_ext mm pre tracker d d' :
  member_name_history d' = member_name_history d ->
  walk_hist mm pre tracker d -> walk_hist mm pre tracker d'.
Proof.
  intros E [H1 H2 H3 H4 H5].
  assert (Hh : forall mid, history_of mid d' = history_of mid d)
    by (intros mid; unfold history_of; rewrite E; reflexivity).
  split; auto.
  - intros mid. rewrite Hh. apply H1.
  - intros p mid Hp. rewrite Hh. apply H2, Hp.
  - rewrite E. exact H4.
  - intros msg sid Hin Hs. rewrite E. eauto.
Qed.

(** Everything the later theorems need to know about a committed import
    into a fresh database: [mm] is the [memberIdMap], [tracker] the final
    [nicknameTracker], [dbw] the rows before the closing loop. *)
Lemma importTransaction_facts pr now st u st' :
  tx_db st = empty_db ->
  importTransaction pr now st = Done (u, st') ->
  exists mm tracker dbw,
    members_ok mm dbw /\
    (forall m, In m (members pr) -> is_Some (mm !! platformId m)) /\
    (forall p, is_Some (mm !! p) -> In p (List.map platformId (members pr))) /\
    walk_hist mm (sortedMessages pr) tracker (tx_db st') /\
    (forall msg sid,
        In msg (sortedMessages pr) -> mm !! senderPlatformId msg = Some sid ->
        exists row, In row (message (tx_db st')) /\ stored msg sid row) /\
    (forall row,
        In row (message (tx_db st')) ->
        exists msg sid, In msg (sortedMessages pr) /\
                        mm !! senderPlatformId msg = Some sid /\ stored msg sid row) /\
    length (message (tx_db st')) = length (List.filter (known mm) (sortedMessages pr)) /\
    member (tx_db st') = List.map (rename_row tracker) (member dbw) /\
    meta (tx_db st') =
      [{| meta_name := pmeta_name (pr_meta pr); meta_platform := pmeta_platform (pr_meta pr);
          meta_type := pmeta_type (pr_meta pr); meta_imported_at := now |}].
Proof.
  intros Hdb Hrun. unfold importTransaction in Hrun.
  apply bind_Done in Hrun as (a0 & st0 & H0 & Hrun). apply exec_Done_db in H0.
  apply bind_Done in Hrun as (mm & st1 & H1 & Hrun).
  apply bind_Done in Hrun as (tracker & st2 & H2 & Hrun).
  rewrite Hdb in H0. simpl in H0.
  assert (Hok0 : members_ok ∅ (tx_db st0)).
  { rewrite H0. split; simpl; try constructor.
    - intros H. rewrite lookup_empty in H. discriminate.
    - intros (r & [] & _). }
  destruct (member_loop _ _ _ _ _ Hok0 H1) as (Hok & Hdom & Hsub & M1 & M2 & M3 & _ & _).
  rewrite H0 in M1, M2, M3. simpl in M1, M2, M3.
  destruct (walk_loop mm (fun p q i => members_ok_inj mm _ p q i Hok) _ _ _ _
              (sortedMessages_sorted pr) M2 H2) as [Hh [W1 W2 W3 W4 W5 W6]].
  destruct u.
  destruct (rename_loop _ _ _ _ (wh_keys _ _ _ _ Hh) Hrun) as (R1 & R2 & R3 & R4).
  exists mm, tracker, (tx_db st1).
  split; [exact Hok|]. split; [exact Hdom|]. split.
  { intros p Hp. destruct (Hsub p Hp) as [[v Hv] | Hin]; [|exact Hin].
    rewrite lookup_empty in Hv. discriminate. }
  split; [apply (walk_hist_ext _ _ _ _ _ R3 Hh)|].
  rewrite R4, R1, R2, W1, W2, M1. repeat split; auto.
  - intros row Hr. destruct (W5 row Hr) as [G | G]; [|exact G].
    rewrite M3 in G. destruct G.
  - rewrite W6, M3. reflexivity.
Qed.






(** ** [importData] on a fresh session identifier *)

Section Fresh.

Variable DB_DIR : string.

Lemma importData_fresh (fs : Fs) sid now fault pr :
  fs !! getDbPath DB_DIR sid = None ->
  importData DB_DIR fs sid now fault pr =
  (<[getDbPath DB_DIR sid :=
       {| file_data :=
            SqliteFile (fst (db_transaction (importTransaction pr now) empty_db fault));
          file_busy := false |}]> fs,
   match snd (db_transaction (importTransaction pr now) empty_db fault) with
   | Done _ => Done sid
   | Raised e => Raised e
   end).
Proof.
  intros Hfresh. unfold importData, createDatabase. rewrite Hfresh.
  destruct (db_transaction _ _ _) as [db' [a | e]]; simpl;
    unfold store_db; rewrite alter_insert_eq; reflexivity.
Qed.

Lemma openDatabase_insert (fs : Fs) sid db :
  openDatabase DB_DIR
    (<[getDbPath DB_DIR sid := {| file_data := SqliteFile db; file_busy := false |}]> fs) sid =
  Done (Some db).
Proof. unfold openDatabase. rewrite lookup_insert_eq. reflexivity. Qed.

(** A completed import of a fresh session: the file holds the rows the
    transaction committed. *)
Lemma importData_Done (fs fs' : Fs) sid sid' now fault pr db :
  fs !! getDbPath DB_DIR sid = None ->
  importData DB_DIR fs sid now fault pr = (fs', Done sid') ->
  openDatabase DB_DIR fs' sid = Done (Some db) ->
  exists st', importTransaction pr now {| tx_db := empty_db; tx_fault := fault |} =
              Done (tt, st') /\ tx_db st' = db.
Proof.
  intros Hfresh Hrun Hopen. rewrite (importData_fresh _ _ _ _ _ Hfresh) in Hrun.
  injection Hrun as <- Hres. rewrite openDatabase_insert in Hopen.
  injection Hopen as <-. unfold db_transaction in *.
  destruct (importTransaction pr now _) as [[[] st'] | e]; [|discriminate].
  exists st'. auto.
Qed.

End Fresh.


(** The scenario of the specification, run: X gets the intervals
    (Alice, 100, 200) and (Alicia, 200, null), Y gets (Bob, 150, null), and
    the stored names are the last ones seen. *)
Example scenario_intervals :
  let db := fst (db_transaction (importTransaction scenario 5) empty_db None) in
  List.map (fun r => (h_member_id r, h_name r, h_start_ts r, h_end_ts r))
    (member_name_history db) =
  [ (1, "Alice"%string, 100, Some 200); (2, "Bob"%string, 150, None);
    (1, "Alicia"%string, 200, None) ] /\
  List.map (fun m => (m_id m, m_platform_id m, m_name m)) (member db) =
  [ (1, "X"%string, "Alicia"%string); (2, "Y"%string, "Bob"%string) ].
Proof. vm_compute. split; reflexivity. Qed.

(** ** The nickname timeline of an imported session *)

Lemma rename_row_id tracker r : m_id (rename_row tracker r) = m_id r.
Proof. unfold rename_row. destruct (Map_get _ _); reflexivity. Qed.

Lemma rename_row_pid tracker r : m_platform_id (rename_row tracker r) = m_platform_id r.
Proof. unfold rename_row. destruct (Map_get _ _); reflexivity. Qed.

Lemma timeline_closed_next l r e :
  timeline l -> In r l -> h_end_ts r = Some e ->
  exists l1 r' l2, l = l1 ++ r :: r' :: l2 /\ e = h_start_ts r'.
Proof.
  induction l as [|a l IH]; [intros []|].
  destruct l as [|b l'].
  - simpl. intros Ha [-> | []] He. congruence.
  - intros (Ha & _ & Ht) [-> | Hin] He.
    + exists [], b, l'. split; [reflexivity | congruence].
    + destruct (IH Ht Hin He) as (l1 & r' & l2 & E & G).
      exists (a :: l1), r', l2. rewrite E. auto.
Qed.

(** The rows of a member of the committed database, seen through the
    [memberIdMap] and the tracker. *)
Lemma imported_member pr now st st' m :
  tx_db st = empty_db ->
  importTransaction pr now st = Done (tt, st') ->
  In m (member (tx_db st')) ->
  exists mm tracker,
    walk_hist mm (sortedMessages pr) tracker (tx_db st') /\
    mm !! m_platform_id m = Some (m_id m) /\
    forall tr, Map_get (m_platform_id m) tracker = Some tr -> m_name m = currentName tr.
Proof.
  intros Hdb Hrun Hm.
  destruct (importTransaction_facts _ _ _ _ _ Hdb Hrun)
    as (mm & tracker & dbw & Hok & _ & _ & Hh & _ & _ & _ & Hmem & _).
  exists mm, tracker. split; [exact Hh|].
  rewrite Hmem in Hm. apply in_map_iff in Hm as (m0 & <- & Hm0).
  rewrite rename_row_id, rename_row_pid. split.
  - apply (mo_map _ _ Hok). eauto.
  - intros tr Htr. unfold rename_row. rewrite Htr. reflexivity.
Qed.

Lemma walk_hist_invariant mm pre tracker d m :
  walk_hist mm pre tracker d ->
  mm !! m_platform_id m = Some (m_id m) ->
  (forall tr, Map_get (m_platform_id m) tracker = Some tr -> m_name m = currentName tr) ->
  In (m_platform_id m) (List.map senderPlatformId pre) ->
  nickname_invariant d m.
Proof.
  intros [H1 H2 _ _ _] Hmm Hname Hsent.
  specialize (H2 _ _ Hmm).
  destruct (Map_get (m_platform_id m) tracker) as [tr|]; [|tauto].
  destruct H2 as (init & open & E & En & _).
  assert (Ht : timeline (history_of (m_id m) d)).
  { destruct (H1 (m_id m)) as [E0 | Ht]; [|exact Ht].
    rewrite E in E0. destruct init; discriminate. }
  exists init, open. split; [exact E|].
  split; [apply (timeline_last_open init); rewrite <- E; exact Ht|].
  split; [apply (timeline_init_closed init open); rewrite <- E; exact Ht|].
  split; [apply timeline_StronglySorted, Ht|].
  split.
  - intros l1 r l2 r' l3 El. apply (timeline_disjoint l1 r l2 r' l3). rewrite <- El. exact Ht.
  - rewrite En. apply Hname. reflexivity.
Qed.

(** C2 (as amended): after [importData] completes on a fresh session, every
    member that sent at least one message has name-history intervals that
    are ordered by [start_ts], pairwise non-overlapping, all closed except
    the last one, whose name is the member's stored name; a member that sent
    no message has no interval at all. *)
Theorem importData_nickname_invariant
  (DB_DIR : string) (fs fs' : Fs) (sid sid' : string) (now : Z) (fault : option nat)
  (pr : ParseResult) (db : Db) (m : MemberRow) :
  fs !! getDbPath DB_DIR sid = None ->
  importData DB_DIR fs sid now fault pr = (fs', Done sid') ->
  openDatabase DB_DIR fs' sid = Done (Some db) ->
  In m (member db) ->
  ((exists msg, In msg (messages pr) /\ senderPlatformId msg = m_platform_id m) ->
   nickname_invariant db m) /\
  ((forall msg, In msg (messages pr) -> senderPlatformId msg <> m_platform_id m) ->
   history_of (m_id m) db = []).
Proof.
  intros Hfresh Hrun Hopen Hm.
  destruct (importData_Done _ _ _ _ _ _ _ _ _ Hfresh Hrun Hopen) as (st' & Htx & <-).
  destruct (imported_member pr now {| tx_db := empty_db; tx_fault := fault |} st' m
              eq_refl Htx Hm) as (mm & tracker & Hh & Hmm & Hname).
  split.
  - intros (msg & Hin & Hp).
    apply (walk_hist_invariant mm (sortedMessages pr) tracker); auto.
    rewrite <- Hp. apply in_map.
    apply (Permutation_in _ (Permutation_sym (sortedMessages_perm pr))), Hin.
  - intros Hsilent. pose proof (wh_tracker _ _ _ _ Hh _ _ Hmm) as H2.
    destruct (Map_get (m_platform_id m) tracker) as [tr|]; [|tauto].
    destruct H2 as (init & open & _ & _ & Hin).
    apply in_map_iff in Hin as (msg & Hp & Hin).
    exfalso. apply (Hsilent msg); [|exact Hp].
    apply (Permutation_in _ (sortedMessages_perm pr)), Hin.
Qed.

(** C10: after [importData] completes on a fresh session, the intervals of
    every member are contiguous: a closed interval is followed by a next
    interval of that member, which starts exactly at its [end_ts]. *)
Theorem importData_timeline_contiguous
  (DB_DIR : string) (fs fs' : Fs) (sid sid' : string) (now : Z) (fault : option nat)
  (pr : ParseResult) (db : Db) (mid : Z) :
  fs !! getDbPath DB_DIR sid = None ->
  importData DB_DIR fs sid now fault pr = (fs', Done sid') ->
  openDatabase DB_DIR fs' sid = Done (Some db) ->
  (forall l1 r r' l2,
      history_of mid db = l1 ++ r :: r' :: l2 -> h_end_ts r = Some (h_start_ts r')) /\
  (forall r e,
      In r (history_of mid db) -> h_end_ts r = Some e ->
      exists l1 r' l2, history_of mid db = l1 ++ r :: r' :: l2 /\ e = h_start_ts r').
Proof.
  intros Hfresh Hrun Hopen.
  destruct (importData_Done _ _ _ _ _ _ _ _ _ Hfresh Hrun Hopen) as (st' & Htx & <-).
  destruct (importTransaction_facts pr now {| tx_db := empty_db; tx_fault := fault |} tt st'
              eq_refl Htx)
    as (mm & tracker & dbw & _ & _ & _ & Hh & _).
  destruct (wh_timeline _ _ _ _ Hh mid) as [E | Ht].
  - rewrite E. split.
    + intros l1 r r' l2 El. destruct l1; discriminate.
    + intros r e [].
  - split.
    + intros l1 r r' l2 El. apply (timeline_contiguous l1 r r' l2). rewrite <- El. exact Ht.
    + intros r e. apply timeline_closed_next, Ht.
Qed.


Lemma importData_nickname_invariant_witness :
  nickname_invariant
    (fst (db_transaction (importTransaction scenario 5) empty_db None))
    {| m_id := 1; m_platform_id := "X"; m_name := "Alicia" |}.
Proof.
  refine (proj1 (importData_nickname_invariant "/d" ∅
                   (fst (importData "/d" ∅ "s1" 5 None scenario)) "s1" "s1" 5 None scenario
                   (fst (db_transaction (importTransaction scenario 5) empty_db None))
                   {| m_id := 1; m_platform_id := "X"; m_name := "Alicia" |} _ _ _ _) _).
  - vm_compute. reflexivity.
  - vm_compute. reflexivity.
  - vm_compute. reflexivity.
  - vm_compute. auto.
  - eexists. split; [right; left; reflexivity | reflexivity].
Defined.

(** C2 as stated fails for a member that never writes: the import of
    [silent_scenario] completes, member Z is stored, and no interval of Z
    has [end_ts = null]. *)
Lemma importData_silent_member_counterexample :
  exists fs' db m,
    importData "/d" ∅ "s1" 5 None silent_scenario = (fs', Done "s1"%string) /\
    openDatabase "/d" fs' "s1" = Done (Some db) /\
    In m (member db) /\
    ~ (exists r, In r (history_of (m_id m) db) /\ h_end_ts r = None).
Proof.
  exists (fst (importData "/d" ∅ "s1" 5 None silent_scenario)),
         (fst (db_transaction (importTransaction silent_scenario 5) empty_db None)),
         {| m_id := 3; m_platform_id := "Z"; m_name := "Zed" |}.
  split; [vm_compute; reflexivity|].
  split; [vm_compute; reflexivity|].
  split; [vm_compute; auto|].
  vm_compute. intros (r & [] & _).
Qed.

Lemma importData_timeline_contiguous_witness :
  h_end_ts {| h_id := 1; h_member_id := 1; h_name := "Alice"; h_start_ts := 100;
              h_end_ts := Some 200 |} =
  Some (h_start_ts {| h_id := 3; h_member_id := 1; h_name := "Alicia"; h_start_ts := 200;
                      h_end_ts := None |}).
Proof.
  refine (proj1 (importData_timeline_contiguous "/d" ∅
                   (fst (importData "/d" ∅ "s1" 5 None scenario)) "s1" "s1" 5 None scenario
                   (fst (db_transaction (importTransaction scenario 5) empty_db None))
                   1 _ _ _) [] _ _ [] _).
  - vm_compute. reflexivity.
  - vm_compute. reflexivity.
  - vm_compute. reflexivity.
  - vm_compute. reflexivity.
Defined.


(** ** Atomicity of the import *)

Lemma Permutation_filter_length {A : Type} (f : A -> bool) l l' :
  Permutation l l' -> length (List.filter f l) = length (List.filter f l').
Proof.
  induction 1 as [|x l l' _ IH|x y l|l l' l'' _ IH1 _ IH2]; simpl.
  - reflexivity.
  - destruct (f x); simpl; congruence.
  - destruct (f x), (f y); reflexivity.
  - congruence.
Qed.

Lemma known_listed mm pr msg :
  (forall m, In m (members pr) -> is_Some (mm !! platformId m)) ->
  (forall p, is_Some (mm !! p) -> In p (List.map platformId (members pr))) ->
  known mm msg = listed pr msg.
Proof.
  intros Hdom Hsub. unfold known, listed.
  destruct (existsb _ (members pr)) eqn:E.
  - apply bool_decide_eq_true. apply existsb_exists in E as (m & Hm & Heq).
    apply String.eqb_eq in Heq. rewrite <- Heq. auto.
  - apply bool_decide_eq_false. intros Hs. apply Hsub, in_map_iff in Hs as (m & Heq & Hm).
    assert (existsb (fun m => String.eqb (platformId m) (senderPlatformId msg)) (members pr)
            = true); [|congruence].
    apply existsb_exists. exists m. split; [exact Hm|]. apply String.eqb_eq, Heq.
Qed.





(** ** Order of the input messages *)

(** C5: two parse results that differ only by a permutation of the message
    list give the same import (hence the same intervals and the same final
    member names) whenever all message timestamps are distinct; with equal
    timestamps the result can depend on the input order, as [tie_ab] and
    [tie_ba] show. *)
Theorem importData_order_independent :
  (forall (DB_DIR : string) (fs : Fs) (sid : string) (now : Z) (fault : option nat)
          (p1 p2 : ParseResult),
      pr_meta p1 = pr_meta p2 -> members p1 = members p2 ->
      Permutation (messages p1) (messages p2) ->
      NoDup (List.map timestamp (messages p1)) ->
      importData DB_DIR fs sid now fault p1 = importData DB_DIR fs sid now fault p2) /\
  (pr_meta tie_ab = pr_meta tie_ba /\ members tie_ab = members tie_ba /\
   Permutation (messages tie_ab) (messages tie_ba) /\
   exists d1 d2,
     db_transaction (importTransaction tie_ab 5) empty_db None = (d1, Done tt) /\
     db_transaction (importTransaction tie_ba 5) empty_db None = (d2, Done tt) /\
     List.map h_name (member_name_history d1) <> List.map h_name (member_name_history d2) /\
     List.map m_name (member d1) <> List.map m_name (member d2)).
Proof.
  split.
  - intros DB_DIR fs sid now fault p1 p2 Hmeta Hmem Hperm Hnd.
    assert (E : importTransaction p1 now = importTransaction p2 now).
    { unfold importTransaction, sortedMessages.
      rewrite Hmeta, Hmem, (Array_sort_perm_eq timestamp _ _ Hperm Hnd). reflexivity. }
    unfold importData. rewrite E. reflexivity.
  - split; [reflexivity|]. split; [reflexivity|]. split; [apply Permutation_rev|].
    exists (fst (db_transaction (importTransaction tie_ab 5) empty_db None)),
           (fst (db_transaction (importTransaction tie_ba 5) empty_db None)).
    split; [vm_compute; reflexivity|]. split; [vm_compute; reflexivity|].
    split; vm_compute; discriminate.
Qed.

Lemma importData_order_independent_witness :
  importData "/d" ∅ "s1" 5 None scenario =
  importData "/d" ∅ "s1" 5 None
    {| pr_meta := pr_meta scenario; members := members scenario;
       messages := rev (messages scenario) |}.
Proof.
  refine (proj1 importData_order_independent "/d" ∅ "s1" 5 None scenario
            {| pr_meta := pr_meta scenario; members := members scenario;
               messages := rev (messages scenario) |} eq_refl eq_refl _ _).
  - apply Permutation_rev.
  - apply (bool_decide_unpack _). vm_compute. exact I.
Defined.


(** ** [deleteSession] *)

Section Delete.

Variable DB_DIR : string.

Lemma unlink_if_exists_Done path (fs fs1 : Fs) :
  unlink_if_exists path fs = Done fs1 ->
  fs1 = delete path fs /\ removable path fs.
Proof.
  unfold unlink_if_exists, existsSync, unlinkSync, removable.
  destruct (fs !! path) as [f|] eqn:E.
  - rewrite bool_decide_eq_true_2 by eauto.
    destruct (file_busy f) eqn:B; [discriminate|].
    intros [= <-]. split; [reflexivity|]. intros f' [= <-]. exact B.
  - rewrite bool_decide_eq_false_2 by (intros [? ?]; discriminate).
    intros [= <-]. split; [|discriminate].
    symmetry. apply delete_id. exact E.
Qed.

Lemma unlink_if_exists_Raised path (fs : Fs) e :
  unlink_if_exists path fs = Raised e -> ~ removable path fs.
Proof.
  unfold unlink_if_exists, existsSync, unlinkSync, removable.
  destruct (fs !! path) as [f|] eqn:E.
  - rewrite bool_decide_eq_true_2 by eauto.
    destruct (file_busy f) eqn:B; [|discriminate].
    intros _ H. specialize (H f eq_refl). congruence.
  - rewrite bool_decide_eq_false_2 by (intros [? ?]; discriminate). discriminate.
Qed.

Lemma unlink_if_exists_absent path (fs : Fs) :
  fs !! path = None -> unlink_if_exists path fs = Done fs.
Proof.
  intros E. unfold unlink_if_exists, existsSync.
  rewrite bool_decide_eq_false_2; [reflexivity|]. rewrite E. intros [? ?]. discriminate.
Qed.

Lemma removable_delete_ne path path' (fs : Fs) :
  path' <> path -> removable path (delete path' fs) <-> removable path fs.
Proof.
  intros Hne. unfold removable. rewrite lookup_delete_ne by exact Hne. reflexivity.
Qed.

Lemma append_nonempty_ne (s t : string) : t <> ""%string -> s <> s +:+ t.
Proof.
  intros Ht E. apply Ht. induction s as [|c s IH]; simpl in E; [auto|].
  injection E as E. auto.
Qed.

Lemma side_paths_distinct (dbPath : string) :
  dbPath <> dbPath +:+ "-wal" /\ dbPath <> dbPath +:+ "-shm" /\
  dbPath +:+ "-wal" <> dbPath +:+ "-shm".
Proof.
  split; [apply append_nonempty_ne; discriminate|].
  split; [apply append_nonempty_ne; discriminate|].
  intros E. apply (inj (String.append dbPath)) in E. discriminate.
Qed.

(** C7 (as amended): [deleteSession] returns [true] exactly when none of the
    three removals raises, also when the primary file (or every file) was
    already absent; it then leaves none of the primary, write-ahead-log and
    shared-memory files behind, touches no other file, and a second call on
    the same session returns [true] again. It returns [false] only when the
    removal of an existing file raises. *)
Theorem deleteSession_result (fs fs' : Fs) (sid : string) (ok : bool) :
  deleteSession DB_DIR fs sid = (fs', ok) ->
  (ok = true <->
   removable (getDbPath DB_DIR sid) fs /\
   removable (getDbPath DB_DIR sid +:+ "-wal") fs /\
   removable (getDbPath DB_DIR sid +:+ "-shm") fs) /\
  (ok = true ->
   fs' !! getDbPath DB_DIR sid = None /\
   fs' !! (getDbPath DB_DIR sid +:+ "-wal") = None /\
   fs' !! (getDbPath DB_DIR sid +:+ "-shm") = None /\
   (forall p, p <> getDbPath DB_DIR sid -> p <> getDbPath DB_DIR sid +:+ "-wal" ->
              p <> getDbPath DB_DIR sid +:+ "-shm" -> fs' !! p = fs !! p) /\
   deleteSession DB_DIR fs' sid = (fs', true)).
Proof.
  unfold deleteSession.
  set (dbPath := getDbPath DB_DIR sid).
  destruct (side_paths_distinct dbPath) as (N1 & N2 & N3).
  intros Hrun.
  destruct (unlink_if_exists dbPath fs) as [fs1|e1] eqn:E1.
  2:{ injection Hrun as <- <-. apply unlink_if_exists_Raised in E1.
      split; [|discriminate]. split; [discriminate | tauto]. }
  apply unlink_if_exists_Done in E1 as [-> R1].
  destruct (unlink_if_exists (dbPath +:+ "-wal") (delete dbPath fs)) as [fs2|e2] eqn:E2.
  2:{ injection Hrun as <- <-. apply unlink_if_exists_Raised in E2.
      rewrite removable_delete_ne in E2 by exact N1.
      split; [|discriminate]. split; [discriminate | tauto]. }
  apply unlink_if_exists_Done in E2 as [-> R2].
  rewrite removable_delete_ne in R2 by exact N1.
  destruct (unlink_if_exists (dbPath +:+ "-shm") (delete (dbPath +:+ "-wal") (delete dbPath fs)))
    as [fs3|e3] eqn:E3.
  2:{ injection Hrun as <- <-. apply unlink_if_exists_Raised in E3.
      rewrite !removable_delete_ne in E3 by auto.
      split; [|discriminate]. split; [discriminate | tauto]. }
  apply unlink_if_exists_Done in E3 as [-> R3].
  rewrite !removable_delete_ne in R3 by auto.
  injection Hrun as <- <-.
  split; [tauto|]. intros _.
  assert (L1 : delete (dbPath +:+ "-shm") (delete (dbPath +:+ "-wal") (delete dbPath fs))
               !! dbPath = None).
  { rewrite !lookup_delete_ne by auto. apply lookup_delete_eq. }
  assert (L2 : delete (dbPath +:+ "-shm") (delete (dbPath +:+ "-wal") (delete dbPath fs))
               !! (dbPath +:+ "-wal") = None).
  { rewrite lookup_delete_ne by auto. apply lookup_delete_eq. }
  assert (L3 : delete (dbPath +:+ "-shm") (delete (dbPath +:+ "-wal") (delete dbPath fs))
               !! (dbPath +:+ "-shm") = None) by apply lookup_delete_eq.
  split; [exact L1|]. split; [exact L2|]. split; [exact L3|]. split.
  - intros p P1 P2 P3. rewrite !lookup_delete_ne by auto. reflexivity.
  - rewrite (unlink_if_exists_absent _ _ L1), (unlink_if_exists_absent _ _ L2),
      (unlink_if_exists_absent _ _ L3). reflexivity.
Qed.

End Delete.

Lemma deleteSession_result_witness :
  deleteSession "/d" (∅ : Fs) "s1" = (∅, true).
Proof.
  refine (proj2 (proj2 (proj2 (proj2 (proj2
            (deleteSession_result "/d" (fst (importData "/d" ∅ "s1" 5 None scenario)) ∅ "s1" true _)
            eq_refl))))).
  vm_compute. reflexivity.
Defined.

(** C7 as stated fails: with the primary file absent, [deleteSession]
    returns [true], not [false]; so does the second of two calls. *)
Lemma deleteSession_absent_counterexample :
  (∅ : Fs) !! getDbPath "/d" "s1" = None /\
  snd (deleteSession "/d" ∅ "s1") = true /\
  snd (deleteSession "/d"
         (fst (deleteSession "/d" (fst (importData "/d" ∅ "s1" 5 None scenario)) "s1"))
         "s1") = true.
Proof. repeat split; vm_compute; reflexivity. Qed.


(** ** [getMemberActivity] *)

Lemma Zsum_app l1 l2 : Zsum (l1 ++ l2) = Zsum l1 + Zsum l2.
Proof. unfold Zsum. induction l1 as [|x l1 IH]; simpl; lia. Qed.

Lemma Zsum_perm l1 l2 : Permutation l1 l2 -> Zsum l1 = Zsum l2.
Proof. unfold Zsum. induction 1; simpl; lia. Qed.


(** Dropping the groups without a message does not change the sum. *)
Lemma Zsum_positive_only {A : Type} (f : A -> Z) (l : list A) :
  Forall (fun a => 0 <= f a) l ->
  Zsum (List.map f (List.filter (fun a => 0 <? f a) l)) = Zsum (List.map f l).
Proof.
  unfold Zsum. induction 1 as [|a l Ha _ IH]; simpl; [reflexivity|].
  destruct (Z.ltb_spec 0 (f a)); simpl; lia.
Qed.

Lemma eval_where_clause clause msg m :
  eval_where (buildSystemMessageFilter clause) msg m =
  eval_where (List.map CTs clause ++ [CNotSystem]) msg m.
Proof. destruct clause; reflexivity. Qed.

Lemma eval_where_split clause msg m :
  eval_where (List.map CTs clause ++ [CNotSystem]) msg m =
  eval_clause clause (msg_ts msg) && not_system m.
Proof.
  unfold eval_where, eval_clause. rewrite forallb_app. simpl. rewrite andb_true_r.
  f_equal. induction clause as [|c clause IH]; simpl; [reflexivity|]. rewrite IH. reflexivity.
Qed.

(** One message against the member rows: the joined rows that pass the
    total's WHERE are the members whose ON clause accepts the message. *)
Lemma join_row_count clause msg (ms : list MemberRow) :
  Z.of_nat (length (List.filter
                      (fun row => eval_where (buildSystemMessageFilter clause) (fst row) (snd row))
                      (List.map (fun m => (msg, m))
                         (List.filter (fun m => msg_sender_id msg =? m_id m) ms)))) =
  Zsum (List.map (fun m => if (m_id m =? msg_sender_id msg) &&
                              eval_where (List.map CTs clause ++ [CNotSystem]) msg m
                           then 1 else 0)
          (List.filter not_system ms)).
Proof.
  unfold Zsum. induction ms as [|m ms IH]; [reflexivity|].
  cbn [List.filter]. rewrite (Z.eqb_sym (msg_sender_id msg) (m_id m)).
  destruct (m_id m =? msg_sender_id msg) eqn:E.
  - cbn [List.map List.filter fst snd].
    rewrite eval_where_clause, eval_where_split.
    destruct (not_system m) eqn:S.
    + cbn [List.map fold_right]. rewrite E, eval_where_split, S, <- IH.
      destruct (eval_clause clause (msg_ts msg)); cbn [andb length]; lia.
    + rewrite andb_false_r. exact IH.
  - destruct (not_system m); [|exact IH].
    cbn [List.map fold_right]. rewrite E, <- IH. cbn [andb]. lia.
Qed.

Lemma count_cons_sum clause msg rest (ms : list MemberRow) :
  Zsum (List.map (fun m =>
          Z.of_nat (length (List.filter
                              (fun x => (m_id m =? msg_sender_id x) &&
                                        eval_where (List.map CTs clause ++ [CNotSystem]) x m)
                              (msg :: rest)))) ms) =
  Zsum (List.map (fun m => if (m_id m =? msg_sender_id msg) &&
                              eval_where (List.map CTs clause ++ [CNotSystem]) msg m
                           then 1 else 0) ms) +
  Zsum (List.map (fun m =>
          Z.of_nat (length (List.filter
                              (fun x => (m_id m =? msg_sender_id x) &&
                                        eval_where (List.map CTs clause ++ [CNotSystem]) x m)
                              rest))) ms).
Proof.
  unfold Zsum. induction ms as [|m ms IH]; [reflexivity|].
  cbn [List.map fold_right]. rewrite IH. cbn [List.filter].
  destruct ((m_id m =? msg_sender_id msg) && _); cbn [length]; lia.
Qed.

(** The sum of the per-member counts is the separately computed total. *)
Lemma member_counts_total d clause :
  Zsum (List.map (member_message_count d clause) (List.filter not_system (member d))) =
  totalMessages d clause.
Proof.
  unfold member_message_count, totalMessages, message_join_member.
  induction (message d) as [|msg rest IH].
  - simpl. induction (List.filter not_system (member d)); simpl; auto.
  - rewrite count_cons_sum. rewrite IH. cbn [flat_map].
    rewrite List.filter_app, length_app, Nat2Z.inj_add, join_row_count. reflexivity.
Qed.

Lemma member_activity_rows_perm d clause :
  Permutation (member_activity_rows d clause)
    (List.filter (fun row => 0 <? snd row)
       (List.map (fun m => (m, member_message_count d clause m))
          (List.filter not_system (member d)))).
Proof. apply Array_sort_perm. Qed.

Lemma member_activity_rows_sum d clause :
  Zsum (List.map snd (member_activity_rows d clause)) = totalMessages d clause.
Proof.
  rewrite (Zsum_perm _ _ (Permutation_map snd (member_activity_rows_perm d clause))).
  rewrite (Zsum_positive_only snd).
  - rewrite List.map_map. simpl. apply member_counts_total.
  - rewrite Forall_forall. intros row Hrow.
    apply list_elem_of_In, in_map_iff in Hrow as (m & <- & _). simpl.
    unfold member_message_count. lia.
Qed.








(** ** Grouping and counting *)

Section Grouping.
Context {K : Type} `{EqDecision K}.




Lemma In_remove_dups (l : list K) x : In x (remove_dups l) <-> In x l.
Proof. rewrite <- !list_elem_of_In. apply elem_of_remove_dups. Qed.







End Grouping.



(** ** Hourly activity *)








(** ** Message types *)




(** ** Daily activity *)







(** ** Time range *)

Lemma fold_left_min_spec (l : list Z) (x : Z) :
  In (fold_left Z.min l x) (x :: l) /\
  forall y, In y (x :: l) -> fold_left Z.min l x <= y.
Proof.
  revert x. induction l as [|a l IH]; intros x; simpl.
  - split; [left; reflexivity|]. intros y [<- | []]. lia.
  - destruct (IH (Z.min x a)) as [Hin Hle]. split.
    + destruct Hin as [Hin | Hin]; [|right; right; exact Hin].
      destruct (Z.min_spec x a) as [[_ E] | [_ E]]; [left | right; left]; congruence.
    + intros y Hy.
      assert (Hm : fold_left Z.min l (Z.min x a) <= Z.min x a) by (apply Hle; left; reflexivity).
      destruct Hy as [<- | [<- | Hy]]; [lia | lia |]. apply Hle. right. exact Hy.
Qed.

Lemma fold_left_max_spec (l : list Z) (x : Z) :
  In (fold_left Z.max l x) (x :: l) /\
  forall y, In y (x :: l) -> y <= fold_left Z.max l x.
Proof.
  revert x. induction l as [|a l IH]; intros x; simpl.
  - split; [left; reflexivity|]. intros y [<- | []]. lia.
  - destruct (IH (Z.max x a)) as [Hin Hle]. split.
    + destruct Hin as [Hin | Hin]; [|right; right; exact Hin].
      destruct (Z.max_spec x a) as [[_ E] | [_ E]]; [right; left | left]; congruence.
    + intros y Hy.
      assert (Hm : Z.max x a <= fold_left Z.max l (Z.max x a)) by (apply Hle; left; reflexivity).
      destruct Hy as [<- | [<- | Hy]]; [lia | lia |]. apply Hle. right. exact Hy.
Qed.

(** X4: for an existing session [getTimeRange] returns null exactly when the
    message table is empty; otherwise [start] and [end] are timestamps of stored
    messages and every stored message, system messages included, lies between
    them. *)
Theorem getTimeRange_bounds (DB_DIR : string) (fs : Fs) (sid : string) (db : Db) :
  openDatabase DB_DIR fs sid = Done (Some db) ->
  (getTimeRange DB_DIR fs sid = Done None <-> message db = []) /\
  (forall r, getTimeRange DB_DIR fs sid = Done (Some r) ->
     (forall msg, In msg (message db) -> tr_start r <= msg_ts msg <= tr_end r) /\
     In (tr_start r) (List.map msg_ts (message db)) /\
     In (tr_end r) (List.map msg_ts (message db))).
Proof.
  intros Hopen. unfold getTimeRange. rewrite Hopen.
  destruct (message db) as [|m l]; simpl.
  - split; [tauto|]. intros r [=].
  - split; [split; discriminate|].
    intros r [= <-]. cbn [tr_start tr_end].
    destruct (fold_left_min_spec (List.map msg_ts l) (msg_ts m)) as [Hmin_in Hmin].
    destruct (fold_left_max_spec (List.map msg_ts l) (msg_ts m)) as [Hmax_in Hmax].
    split; [|split; assumption].
    intros msg Hmsg.
    assert (Hin : In (msg_ts msg) (msg_ts m :: List.map msg_ts l)).
    { destruct Hmsg as [<- | Hmsg]; [left; reflexivity | right; apply in_map, Hmsg]. }
    split; [apply Hmin, Hin | apply Hmax, Hin].
Qed.

Lemma getTimeRange_bounds_witness :
  getTimeRange "/d" (fst (importData "/d" ∅ "s1" 5 None scenario)) "s1" = Done None <->
  message (fst (db_transaction (importTransaction scenario 5) empty_db None)) = [].
Proof.
  pose proof (getTimeRange_bounds "/d" (fst (importData "/d" ∅ "s1" 5 None scenario)) "s1"
                (fst (db_transaction (importTransaction scenario 5) empty_db None))) as H.
  assert (H1 : openDatabase "/d" (fst (importData "/d" ∅ "s1" 5 None scenario)) "s1" =
               Done (Some (fst (db_transaction (importTransaction scenario 5) empty_db None))))
    by (vm_compute; reflexivity).
  exact (proj1 (H H1)).
Defined.

(** ** Years *)

Lemma StronglySorted_weaken {A : Type} (R S : A -> A -> Prop) (l : list A) :
  (forall a b, R a b -> S a b) -> StronglySorted R l -> StronglySorted S l.
Proof.
  intros HRS. induction 1 as [|a l Hs IH Ha]; constructor; [exact IH|].
  rewrite Forall_forall in Ha. apply Forall_forall. intros y Hy. apply HRS, Ha, Hy.
Qed.

(** X5: [getAvailableYears] returns, in strictly descending order and so
    without repetition, exactly the local years in which some stored message
    was sent. *)
Theorem getAvailableYears_exact
  (DB_DIR : string) (local_year : Z -> Z) (fs : Fs) (sid : string) (db : Db)
  (years : list Z) :
  openDatabase DB_DIR fs sid = Done (Some db) ->
  getAvailableYears DB_DIR local_year fs sid = Done years ->
  StronglySorted (fun a b => b < a) years /\
  (forall y, In y years <-> exists msg, In msg (message db) /\ local_year (msg_ts msg) = y).
Proof.
  intros Hopen Hrun. unfold getAvailableYears in Hrun. rewrite Hopen in Hrun.
  injection Hrun as <-.
  set (ys := List.map (fun msg => local_year (msg_ts msg)) (message db)).
  pose proof (order_by_desc_perm (fun year : Z => year) (remove_dups ys)) as Hperm.
  split.
  - pose proof (sorted_nodup_strict (fun y : Z => - y)
                  (order_by_desc (fun year : Z => year) (remove_dups ys))) as Hstrict.
    cbv beta in Hstrict.
    assert (Hs : StronglySorted (fun a b : Z => - a < - b)
                   (order_by_desc (fun year : Z => year) (remove_dups ys))).
    { apply Hstrict.
      - eapply StronglySorted_weaken; [|apply (order_by_desc_sorted (fun year : Z => year))].
        intros a b. cbv beta. lia.
      - assert (Hinj : Inj eq eq (fun y : Z => - y)) by (intros a b; lia).
        apply (NoDup_fmap_2 (fun y : Z => - y)).
        rewrite Hperm. apply NoDup_remove_dups. }
    eapply StronglySorted_weaken; [|exact Hs]. intros a b. cbv beta. lia.
  - intros y. split.
    + intros Hin. apply (Permutation_in _ Hperm) in Hin.
      apply (proj1 (In_remove_dups _ _)) in Hin.
      apply in_map_iff in Hin as (msg & <- & Hin). exists msg. auto.
    + intros (msg & Hin & <-). apply (Permutation_in _ (Permutation_sym Hperm)).
      apply (proj2 (In_remove_dups _ _)).
      apply in_map_iff. exists msg. auto.
Qed.

Lemma getAvailableYears_exact_witness :
  StronglySorted (fun a b => b < a)
    (match getAvailableYears "/d" (fun ts => 1970 + ts / 31556952)
             (fst (importData "/d" ∅ "s1" 5 None scenario)) "s1" with
     | Done l => l
     | Raised _ => []
     end).
Proof.
  pose proof (getAvailableYears_exact "/d" (fun ts => 1970 + ts / 31556952)
                (fst (importData "/d" ∅ "s1" 5 None scenario)) "s1"
                (fst (db_transaction (importTransaction scenario 5) empty_db None))
                (match getAvailableYears "/d" (fun ts => 1970 + ts / 31556952)
                         (fst (importData "/d" ∅ "s1" 5 None scenario)) "s1" with
                 | Done l => l
                 | Raised _ => []
                 end)) as H.
  assert (H1 : openDatabase "/d" (fst (importData "/d" ∅ "s1" 5 None scenario)) "s1" =
               Done (Some (fst (db_transaction (importTransaction scenario 5) empty_db None))))
    by (vm_compute; reflexivity).
  assert (H2 : getAvailableYears "/d" (fun ts => 1970 + ts / 31556952)
                 (fst (importData "/d" ∅ "s1" 5 None scenario)) "s1" =
               Done (match getAvailableYears "/d" (fun ts => 1970 + ts / 31556952)
                             (fst (importData "/d" ∅ "s1" 5 None scenario)) "s1" with
                     | Done l => l
                     | Raised _ => []
                     end))
    by (vm_compute; reflexivity).
  exact (proj1 (H H1 H2)).
Defined.


(** ** The import, row for row *)

Lemma last_name_cons prev x l : last_name prev (x :: l) = last_name (Some (senderName x)) l.
Proof. unfold last_name. rewrite last_cons. destruct (last l); reflexivity. Qed.

Lemma last_name_snoc prev l x : last_name prev (l ++ [x]) = Some (senderName x).
Proof. unfold last_name. rewrite last_snoc. reflexivity. Qed.

Lemma nickname_changes_snoc prev l x :
  nickname_changes prev (l ++ [x]) =
  nickname_changes prev l ++
  (if bool_decide (last_name prev l = Some (senderName x))
   then [] else [(senderName x, timestamp x)]).
Proof.
  revert prev. induction l as [|y l IH]; intros prev.
  - reflexivity.
  - cbn [app nickname_changes]. rewrite last_name_cons.
    destruct (bool_decide (prev = Some (senderName y))) eqn:E.
    + apply bool_decide_eq_true in E. subst prev. apply IH.
    + cbn [app]. f_equal. apply IH.
Qed.

Lemma messages_of_snoc p pre x :
  messages_of p (pre ++ [x]) =
  messages_of p pre ++ (if String.eqb (senderPlatformId x) p then [x] else []).
Proof. unfold messages_of. rewrite List.filter_app. reflexivity. Qed.

Lemma stored_rows_snoc mm next pre x :
  stored_rows mm next (pre ++ [x]) =
  stored_rows mm next pre ++
  match mm !! senderPlatformId x with
  | Some sid => [{| msg_id := next + Z.of_nat (length (stored_rows mm next pre));
                    msg_sender_id := sid; msg_ts := timestamp x; msg_type := type x;
                    msg_content := content x |}]
  | None => []
  end.
Proof.
  revert next. induction pre as [|y pre IH]; intros next; cbn [app stored_rows].
  - destruct (mm !! senderPlatformId x); [|reflexivity].
    cbn [length app]. rewrite Z.add_0_r. reflexivity.
  - destruct (mm !! senderPlatformId y) as [s|]; [|apply IH].
    cbn [app length]. rewrite IH. f_equal.
    destruct (mm !! senderPlatformId x); [|reflexivity].
    replace (next + 1 + Z.of_nat (length (stored_rows mm (next + 1) pre)))
      with (next + Z.of_nat (S (length (stored_rows mm (next + 1) pre)))) by lia.
    reflexivity.
Qed.

Lemma history_of_insert mid sid nm ts d :
  history_of mid (snd (insertNameHistory sid nm ts None d)) =
  history_of mid d ++
  (if sid =? mid
   then [{| h_id := seq_history d + 1; h_member_id := sid; h_name := nm;
            h_start_ts := ts; h_end_ts := None |}]
   else []).
Proof. unfold insertNameHistory. cbn [snd]. rewrite history_of_snoc. reflexivity. Qed.

Lemma name_start_close t l :
  List.map name_start (List.map (close_row t) l) = List.map name_start l.
Proof.
  rewrite List.map_map. apply List.map_ext. intros r. unfold name_start, close_row.
  destruct (is_null (h_end_ts r)); reflexivity.
Qed.

Section ExactWalk.

Variable mm : gmap string Z.
Hypothesis mm_inj : forall p q i, mm !! p = Some i -> mm !! q = Some i -> p = q.

Lemma walk_exact_start db1 : member_name_history db1 = [] -> walk_exact mm db1 [] [] db1.
Proof.
  intros Hempty. split.
  - cbn [stored_rows]. rewrite app_nil_r. reflexivity.
  - cbn [stored_rows length]. lia.
  - intros p sid _. unfold history_of. rewrite Hempty. reflexivity.
  - intros p sid _. reflexivity.
Qed.

(** The rows of the messages: every completed turn for a known sender
    appends one row. *)
Lemma walk_exact_rows db1 pre x tracker d d' sid :
  walk_exact mm db1 pre tracker d ->
  mm !! senderPlatformId x = Some sid ->
  message d' = message d ++ [{| msg_id := seq_message d + 1; msg_sender_id := sid;
                                msg_ts := timestamp x; msg_type := type x;
                                msg_content := content x |}] ->
  seq_message d' = seq_message d + 1 ->
  message d' = message db1 ++ stored_rows mm (seq_message db1 + 1) (pre ++ [x]) /\
  seq_message d' =
  seq_message db1 + Z.of_nat (length (stored_rows mm (seq_message db1 + 1) (pre ++ [x]))).
Proof.
  intros [H1 H2 _ _] Hx Hm Hs. rewrite stored_rows_snoc, Hx, Hm, Hs, H1, H2, length_app.
  cbn [length]. split; [|lia].
  rewrite <- app_assoc. do 2 f_equal.
  replace (seq_message db1 + Z.of_nat (length (stored_rows mm (seq_message db1 + 1) pre)) + 1)
    with (seq_message db1 + 1 + Z.of_nat (length (stored_rows mm (seq_message db1 + 1) pre)))
    by lia.
  reflexivity.
Qed.

(** A turn for the sender [sid] leaves the intervals and the tracked name
    of every other known sender alone. *)
Lemma walk_exact_other db1 pre x tracker d d' tracker' sid v :
  walk_exact mm db1 pre tracker d ->
  mm !! senderPlatformId x = Some sid ->
  tracker' = Map_set (senderPlatformId x) v tracker ->
  (forall mid, mid <> sid -> history_of mid d' = history_of mid d) ->
  forall p sid', mm !! p = Some sid' -> senderPlatformId x <> p ->
    List.map name_start (history_of sid' d') =
      nickname_changes None (messages_of p (pre ++ [x])) /\
    option_map currentName (Map_get p tracker') = last_name None (messages_of p (pre ++ [x])).
Proof.
  intros [_ _ H3 H4] Hx -> Hh p sid' Hp Hne.
  assert (Hsid : sid' <> sid) by (intros ->; apply Hne; eapply mm_inj; eauto).
  rewrite messages_of_snoc.
  replace (String.eqb (senderPlatformId x) p) with false
    by (symmetry; apply String.eqb_neq, Hne).
  rewrite app_nil_r, (Hh _ Hsid), Map_get_set_ne by exact Hne. eauto.
Qed.

Lemma walk_exact_step db1 pre x tracker st tracker' st' :
  walk_exact mm db1 pre tracker (tx_db st) ->
  import_message mm tracker x st = Done (tracker', st') ->
  walk_exact mm db1 (pre ++ [x]) tracker' (tx_db st').
Proof.
  intros H Hb. apply import_message_effect in Hb.
  destruct (mm !! senderPlatformId x) as [sid|] eqn:Hx.
  2:{ destruct Hb as [-> ->]. destruct H as [H1 H2 H3 H4].
      assert (Hne : forall p sid, mm !! p = Some sid ->
                                  String.eqb (senderPlatformId x) p = false).
      { intros p sid Hp. apply String.eqb_neq. intros E. congruence. }
      split.
      - rewrite stored_rows_snoc, Hx, app_nil_r. exact H1.
      - rewrite stored_rows_snoc, Hx, app_nil_r. exact H2.
      - intros p sid Hp. rewrite messages_of_snoc, (Hne p sid Hp), app_nil_r. eauto.
      - intros p sid Hp. rewrite messages_of_snoc, (Hne p sid Hp), app_nil_r. eauto. }
  cbv zeta in Hb.
  pose proof (we_history _ _ _ _ _ H _ _ Hx) as Hhist.
  pose proof (we_tracker _ _ _ _ _ H _ _ Hx) as Htr.
  assert (Hself : messages_of (senderPlatformId x) (pre ++ [x]) =
                  messages_of (senderPlatformId x) pre ++ [x]).
  { rewrite messages_of_snoc, String.eqb_refl. reflexivity. }
  destruct (Map_get (senderPlatformId x) tracker) as [t0|] eqn:Hget.
  - destruct (String.eqb_spec (currentName t0) (senderName x)) as [Hname | Hname];
      destruct Hb as [Ht ->].
    + (* the same name again *)
      set (d1 := snd (insertMessage sid (timestamp x) (type x) (content x) (tx_db st))).
      destruct (walk_exact_rows db1 pre x tracker (tx_db st) d1 sid H Hx eq_refl eq_refl)
        as [G1 G2].
      assert (Hother := walk_exact_other db1 pre x tracker (tx_db st) d1 tracker' sid _
                          H Hx Ht (fun mid _ => eq_refl)).
      split; [exact G1 | exact G2 | |].
      * intros p sid' Hp. destruct (decide (senderPlatformId x = p)) as [<- | Hne].
        2:{ apply (Hother p sid' Hp Hne). }
        assert (sid' = sid) as -> by congruence.
        rewrite Hself, nickname_changes_snoc, <- Htr. cbn [option_map].
        rewrite bool_decide_eq_true_2 by congruence. rewrite app_nil_r. exact Hhist.
      * intros p sid' Hp. destruct (decide (senderPlatformId x = p)) as [<- | Hne].
        2:{ apply (Hother p sid' Hp Hne). }
        rewrite Ht, Map_get_set_eq, Hself, last_name_snoc. cbn [option_map currentName].
        congruence.
    + (* a new name: close the open interval, open the next *)
      set (d1 := snd (insertMessage sid (timestamp x) (type x) (content x) (tx_db st))).
      set (d2 := snd (updateNameHistoryEndTs (timestamp x) sid d1)).
      destruct (walk_exact_rows db1 pre x tracker (tx_db st)
                  (snd (insertNameHistory sid (senderName x) (timestamp x) None d2))
                  sid H Hx eq_refl eq_refl)
        as [G1 G2].
      assert (Hh : forall mid, mid <> sid ->
                     history_of mid
                       (snd (insertNameHistory sid (senderName x) (timestamp x) None d2)) =
                     history_of mid (tx_db st)).
      { intros mid Hmid. rewrite history_of_insert.
        replace (sid =? mid) with false by (symmetry; apply Z.eqb_neq; congruence).
        rewrite app_nil_r. unfold d2. rewrite history_of_close.
        replace (mid =? sid) with false by (symmetry; apply Z.eqb_neq; congruence).
        reflexivity. }
      assert (Hother := walk_exact_other db1 pre x tracker (tx_db st) _ tracker' sid _
                          H Hx Ht Hh).
      split; [exact G1 | exact G2 | |].
      * intros p sid' Hp. destruct (decide (senderPlatformId x = p)) as [<- | Hne].
        2:{ apply (Hother p sid' Hp Hne). }
        assert (sid' = sid) as -> by congruence.
        rewrite Hself, nickname_changes_snoc, <- Htr. cbn [option_map].
        rewrite bool_decide_eq_false_2 by congruence.
        rewrite history_of_insert, Z.eqb_refl, List.map_app. unfold d2.
        rewrite history_of_close, Z.eqb_refl, name_start_close.
        change (history_of sid d1) with (history_of sid (tx_db st)).
        rewrite Hhist. reflexivity.
      * intros p sid' Hp. destruct (decide (senderPlatformId x = p)) as [<- | Hne].
        2:{ apply (Hother p sid' Hp Hne). }
        rewrite Ht, Map_get_set_eq, Hself, last_name_snoc. reflexivity.
  - (* the first message of this sender *)
    destruct Hb as [Ht ->].
    set (d1 := snd (insertMessage sid (timestamp x) (type x) (content x) (tx_db st))).
    destruct (walk_exact_rows db1 pre x tracker (tx_db st)
                (snd (insertNameHistory sid (senderName x) (timestamp x) None d1))
                sid H Hx eq_refl eq_refl)
      as [G1 G2].
    assert (Hh : forall mid, mid <> sid ->
                   history_of mid
                     (snd (insertNameHistory sid (senderName x) (timestamp x) None d1)) =
                   history_of mid (tx_db st)).
    { intros mid Hmid. rewrite history_of_insert.
      replace (sid =? mid) with false by (symmetry; apply Z.eqb_neq; congruence).
      rewrite app_nil_r. reflexivity. }
    assert (Hother := walk_exact_other db1 pre x tracker (tx_db st) _ tracker' sid _
                        H Hx Ht Hh).
    split; [exact G1 | exact G2 | |].
    + intros p sid' Hp. destruct (decide (senderPlatformId x = p)) as [<- | Hne].
      2:{ apply (Hother p sid' Hp Hne). }
      assert (sid' = sid) as -> by congruence.
      rewrite Hself, nickname_changes_snoc, <- Htr. cbn [option_map].
      rewrite bool_decide_eq_false_2 by discriminate.
      rewrite history_of_insert, Z.eqb_refl, List.map_app.
      change (history_of sid d1) with (history_of sid (tx_db st)).
      rewrite Hhist. reflexivity.
    + intros p sid' Hp. destruct (decide (senderPlatformId x = p)) as [<- | Hne].
      2:{ apply (Hother p sid' Hp Hne). }
      rewrite Ht, Map_get_set_eq, Hself, last_name_snoc. reflexivity.
Qed.

Lemma walk_exact_loop l st tracker st' :
  member_name_history (tx_db st) = [] ->
  forEach (import_message mm) l [] st = Done (tracker, st') ->
  walk_exact mm (tx_db st) l tracker (tx_db st').
Proof.
  intros Hempty Hrun.
  apply (forEach_invariant (import_message mm) l (fun pre tr d => walk_exact mm (tx_db st) pre tr d))
    with (s := []) (st := st); [| |exact Hrun].
  - intros pre x suf tr st1 tr' st1' _ H Hb. eapply walk_exact_step; eauto.
  - apply walk_exact_start, Hempty.
Qed.

End ExactWalk.


(** ** The member loop, row for row *)

Lemma import_member_db mm m st mm' st' :
  import_member mm m st = Done (mm', st') ->
  tx_db st' = snd (insertMember (platformId m) (name m) (tx_db st)).
Proof.
  unfold import_member. intros H.
  apply bind_Done in H as (a & st0 & H0 & H). apply exec_Done_db in H0.
  apply bind_Done in H as (row & st1 & H1 & H). apply exec_Done_db in H1.
  simpl in H1.
  destruct row as [id|]; [|discriminate H].
  apply ret_Done in H as [_ <-]. congruence.
Qed.

Lemma listed_name_app l1 l2 p :
  listed_name (l1 ++ l2) p =
  match listed_name l1 p with
  | Some n => Some n
  | None => listed_name l2 p
  end.
Proof.
  unfold listed_name. induction l1 as [|m l1 IH]; [reflexivity|].
  cbn [app List.find]. destruct (String.eqb (platformId m) p); [reflexivity | exact IH].
Qed.

Lemma listed_name_None l p :
  ~ In p (List.map platformId l) -> listed_name l p = None.
Proof.
  unfold listed_name. induction l as [|m l IH]; [reflexivity|].
  cbn [List.map List.find]. intros Hn.
  destruct (String.eqb_spec (platformId m) p) as [E | E].
  - exfalso. apply Hn. left. exact E.
  - apply IH. intros Hin. apply Hn. right. exact Hin.
Qed.

Lemma member_table_step pre x d :
  member_table pre d ->
  member_table (pre ++ [x]) (snd (insertMember (platformId x) (name x) d)).
Proof.
  intros [H1 H2 H3 H4]. unfold insertMember.
  destruct (existsb _ (member d)) eqn:E; cbn [snd].
  - apply existsb_exists in E as (r & Hr & Heq). apply String.eqb_eq in Heq.
    split; [exact H1 | exact H2 | |].
    + intros p. rewrite H3, List.map_app, in_app_iff. cbn [List.map In]. split; [auto|].
      intros [Hp | [<- | []]]; [exact Hp|].
      apply H3. rewrite <- Heq. apply in_map, Hr.
    + intros r' Hr'. rewrite listed_name_app, (H4 r' Hr'). reflexivity.
  - pose proof (existsb_pid_false _ _ E) as Hfresh.
    assert (Hnew : ~ In (platformId x) (List.map platformId pre)).
    { intros Hin. apply H3, in_map_iff in Hin as (r & Hr & Hin). exact (Hfresh r Hin Hr). }
    split; cbn [member seq_member set_member].
    + rewrite List.map_app, length_app, H1, H2. cbn [List.map length m_id].
      rewrite Nat.add_1_r, seq_S, List.map_app. cbn [List.map].
      f_equal. f_equal. lia.
    + rewrite length_app, H2. cbn [length]. lia.
    + intros p. rewrite !List.map_app, !in_app_iff, H3. reflexivity.
    + intros r Hr. rewrite listed_name_app. apply in_app_iff in Hr as [Hr | [<- | []]].
      * rewrite (H4 r Hr). reflexivity.
      * cbn [m_platform_id m_name]. rewrite (listed_name_None pre _ Hnew).
        unfold listed_name. cbn [List.find]. rewrite String.eqb_refl. reflexivity.
Qed.

Lemma member_table_loop l mm0 st mm st' :
  member (tx_db st) = [] -> seq_member (tx_db st) = 0 ->
  forEach import_member l mm0 st = Done (mm, st') ->
  member_table l (tx_db st').
Proof.
  intros Hm Hs Hrun.
  apply (forEach_invariant import_member l (fun pre _ d => member_table pre d))
    with (s := mm0) (st := st) (s' := mm); [| |exact Hrun].
  - intros pre x suf s st1 s' st1' _ H Hb. apply import_member_db in Hb. rewrite Hb.
    apply member_table_step, H.
  - split; rewrite ?Hm, ?Hs; try reflexivity.
    intros r [].
Qed.

(** ** What [stored_rows] holds *)

Lemma stored_rows_ids mm n l :
  List.map msg_id (stored_rows mm (Z.of_nat n) l) =
  List.map Z.of_nat (seq n (length (stored_rows mm (Z.of_nat n) l))).
Proof.
  revert n. induction l as [|x l IH]; intros n; cbn [stored_rows]; [reflexivity|].
  destruct (mm !! senderPlatformId x); [|apply IH].
  cbn [List.map length seq msg_id]. f_equal.
  replace (Z.of_nat n + 1) with (Z.of_nat (S n)) by lia. apply IH.
Qed.

Lemma stored_rows_known mm next l :
  Forall2 (fun row msg => mm !! senderPlatformId msg = Some (msg_sender_id row) /\
                          msg_ts row = timestamp msg /\ msg_type row = type msg /\
                          msg_content row = content msg)
    (stored_rows mm next l) (List.filter (known mm) l).
Proof.
  revert next. induction l as [|x l IH]; intros next; cbn [stored_rows List.filter].
  - constructor.
  - unfold known at 1. destruct (mm !! senderPlatformId x) as [sid|] eqn:Hx.
    + rewrite bool_decide_eq_true_2 by eauto. constructor; [|apply IH]. simpl. auto.
    + rewrite bool_decide_eq_false_2 by (intros [? ?]; discriminate). apply IH.
Qed.

Lemma stored_rows_ts mm next l row :
  In row (stored_rows mm next l) -> In (msg_ts row) (List.map timestamp l).
Proof.
  revert next. induction l as [|x l IH]; intros next; cbn [stored_rows]; [intros []|].
  destruct (mm !! senderPlatformId x).
  - intros [<- | Hin]; [left; reflexivity | right; eapply IH, Hin].
  - intros Hin. right. eapply IH, Hin.
Qed.

Lemma stored_rows_sorted mm next l :
  StronglySorted (fun a b => timestamp a <= timestamp b) l ->
  StronglySorted (fun a b => msg_ts a <= msg_ts b) (stored_rows mm next l).
Proof.
  intros Hs. revert next. induction Hs as [|x l Hs IH Hx]; intros next; cbn [stored_rows].
  - constructor.
  - destruct (mm !! senderPlatformId x); [|apply IH].
    constructor; [apply IH|]. apply Forall_forall. intros row Hrow.
    apply list_elem_of_In, stored_rows_ts, in_map_iff in Hrow as (msg & <- & Hmsg).
    rewrite Forall_forall in Hx. cbn [msg_ts]. apply Hx, list_elem_of_In, Hmsg.
Qed.

(** ** The committed transaction, row for row *)

(** [mm] is the [memberIdMap] the first loop built. *)
Lemma importTransaction_exact pr now st u st' :
  tx_db st = empty_db ->
  importTransaction pr now st = Done (u, st') ->
  exists mm,
    (forall p i, mm !! p = Some i <->
                 exists r, In r (member (tx_db st')) /\ m_platform_id r = p /\ m_id r = i) /\
    (forall msg, known mm msg = listed pr msg) /\
    message (tx_db st') = stored_rows mm 1 (sortedMessages pr) /\
    (forall m, In m (member (tx_db st')) ->
       List.map name_start (history_of (m_id m) (tx_db st')) =
       nickname_changes None (messages_of (m_platform_id m) (sortedMessages pr))) /\
    List.map m_id (member (tx_db st')) =
      List.map Z.of_nat (seq 1 (length (member (tx_db st')))) /\
    NoDup (List.map m_platform_id (member (tx_db st'))) /\
    (forall p, In p (List.map m_platform_id (member (tx_db st'))) <->
               In p (List.map platformId (members pr))) /\
    (forall m, In m (member (tx_db st')) ->
       last_name (listed_name (members pr) (m_platform_id m))
         (messages_of (m_platform_id m) (sortedMessages pr)) = Some (m_name m)).
Proof.
  intros Hdb Hrun. unfold importTransaction in Hrun.
  apply bind_Done in Hrun as (a0 & st0 & H0 & Hrun). apply exec_Done_db in H0.
  apply bind_Done in Hrun as (mm & st1 & H1 & Hrun).
  apply bind_Done in Hrun as (tracker & st2 & H2 & Hrun).
  rewrite Hdb in H0. simpl in H0.
  assert (Hok0 : members_ok ∅ (tx_db st0)).
  { rewrite H0. split; simpl; try constructor.
    - intros H. rewrite lookup_empty in H. discriminate.
    - intros (r & [] & _). }
  destruct (member_loop _ _ _ _ _ Hok0 H1) as (Hok & Hdom & Hsub & M1 & M2 & M3 & _ & M5).
  assert (Htab : member_table (members pr) (tx_db st1)).
  { apply (member_table_loop _ _ _ _ _ ltac:(rewrite H0; reflexivity)
             ltac:(rewrite H0; reflexivity) H1). }
  rewrite H0 in M1, M2, M3, M5. simpl in M1, M2, M3, M5.
  pose proof (fun p q i => members_ok_inj mm _ p q i Hok) as Hinj.
  destruct (walk_loop mm Hinj _ _ _ _ (sortedMessages_sorted pr) M2 H2)
    as [Hh [_ W2 _ _ _ _]].
  pose proof (walk_exact_loop mm Hinj _ _ _ _ M2 H2) as [E1 _ E3 E4].
  rewrite M3, M5 in E1. cbn [app] in E1. change (0 + 1) with 1 in E1.
  destruct u.
  destruct (rename_loop _ _ _ _ (wh_keys _ _ _ _ Hh) Hrun) as (R1 & _ & R3 & R4).
  assert (Hhist : forall mid, history_of mid (tx_db st') = history_of mid (tx_db st2))
    by (intros mid; unfold history_of; rewrite R3; reflexivity).
  assert (Hpid : List.map m_platform_id (member (tx_db st')) =
                 List.map m_platform_id (member (tx_db st1))).
  { rewrite R1, W2, List.map_map. apply List.map_ext. intros r. apply rename_row_pid. }
  assert (Hid : List.map m_id (member (tx_db st')) = List.map m_id (member (tx_db st1))).
  { rewrite R1, W2, List.map_map. apply List.map_ext. intros r. apply rename_row_id. }
  assert (Hrow : forall m, In m (member (tx_db st')) ->
                   exists m0, In m0 (member (tx_db st1)) /\ m = rename_row tracker m0).
  { intros m Hm. rewrite R1, W2 in Hm. apply in_map_iff in Hm as (m0 & <- & Hm0). eauto. }
  exists mm. split; [|split; [|split; [|split; [|split; [|split; [|split]]]]]].
  - intros p i. rewrite (mo_map _ _ Hok). split.
    + intros (r & Hr & <- & <-). exists (rename_row tracker r).
      rewrite rename_row_id, rename_row_pid. split; [|auto].
      rewrite R1, W2. apply in_map, Hr.
    + intros (r & Hr & <- & <-). destruct (Hrow r Hr) as (m0 & Hm0 & ->).
      rewrite rename_row_id, rename_row_pid. eauto.
  - intros msg. apply known_listed; [exact Hdom|].
    intros p Hp. destruct (Hsub p Hp) as [[v Hv] | Hin]; [|exact Hin].
    rewrite lookup_empty in Hv. discriminate.
  - rewrite R4. exact E1.
  - intros m Hm. destruct (Hrow m Hm) as (m0 & Hm0 & ->).
    rewrite rename_row_id, rename_row_pid, Hhist.
    apply E3, (mo_map _ _ Hok). eauto.
  - rewrite Hid, <- (length_map m_id (member (tx_db st'))), Hid, length_map.
    apply (mt_ids _ _ Htab).
  - rewrite Hpid. apply (mo_pid_nodup _ _ Hok).
  - intros p. rewrite Hpid. apply (mt_pids _ _ Htab).
  - intros m Hm. destruct (Hrow m Hm) as (m0 & Hm0 & ->).
    rewrite rename_row_pid.
    assert (Hmm : mm !! m_platform_id m0 = Some (m_id m0)) by (apply (mo_map _ _ Hok); eauto).
    specialize (E4 _ _ Hmm). unfold rename_row.
    destruct (Map_get (m_platform_id m0) tracker) as [tr|]; cbn [option_map] in E4.
    + cbn [m_name]. unfold last_name in *.
      destruct (last (messages_of (m_platform_id m0) (sortedMessages pr))); congruence.
    + unfold last_name in *.
      destruct (last (messages_of (m_platform_id m0) (sortedMessages pr))); [discriminate|].
      apply (mt_names _ _ Htab), Hm0.
Qed.


(** ** The tables a completed import leaves *)

(** X6: after [importData] completes on a fresh session, the message table
    holds, in row order, exactly the messages of listed senders in ascending
    order of timestamp (messages of unlisted senders are dropped): the ids
    count 1, 2, 3, ... without a gap, timestamps never decrease along the ids,
    and every row keeps timestamp, type and content of its message and points
    to the member row of its sender. *)
Theorem importData_messages_in_order
  (DB_DIR : string) (fs fs' : Fs) (sid sid' : string) (now : Z) (fault : option nat)
  (pr : ParseResult) (db : Db) :
  fs !! getDbPath DB_DIR sid = None ->
  importData DB_DIR fs sid now fault pr = (fs', Done sid') ->
  openDatabase DB_DIR fs' sid = Done (Some db) ->
  List.map msg_id (message db) = List.map Z.of_nat (seq 1 (length (message db))) /\
  StronglySorted (fun a b => msg_ts a <= msg_ts b) (message db) /\
  Forall2 (fun row msg =>
             msg_ts row = timestamp msg /\ msg_type row = type msg /\
             msg_content row = content msg /\
             exists m, In m (member db) /\ m_id m = msg_sender_id row /\
                       m_platform_id m = senderPlatformId msg)
    (message db) (List.filter (listed pr) (sortedMessages pr)).
Proof.
  intros Hfresh Hrun Hopen.
  destruct (importData_Done _ _ _ _ _ _ _ _ _ Hfresh Hrun Hopen) as (st' & Htx & <-).
  destruct (importTransaction_exact pr now {| tx_db := empty_db; tx_fault := fault |} tt st'
              eq_refl Htx)
    as (mm & Hmm & Hknown & Hmsg & _).
  rewrite Hmsg. split; [|split].
  - apply (stored_rows_ids mm 1).
  - apply stored_rows_sorted, sortedMessages_sorted.
  - rewrite <- (List.filter_ext (known mm) (listed pr) Hknown).
    eapply Forall2_impl; [apply stored_rows_known|].
    intros row msg (Hs & Ht & Hty & Hc). cbv beta.
    split; [exact Ht|]. split; [exact Hty|]. split; [exact Hc|].
    apply Hmm in Hs as (r & Hr & Hp & Hi). eauto.
Qed.

Lemma importData_messages_in_order_witness :
  List.map msg_id (message (fst (db_transaction (importTransaction scenario 5) empty_db None))) =
  List.map Z.of_nat
    (seq 1 (length (message (fst (db_transaction (importTransaction scenario 5) empty_db
                                    None))))).
Proof.
  pose proof (importData_messages_in_order "/d" ∅
                (fst (importData "/d" ∅ "s1" 5 None scenario)) "s1" "s1" 5 None scenario
                (fst (db_transaction (importTransaction scenario 5) empty_db None))) as H.
  assert (H1 : (∅ : Fs) !! getDbPath "/d" "s1" = None) by (vm_compute; reflexivity).
  assert (H2 : importData "/d" ∅ "s1" 5 None scenario =
               (fst (importData "/d" ∅ "s1" 5 None scenario), Done "s1"%string))
    by (vm_compute; reflexivity).
  assert (H3 : openDatabase "/d" (fst (importData "/d" ∅ "s1" 5 None scenario)) "s1" =
               Done (Some (fst (db_transaction (importTransaction scenario 5) empty_db None))))
    by (vm_compute; reflexivity).
  exact (proj1 (H H1 H2 H3)).
Defined.

(** X7: after [importData] completes on a fresh session, the intervals of a
    member, read in row order, are exactly the nickname changes of its
    messages read in ascending order of timestamp: one interval for the first
    message and one for every message whose sender name differs from that of
    the member's message before it, each named and started as that message. *)
Theorem importData_history_is_nickname_changes
  (DB_DIR : string) (fs fs' : Fs) (sid sid' : string) (now : Z) (fault : option nat)
  (pr : ParseResult) (db : Db) (m : MemberRow) :
  fs !! getDbPath DB_DIR sid = None ->
  importData DB_DIR fs sid now fault pr = (fs', Done sid') ->
  openDatabase DB_DIR fs' sid = Done (Some db) ->
  In m (member db) ->
  List.map name_start (history_of (m_id m) db) =
  nickname_changes None (messages_of (m_platform_id m) (sortedMessages pr)).
Proof.
  intros Hfresh Hrun Hopen Hm.
  destruct (importData_Done _ _ _ _ _ _ _ _ _ Hfresh Hrun Hopen) as (st' & Htx & <-).
  destruct (importTransaction_exact pr now {| tx_db := empty_db; tx_fault := fault |} tt st'
              eq_refl Htx)
    as (mm & _ & _ & _ & Hhist & _).
  apply Hhist, Hm.
Qed.

Lemma importData_history_is_nickname_changes_witness :
  List.map name_start
    (history_of (m_id {| m_id := 1; m_platform_id := "X"; m_name := "Alicia" |})
       (fst (db_transaction (importTransaction scenario 5) empty_db None))) =
  nickname_changes None
    (messages_of (m_platform_id {| m_id := 1; m_platform_id := "X"; m_name := "Alicia" |})
       (sortedMessages scenario)).
Proof.
  pose proof (importData_history_is_nickname_changes "/d" ∅
                (fst (importData "/d" ∅ "s1" 5 None scenario)) "s1" "s1" 5 None scenario
                (fst (db_transaction (importTransaction scenario 5) empty_db None))
                {| m_id := 1; m_platform_id := "X"; m_name := "Alicia" |}) as H.
  assert (H1 : (∅ : Fs) !! getDbPath "/d" "s1" = None) by (vm_compute; reflexivity).
  assert (H2 : importData "/d" ∅ "s1" 5 None scenario =
               (fst (importData "/d" ∅ "s1" 5 None scenario), Done "s1"%string))
    by (vm_compute; reflexivity).
  assert (H3 : openDatabase "/d" (fst (importData "/d" ∅ "s1" 5 None scenario)) "s1" =
               Done (Some (fst (db_transaction (importTransaction scenario 5) empty_db None))))
    by (vm_compute; reflexivity).
  assert (H4 : In {| m_id := 1; m_platform_id := "X"; m_name := "Alicia" |}
                 (member (fst (db_transaction (importTransaction scenario 5) empty_db None))))
    by (vm_compute; auto).
  exact (H H1 H2 H3 H4).
Defined.



(** ** Reading the name history back *)

Lemma history_open_name mm pre tracker d m r :
  walk_hist mm pre tracker d ->
  mm !! m_platform_id m = Some (m_id m) ->
  (forall tr, Map_get (m_platform_id m) tracker = Some tr -> m_name m = currentName tr) ->
  In r (history_of (m_id m) d) -> h_end_ts r = None -> h_name r = m_name m.
Proof.
  intros Hh Hmm Hname Hr Hend.
  assert (Hsent : In (m_platform_id m) (List.map senderPlatformId pre)).
  { pose proof (wh_tracker _ _ _ _ Hh _ _ Hmm) as H2.
    destruct (Map_get (m_platform_id m) tracker) as [tr|].
    - destruct H2 as (_ & _ & _ & _ & Hin). exact Hin.
    - destruct H2 as [E _]. rewrite E in Hr. destruct Hr. }
  destruct (walk_hist_invariant mm pre tracker d m Hh Hmm Hname Hsent)
    as (init & open & E & _ & Hclosed & _ & _ & Hn).
  rewrite E in Hr. apply in_app_iff in Hr as [Hr | [<- | []]]; [|symmetry; exact Hn].
  rewrite Forall_forall in Hclosed. apply list_elem_of_In, Hclosed in Hr. contradiction.
Qed.

(** X9: after [importData] completes on a fresh session,
    [getMemberNameHistory] of a stored member returns its nickname changes
    (name and start, as the messages in timestamp order give them) rearranged
    so that [startTs] never increases; any entry whose [endTs] is null carries
    the member's stored name. *)
Theorem getMemberNameHistory_after_import
  (DB_DIR : string) (fs fs' : Fs) (sid sid' : string) (now : Z) (fault : option nat)
  (pr : ParseResult) (db : Db) (m : MemberRow) (result : list NameHistoryEntry) :
  fs !! getDbPath DB_DIR sid = None ->
  importData DB_DIR fs sid now fault pr = (fs', Done sid') ->
  openDatabase DB_DIR fs' sid = Done (Some db) ->
  In m (member db) ->
  getMemberNameHistory DB_DIR fs' sid (m_id m) = Done result ->
  Permutation (List.map (fun e => (nh_name e, nh_startTs e)) result)
    (nickname_changes None (messages_of (m_platform_id m) (sortedMessages pr))) /\
  StronglySorted (fun a b => nh_startTs b <= nh_startTs a) result /\
  (forall e, In e result -> nh_endTs e = None -> nh_name e = m_name m).
Proof.
  intros Hfresh Hrun Hopen Hm Hget.
  unfold getMemberNameHistory in Hget. rewrite Hopen in Hget. injection Hget as <-.
  destruct (importData_Done _ _ _ _ _ _ _ _ _ Hfresh Hrun Hopen) as (st' & Htx & <-).
  destruct (importTransaction_exact pr now {| tx_db := empty_db; tx_fault := fault |} tt st'
              eq_refl Htx)
    as (mm & _ & _ & _ & Hhist & _).
  destruct (imported_member pr now {| tx_db := empty_db; tx_fault := fault |} st' m
              eq_refl Htx Hm) as (mm' & tracker & Hh & Hmm & Hname).
  pose proof (order_by_desc_perm h_start_ts (history_of (m_id m) (tx_db st'))) as Hperm.
  split; [|split].
  - rewrite List.map_map. cbn [nh_name nh_startTs].
    rewrite <- (Hhist m Hm). apply (Permutation_map name_start), Hperm.
  - apply (StronglySorted_map
             (fun r => {| nh_name := h_name r; nh_startTs := h_start_ts r;
                          nh_endTs := h_end_ts r |})
             (fun a b => nh_startTs b <= nh_startTs a)).
    cbn [nh_startTs]. apply order_by_desc_sorted.
  - intros e He Hend. apply in_map_iff in He as (r & <- & Hr). cbn [nh_name nh_endTs] in *.
    apply (Permutation_in _ Hperm) in Hr.
    eapply history_open_name; eauto.
Qed.

Lemma getMemberNameHistory_after_import_witness :
  Permutation
    (List.map (fun e => (nh_name e, nh_startTs e))
       [ {| nh_name := "Alicia"; nh_startTs := 200; nh_endTs := None |};
         {| nh_name := "Alice"; nh_startTs := 100; nh_endTs := Some 200 |} ])
    (nickname_changes None
       (messages_of (m_platform_id {| m_id := 1; m_platform_id := "X"; m_name := "Alicia" |})
          (sortedMessages scenario))).
Proof.
  pose proof (getMemberNameHistory_after_import "/d" ∅
                (fst (importData "/d" ∅ "s1" 5 None scenario)) "s1" "s1" 5 None scenario
                (fst (db_transaction (importTransaction scenario 5) empty_db None))
                {| m_id := 1; m_platform_id := "X"; m_name := "Alicia" |}
                [ {| nh_name := "Alicia"; nh_startTs := 200; nh_endTs := None |};
                  {| nh_name := "Alice"; nh_startTs := 100; nh_endTs := Some 200 |} ]) as H.
  assert (H1 : (∅ : Fs) !! getDbPath "/d" "s1" = None) by (vm_compute; reflexivity).
  assert (H2 : importData "/d" ∅ "s1" 5 None scenario =
               (fst (importData "/d" ∅ "s1" 5 None scenario), Done "s1"%string))
    by (vm_compute; reflexivity).
  assert (H3 : openDatabase "/d" (fst (importData "/d" ∅ "s1" 5 None scenario)) "s1" =
               Done (Some (fst (db_transaction (importTransaction scenario 5) empty_db None))))
    by (vm_compute; reflexivity).
  assert (H4 : In {| m_id := 1; m_platform_id := "X"; m_name := "Alicia" |}
                 (member (fst (db_transaction (importTransaction scenario 5) empty_db None))))
    by (vm_compute; auto).
  assert (H5 : getMemberNameHistory "/d" (fst (importData "/d" ∅ "s1" 5 None scenario)) "s1"
                 (m_id {| m_id := 1; m_platform_id := "X"; m_name := "Alicia" |}) =
               Done [ {| nh_name := "Alicia"; nh_startTs := 200; nh_endTs := None |};
                      {| nh_name := "Alice"; nh_startTs := 100; nh_endTs := Some 200 |} ])
    by (vm_compute; reflexivity).
  exact (proj1 (H H1 H2 H3 H4 H5)).
Defined.


(** ** The session summary *)

Lemma join_unique (ms : list MemberRow) m :
  NoDup (List.map m_id ms) -> In m ms ->
  List.filter (fun m' => m_id m =? m_id m') ms = [m].
Proof.
  induction ms as [|a ms IH]; cbn [List.map List.filter]; intros Hnd Hin; [destruct Hin|].
  apply NoDup_cons in Hnd as [Ha Hnd].
  assert (Hnone : forall x, ~ In (m_id x) (List.map m_id ms) ->
                            List.filter (fun m' => m_id x =? m_id m') ms = []).
  { intros x Hx. apply filter_none. intros y Hy. apply Z.eqb_neq. intros E.
    apply Hx. rewrite E. apply in_map, Hy. }
  destruct Hin as [-> | Hin].
  - rewrite Z.eqb_refl. f_equal. apply Hnone. rewrite <- list_elem_of_In. exact Ha.
  - destruct (Z.eqb_spec (m_id m) (m_id a)) as [E | E].
    + exfalso. apply Ha. rewrite <- E. apply list_elem_of_In, in_map, Hin.
    + apply IH; assumption.
Qed.

(** Counting over the join when every message row meets exactly one member
    row. *)
Lemma join_count (ms : list MemberRow) (Q : ParsedMessage -> bool) rows msgs :
  Forall2 (fun row msg =>
             exists m, List.filter (fun m' => msg_sender_id row =? m_id m') ms = [m] /\
                       not_system m = Q msg) rows msgs ->
  length (List.filter (fun r : MessageRow * MemberRow => not_system (snd r))
            (flat_map (fun msg => List.map (fun m => (msg, m))
                                    (List.filter (fun m => msg_sender_id msg =? m_id m) ms))
               rows)) =
  length (List.filter Q msgs).
Proof.
  induction 1 as [|row msg rows msgs (m & Hm & Hq) _ IH]; [reflexivity|].
  cbn [flat_map List.filter]. rewrite List.filter_app, length_app, IH, Hm.
  cbn [List.map List.filter snd]. rewrite Hq. destruct (Q msg); reflexivity.
Qed.

Lemma filter_filter_andb {A : Type} (f g : A -> bool) l :
  List.filter g (List.filter f l) = List.filter (fun x => f x && g x) l.
Proof.
  induction l as [|x l IH]; [reflexivity|]. cbn [List.filter].
  destruct (f x); cbn [List.filter andb]; [destruct (g x)|]; rewrite IH; reflexivity.
Qed.

Lemma filter_map_length {A B : Type} (f : A -> B) (P : A -> bool) (Q : B -> bool) l :
  (forall x, In x l -> P x = Q (f x)) ->
  length (List.filter P l) = length (List.filter Q (List.map f l)).
Proof.
  induction l as [|x l IH]; intros H; [reflexivity|].
  cbn [List.map List.filter]. rewrite <- (H x) by (left; reflexivity).
  destruct (P x); cbn [length]; rewrite IH; auto; intros y Hy; apply H; right; exact Hy.
Qed.

Lemma seq_ids_NoDup {A : Type} (f : A -> Z) (l : list A) :
  List.map f l = List.map Z.of_nat (seq 1 (length l)) -> NoDup (List.map f l).
Proof.
  intros ->. apply (NoDup_fmap_2 Z.of_nat), NoDup_ListNoDup, List.seq_NoDup.
Qed.

(** The counts of [getSession] over the tables of a committed import. *)
Lemma importTransaction_counts pr now st u st' :
  tx_db st = empty_db ->
  importTransaction pr now st = Done (u, st') ->
  length (List.filter (fun row => not_system (snd row)) (message_join_member (tx_db st'))) =
    length (List.filter (counted pr) (messages pr)) /\
  length (List.filter not_system (member (tx_db st'))) =
    length (List.filter (fun p => not_system_name (final_name pr p))
              (remove_dups (List.map platformId (members pr)))).
Proof.
  intros Hdb Htx.
  destruct (importTransaction_exact pr now st u st' Hdb Htx)
    as (mm & Hmm & Hknown & Hmsg & _ & Hids & Hnd & Hpids & Hnames).
  assert (Hsys : forall m, In m (member (tx_db st')) ->
                   not_system m = not_system_name (final_name pr (m_platform_id m))).
  { intros m Hm. unfold final_name. rewrite (Hnames m Hm). reflexivity. }
  split.
  - rewrite <- (Permutation_filter_length (counted pr) _ _ (sortedMessages_perm pr)).
    unfold counted. rewrite <- filter_filter_andb.
    unfold message_join_member. apply join_count.
    rewrite Hmsg, <- (List.filter_ext (known mm) (listed pr) Hknown).
    eapply Forall2_impl; [apply stored_rows_known|].
    intros row msg (Hs & _). cbv beta.
    apply Hmm in Hs as (r & Hr & Hp & Hi). exists r. split.
    + rewrite <- Hi. apply join_unique; [|exact Hr]. apply seq_ids_NoDup, Hids.
    + rewrite (Hsys r Hr), Hp. reflexivity.
  - assert (Hperm : Permutation (List.map m_platform_id (member (tx_db st')))
                      (remove_dups (List.map platformId (members pr)))).
    { apply NoDup_Permutation; [exact Hnd | apply NoDup_remove_dups|].
      intros p. rewrite !list_elem_of_In, In_remove_dups. apply Hpids. }
    rewrite <- (Permutation_filter_length _ _ _ Hperm).
    apply filter_map_length, Hsys.
Qed.

(** X10: after [importData] completes on a fresh session, [getSession]
    returns the session with the name, platform and type of the parse result
    and the import time; its message count is the number of parsed messages
    whose sender is listed and does not end up under the system name (the name
    of the sender's latest message decides, not the name on the message), and
    its member count is the number of distinct listed platform ids that do not
    end up under the system name. *)
Theorem getSession_after_import
  (DB_DIR : string) (fs fs' : Fs) (sid sid' : string) (now : Z) (fault : option nat)
  (pr : ParseResult) :
  fs !! getDbPath DB_DIR sid = None ->
  importData DB_DIR fs sid now fault pr = (fs', Done sid') ->
  getSession DB_DIR fs' sid =
  Done (Some {| as_id := sid;
                as_name := pmeta_name (pr_meta pr);
                as_platform := pmeta_platform (pr_meta pr);
                as_type := pmeta_type (pr_meta pr);
                as_importedAt := now;
                as_messageCount :=
                  Z.of_nat (length (List.filter (counted pr) (messages pr)));
                as_memberCount :=
                  Z.of_nat (length (List.filter (fun p => not_system_name (final_name pr p))
                                      (remove_dups (List.map platformId (members pr)))));
                as_dbPath := getDbPath DB_DIR sid |}).
Proof.
  intros Hfresh Hrun.
  assert (Hopen : exists db, openDatabase DB_DIR fs' sid = Done (Some db)).
  { rewrite (importData_fresh _ _ _ _ _ _ Hfresh) in Hrun. injection Hrun as <- _.
    eexists. apply openDatabase_insert. }
  destruct Hopen as (db & Hopen).
  destruct (importData_Done _ _ _ _ _ _ _ _ _ Hfresh Hrun Hopen) as (st' & Htx & <-).
  destruct (importTransaction_facts pr now {| tx_db := empty_db; tx_fault := fault |} tt st'
              eq_refl Htx)
    as (mm & tracker & dbw & _ & _ & _ & _ & _ & _ & _ & _ & Hmeta).
  destruct (importTransaction_counts pr now {| tx_db := empty_db; tx_fault := fault |} tt st'
              eq_refl Htx) as [Hc1 Hc2].
  unfold getSession. rewrite Hopen, Hmeta, Hc1, Hc2. reflexivity.
Qed.

Lemma getSession_after_import_witness :
  getSession "/d" (fst (importData "/d" ∅ "s1" 5 None scenario)) "s1" =
  Done (Some {| as_id := "s1";
                as_name := pmeta_name (pr_meta scenario);
                as_platform := pmeta_platform (pr_meta scenario);
                as_type := pmeta_type (pr_meta scenario);
                as_importedAt := 5;
                as_messageCount :=
                  Z.of_nat (length (List.filter (counted scenario) (messages scenario)));
                as_memberCount :=
                  Z.of_nat (length (List.filter
                                      (fun p => not_system_name (final_name scenario p))
                                      (remove_dups (List.map platformId (members scenario)))));
                as_dbPath := getDbPath "/d" "s1" |}).
Proof.
  pose proof (getSession_after_import "/d" ∅
                (fst (importData "/d" ∅ "s1" 5 None scenario)) "s1" "s1" 5 None scenario) as H.
  assert (H1 : (∅ : Fs) !! getDbPath "/d" "s1" = None) by (vm_compute; reflexivity).
  assert (H2 : importData "/d" ∅ "s1" 5 None scenario =
               (fst (importData "/d" ∅ "s1" 5 None scenario), Done "s1"%string))
    by (vm_compute; reflexivity).
  exact (H H1 H2).
Defined.

(** ** A failed import *)

(** X11: when [importData] raises on a fresh session, the session file it
    leaves behind reads as an empty session: [getSession] and [getTimeRange]
    return null, and [getMemberActivity], [getAvailableYears] and
    [getMemberNameHistory] return empty lists. *)
Theorem failed_import_reads_empty
  (DB_DIR : string) (local_year : Z -> Z) (fs fs' : Fs) (sid : string) (now : Z)
  (fault : option nat) (pr : ParseResult) (e : string) :
  fs !! getDbPath DB_DIR sid = None ->
  importData DB_DIR fs sid now fault pr = (fs', Raised e) ->
  getSession DB_DIR fs' sid = Done None /\
  getTimeRange DB_DIR fs' sid = Done None /\
  (forall filter, getMemberActivity DB_DIR fs' sid filter = Done []) /\
  getAvailableYears DB_DIR local_year fs' sid = Done [] /\
  (forall memberId, getMemberNameHistory DB_DIR fs' sid memberId = Done []).
Proof.
  intros Hfresh Hrun. rewrite (importData_fresh _ _ _ _ _ _ Hfresh) in Hrun.
  injection Hrun as <- Hres.
  assert (Hdb : fst (db_transaction (importTransaction pr now) empty_db fault) = empty_db).
  { unfold db_transaction in *.
    destruct (importTransaction pr now _) as [[a st'] | e0]; [discriminate | reflexivity]. }
  rewrite Hdb.
  unfold getSession, getTimeRange, getMemberActivity, getAvailableYears, getMemberNameHistory.
  rewrite openDatabase_insert. repeat split; reflexivity.
Qed.

Lemma failed_import_reads_empty_witness :
  getSession "/d" (fst (importData "/d" ∅ "s1" 5 (Some 3%nat) scenario)) "s1" = Done None.
Proof.
  pose proof (failed_import_reads_empty "/d" (fun ts => 1970 + ts / 31556952) ∅
                (fst (importData "/d" ∅ "s1" 5 (Some 3%nat) scenario)) "s1" 5 (Some 3%nat)
                scenario "SqliteError") as H.
  assert (H1 : (∅ : Fs) !! getDbPath "/d" "s1" = None) by (vm_compute; reflexivity).
  assert (H2 : importData "/d" ∅ "s1" 5 (Some 3%nat) scenario =
               (fst (importData "/d" ∅ "s1" 5 (Some 3%nat) scenario),
                Raised "SqliteError"%string))
    by (vm_compute; reflexivity).
  exact (proj1 (H H1 H2)).
Defined.


(** ** Import, then delete *)



(** ** The time filter *)

(** The clause [buildTimeFilter] builds holds of a timestamp exactly when it
    respects each bound that is given, the bounds included. *)
Lemma buildTimeFilter_inclusive (filter : option TimeFilter) (ts : Z) :
  eval_clause (buildTimeFilter filter) ts = true <->
  forall f, filter = Some f ->
    (forall s, startTs f = Some s -> s <= ts) /\ (forall e, endTs f = Some e -> ts <= e).
Proof.
  unfold buildTimeFilter, eval_clause.
  destruct filter as [[[s|] [e|]]|]; cbn [startTs endTs app forallb eval_cond];
    rewrite ?andb_true_r, ?andb_true_iff, ?Z.leb_le.
  - split.
    + intros [H1 H2] f [= <-]. cbn. split; intros ? [= <-]; assumption.
    + intros H. destruct (H _ eq_refl) as [H1 H2]. cbn in *. auto.
  - split.
    + intros H1 f [= <-]. cbn. split; [intros ? [= <-]; assumption | discriminate].
    + intros H. destruct (H _ eq_refl) as [H1 H2]. cbn in *. auto.
  - split.
    + intros H1 f [= <-]. cbn. split; [discriminate | intros ? [= <-]; assumption].
    + intros H. destruct (H _ eq_refl) as [H1 H2]. cbn in *. auto.
  - split; [|reflexivity]. intros _ f [= <-]. cbn. split; discriminate.
  - split; [|reflexivity]. intros _ f [=].
Qed.

Lemma inverted_range_join (d : Db) (s e : Z) :
  e < s ->
  filtered_join d (buildTimeFilter (Some {| startTs := Some s; endTs := Some e |})) = [].
Proof.
  intros Hlt. unfold filtered_join. apply filter_none. intros [msg m] _. cbn [fst snd].
  rewrite eval_where_clause, eval_where_split.
  apply andb_false_iff. left. apply not_true_is_false.
  rewrite buildTimeFilter_inclusive. intros H.
  destruct (H _ eq_refl) as [H1 H2]. specialize (H1 _ eq_refl). specialize (H2 _ eq_refl).
  cbn in *. lia.
Qed.

(** X13: with a time filter whose [startTs] lies after its [endTs], every
    filtered statistic of an existing session is empty: [getMemberActivity],
    [getDailyActivity] and [getMessageTypeDistribution] return no row and
    [getHourlyActivity] returns its 24 hours with count 0. *)
Theorem inverted_range_is_empty
  (DB_DIR : string) (local_hour : Z -> Z) (local_date : Z -> string) (fs : Fs)
  (sid : string) (db : Db) (s e : Z) :
  openDatabase DB_DIR fs sid = Done (Some db) ->
  e < s ->
  getMemberActivity DB_DIR fs sid (Some {| startTs := Some s; endTs := Some e |}) = Done [] /\
  getDailyActivity DB_DIR local_date fs sid (Some {| startTs := Some s; endTs := Some e |}) =
    Done [] /\
  getMessageTypeDistribution DB_DIR fs sid (Some {| startTs := Some s; endTs := Some e |}) =
    Done [] /\
  getHourlyActivity DB_DIR local_hour fs sid (Some {| startTs := Some s; endTs := Some e |}) =
    Done (List.map (fun h => {| hour := h; ha_messageCount := 0 |})
            (List.map Z.of_nat (seq 0 24))).
Proof.
  intros Hopen Hlt.
  unfold getMemberActivity, getDailyActivity, getMessageTypeDistribution, getHourlyActivity,
    hourly_rows.
  rewrite Hopen, (inverted_range_join db s e Hlt).
  split; [|repeat split; reflexivity].
  f_equal.
  assert (Hrows : member_activity_rows db
                    (buildTimeFilter (Some {| startTs := Some s; endTs := Some e |})) = []).
  { unfold member_activity_rows.
    rewrite (filter_none (fun row : MemberRow * Z => 0 <? snd row)); [reflexivity|].
    intros [m c] Hin. apply in_map_iff in Hin as (m' & [= <- <-] & _). cbn [snd].
    unfold member_message_count. rewrite filter_none; [reflexivity|].
    intros msg _. rewrite eval_where_split.
    apply andb_false_iff. right. apply andb_false_iff. left. apply not_true_is_false.
    intros H.
    pose proof (proj1 (buildTimeFilter_inclusive
                         (Some {| startTs := Some s; endTs := Some e |}) (msg_ts msg)) H)
      as H'. clear H. rename H' into H.
    destruct (H _ eq_refl) as [H1 H2]. specialize (H1 _ eq_refl). specialize (H2 _ eq_refl).
    cbn in *. lia. }
  rewrite Hrows. reflexivity.
Qed.

Lemma inverted_range_is_empty_witness :
  getMemberActivity "/d" (fst (importData "/d" ∅ "s1" 5 None scenario)) "s1"
    (Some {| startTs := Some 300; endTs := Some 100 |}) = Done [].
Proof.
  pose proof (inverted_range_is_empty "/d" utc_hour (fun _ => "1970-01-01"%string)
                (fst (importData "/d" ∅ "s1" 5 None scenario)) "s1"
                (fst (db_transaction (importTransaction scenario 5) empty_db None))
                300 100) as H.
  assert (H1 : openDatabase "/d" (fst (importData "/d" ∅ "s1" 5 None scenario)) "s1" =
               Done (Some (fst (db_transaction (importTransaction scenario 5) empty_db None))))
    by (vm_compute; reflexivity).
  assert (H2 : 100 < 300) by lia.
  exact (proj1 (H H1 H2)).
Defined.


(** ** The session summary against the member ranking *)

Lemma filter_length_le {A : Type} (p : A -> bool) (l : list A) :
  (length (List.filter p l) <= length l)%nat.
Proof.
  induction l as [|x l IH]; [reflexivity|]. cbn [List.filter].
  destruct (p x); cbn [length]; lia.
Qed.

(** X20: for any stored session, the message count [getSession] reports is
    the sum of the message counts of the unfiltered member ranking
    [getMemberActivity], and the ranking never has more rows than the member
    count [getSession] reports. *)
Theorem session_counts_agree
  (DB_DIR : string) (fs : Fs) (sid : string) (s : AnalysisSession)
  (rows : list MemberActivity) :
  getSession DB_DIR fs sid = Done (Some s) ->
  getMemberActivity DB_DIR fs sid None = Done rows ->
  Zsum (List.map messageCount rows) = as_messageCount s /\
  Z.of_nat (length rows) <= as_memberCount s.
Proof.
  unfold getSession, getMemberActivity.
  destruct (openDatabase DB_DIR fs sid) as [[db|]|e]; [|discriminate..].
  destruct (meta db) as [|meta0 metas]; [discriminate|].
  intros [= <-] [= <-]. cbn [as_messageCount as_memberCount].
  rewrite List.map_map, length_map. cbn [messageCount]. split.
  - change (fun x : MemberRow * Z => snd x) with (@snd MemberRow Z).
    rewrite member_activity_rows_sum. unfold totalMessages. do 2 f_equal.
    apply List.filter_ext. intros [msg m]. cbn. apply andb_true_r.
  - rewrite (Permutation_length (member_activity_rows_perm db [])).
    apply inj_le. etransitivity; [apply filter_length_le|]. rewrite length_map. reflexivity.
Qed.

Lemma session_counts_agree_witness :
  Zsum (List.map messageCount
          (match getMemberActivity "/d" (fst (importData "/d" ∅ "s1" 5 None scenario)) "s1"
                   None with
           | Done l => l
           | Raised _ => []
           end)) = 4.
Proof.
  pose proof (session_counts_agree "/d" (fst (importData "/d" ∅ "s1" 5 None scenario)) "s1"
                {| as_id := "s1"; as_name := "g"; as_platform := "qq"; as_type := "group";
                   as_importedAt := 5; as_messageCount := 4; as_memberCount := 2;
                   as_dbPath := "/d/s1.db" |}
                (match getMemberActivity "/d" (fst (importData "/d" ∅ "s1" 5 None scenario))
                         "s1" None with
                 | Done l => l
                 | Raised _ => []
                 end)) as H.
  assert (H1 : getSession "/d" (fst (importData "/d" ∅ "s1" 5 None scenario)) "s1" =
               Done (Some {| as_id := "s1"; as_name := "g"; as_platform := "qq";
                             as_type := "group"; as_importedAt := 5; as_messageCount := 4;
                             as_memberCount := 2; as_dbPath := "/d/s1.db" |}))
    by (vm_compute; reflexivity).
  assert (H2 : getMemberActivity "/d" (fst (importData "/d" ∅ "s1" 5 None scenario)) "s1"
                 None =
               Done (match getMemberActivity "/d"
                             (fst (importData "/d" ∅ "s1" 5 None scenario)) "s1" None with
                     | Done l => l
                     | Raised _ => []
                     end))
    by (vm_compute; reflexivity).
  exact (proj1 (H H1 H2)).
Defined.

End DatabaseTheory.

(** * Facts about the AI query module *)
Module AiQueryTheory.
Import AiQuery SortTheory.


(** ** [getMessageContext] without targets or without a store *)

(** C9: [getMessageContext] returns the empty list for an empty list of
    message ids and for a session whose store cannot be opened; it is a
    total function, so nothing is raised for these inputs. *)
Theorem getMessageContext_empty :
  (forall (stores : gmap string Db) (sid : string) (contextSize : option Z),
      getMessageContext stores sid (ManyIds []) contextSize = []) /\
  (forall (stores : gmap string Db) (sid : string) (messageIds : MessageIds)
          (contextSize : option Z),
      openDatabase stores sid = None ->
      getMessageContext stores sid messageIds contextSize = []).
Proof.
  split.
  - intros stores sid contextSize. unfold getMessageContext.
    destruct (openDatabase stores sid); reflexivity.
  - intros stores sid messageIds contextSize Hopen. unfold getMessageContext.
    rewrite Hopen. reflexivity.
Qed.

Lemma getMessageContext_empty_witness :
  getMessageContext sample_stores "nowhere" (OneId 4) (Some 2) = [].
Proof.
  assert (H : openDatabase sample_stores "nowhere" = None) by (vm_compute; reflexivity).
  exact (proj2 getMessageContext_empty sample_stores "nowhere"%string (OneId 4) (Some 2) H).
Defined.

(** ** [searchMessages] and LIKE wildcards *)

(** C8: a keyword goes into the LIKE pattern as [%keyword%] with its own
    [%] and [_] left active, so a keyword with such a character can return a
    message that does not contain the keyword literally: the keyword [a_c]
    returns the message [abc]. *)
Theorem searchMessages_keyword_is_pattern :
  exists (stores : gmap string Db) (sid keyword text : string) (r : SearchMessageResult),
    (contains "_" keyword = true \/ contains "%" keyword = true) /\
    In r (fst (searchMessages stores sid [keyword] None None None None)) /\
    content r = Some text /\
    contains keyword text = false.
Proof.
  exists sample_stores, "s1"%string, "a_c"%string, "abc"%string,
    {| id := 1; senderName := "ann"; senderPlatformId := "u1"; content := Some "abc"%string;
       timestamp := 100; type := 0 |}.
  split; [left; reflexivity|].
  split; [vm_compute; auto|].
  split; reflexivity.
Qed.


(** ** [getRecentMessages] *)





(** ** [getMessageContext] around one target *)

Lemma elem_of_fold_add (l : list Z) (s : gset Z) x :
  x ∈ fold_left (fun s i => {[i]} ∪ s) l s <-> In x l \/ x ∈ s.
Proof.
  revert s. induction l as [|i l IH]; intros s; simpl; [tauto|].
  rewrite IH, elem_of_union, elem_of_singleton. intuition congruence.
Qed.

Lemma elem_of_add_context d k (s : gset Z) t x :
  x ∈ add_context d k s t <->
  x = t \/ In x (beforeRows d t k) \/ In x (afterRows d t k) \/ x ∈ s.
Proof.
  unfold add_context. rewrite !elem_of_fold_add, elem_of_union, elem_of_singleton. tauto.
Qed.

(** With unique member ids, the join finds exactly one member per message. *)
Lemma unique_member (ms : list MemberRow) s :
  NoDup (List.map m_id ms) -> Exists (fun m => m_id m = s) ms ->
  exists m, List.filter (fun m => s =? m_id m) ms = [m].
Proof.
  induction ms as [|a ms IH]; simpl; intros Hnd Hex; [inversion Hex|].
  apply NoDup_cons in Hnd as [Ha Hnd].
  destruct (Z.eqb_spec s (m_id a)) as [E | E].
  - exists a. f_equal.
    apply filter_none. intros m Hm.
    apply Z.eqb_neq. intros E'. apply Ha. rewrite <- E, E'.
    apply list_elem_of_In, in_map, Hm.
  - apply Exists_cons in Hex as [Hex | Hex]; [congruence | auto].
Qed.

Lemma join_messages d : well_formed d -> List.map fst (message_join_member d) = message d.
Proof.
  intros (_ & Hm & Hall). unfold message_join_member.
  induction Hall as [|msg l Hmsg Hall IH]; simpl; [reflexivity|].
  destruct (unique_member _ _ Hm Hmsg) as (m & ->). simpl. f_equal. exact IH.
Qed.

Lemma join_ids d :
  well_formed d ->
  List.map (fun row => msg_id (fst row)) (message_join_member d) = List.map msg_id (message d).
Proof.
  intros Hwf. pose proof (join_messages d Hwf) as E.
  apply (f_equal (List.map msg_id)) in E. rewrite List.map_map in E. exact E.
Qed.

Lemma filter_map_comm {A B : Type} (f : A -> B) (p : B -> bool) l :
  List.map f (List.filter (fun x => p (f x)) l) = List.filter p (List.map f l).
Proof.
  induction l as [|x l IH]; simpl; [reflexivity|].
  destruct (p (f x)); simpl; congruence.
Qed.

(** The ids of the rows the final query returns for a context set [c]. *)
Lemma context_rows_ids d (c : gset Z) :
  well_formed d ->
  Permutation
    (List.map id
       (List.map select_result
          (order_by_asc (fun row => msg_id (fst row))
             (List.filter (fun row => bool_decide (msg_id (fst row) ∈ c))
                (message_join_member d)))))
    (List.filter (fun i => bool_decide (i ∈ c)) (List.map msg_id (message d))).
Proof.
  intros Hwf. rewrite List.map_map. simpl.
  rewrite (Permutation_map _ (order_by_asc_perm _ _)).
  rewrite <- (join_ids d Hwf).
  rewrite <- (filter_map_comm (fun row : MessageRow * MemberRow => msg_id (fst row))
                (fun i => bool_decide (i ∈ c))).
  reflexivity.
Qed.

Lemma NoDup_filter_bool {A : Type} (p : A -> bool) l : NoDup l -> NoDup (List.filter p l).
Proof.
  induction 1 as [|x l Hx Hl IH]; simpl; [constructor|].
  destruct (p x); [|exact IH]. constructor; [|exact IH].
  rewrite list_elem_of_In in *. intros H. apply Hx. apply filter_In in H. tauto.
Qed.

Lemma beforeRows_In d t k x :
  In x (beforeRows d t k) -> x < t /\ In x (List.map msg_id (message d)).
Proof.
  unfold beforeRows. rewrite sql_limit_firstn. intros H. apply firstn_In in H.
  apply (Permutation_in _ (order_by_desc_perm _ _)), in_map_iff in H as (msg & <- & H).
  apply filter_In in H as [H1 H2]. split; [apply Z.ltb_lt, H2 | apply in_map, H1].
Qed.

Lemma afterRows_In d t k x :
  In x (afterRows d t k) -> t < x /\ In x (List.map msg_id (message d)).
Proof.
  unfold afterRows. rewrite sql_limit_firstn. intros H. apply firstn_In in H.
  apply (Permutation_in _ (order_by_asc_perm _ _)), in_map_iff in H as (msg & <- & H).
  apply filter_In in H as [H1 H2]. split; [apply Z.ltb_lt, H2 | apply in_map, H1].
Qed.

(** Between a returned id below the target and the target, nothing stored
    is left out. *)
Lemma beforeRows_closed d t k a c :
  In a (beforeRows d t k) -> In c (List.map msg_id (message d)) -> a < c -> c < t ->
  In c (beforeRows d t k).
Proof.
  unfold beforeRows. rewrite sql_limit_firstn. intros Ha Hc Hac Hct.
  apply (firstn_closed (fun x y : Z => y <= x) _ _ a c); auto.
  - apply (order_by_desc_sorted (fun i : Z => i)).
  - apply (Permutation_in _ (Permutation_sym (order_by_desc_perm _ _))).
    apply in_map_iff in Hc as (msg & <- & Hmsg). apply in_map, filter_In.
    split; [exact Hmsg | apply Z.ltb_lt, Hct].
  - lia.
Qed.

Lemma afterRows_closed d t k b c :
  In b (afterRows d t k) -> In c (List.map msg_id (message d)) -> c < b -> t < c ->
  In c (afterRows d t k).
Proof.
  unfold afterRows. rewrite sql_limit_firstn. intros Hb Hc Hcb Htc.
  apply (firstn_closed (fun x y : Z => x <= y) _ _ b c); auto.
  - apply (order_by_asc_sorted (fun i : Z => i)).
  - apply (Permutation_in _ (Permutation_sym (order_by_asc_perm _ _))).
    apply in_map_iff in Hc as (msg & <- & Hmsg). apply in_map, filter_In.
    split; [exact Hmsg | apply Z.ltb_lt, Htc].
  - lia.
Qed.

(** C4: for a stored message id and a context size [k >= 0],
    [getMessageContext([id], k)] returns at most [2k+1] messages, the
    message [id] among them, in strictly ascending order of id (so without
    duplicates); the rows are raw joined rows, and every stored message whose
    id falls in the window is returned whatever its content, type or sender;
    and between two returned ids no stored message is left out (in
    particular none within [k] of the nearer boundary). *)
Theorem getMessageContext_window
  (stores : gmap string Db) (sid : string) (db : Db) (target k : Z) :
  openDatabase stores sid = Some db ->
  well_formed db ->
  0 <= k ->
  In target (List.map msg_id (message db)) ->
  let result := getMessageContext stores sid (ManyIds [target]) (Some k) in
  Z.of_nat (length result) <= 2 * k + 1 /\
  In target (List.map id result) /\
  StronglySorted Z.lt (List.map id result) /\
  (forall r, In r result ->
     exists row, In row (message_join_member db) /\ r = select_result row) /\
  (forall row,
     In row (message_join_member db) ->
     msg_id (fst row) = target \/ In (msg_id (fst row)) (beforeRows db target k) \/
     In (msg_id (fst row)) (afterRows db target k) ->
     In (select_result row) result) /\
  (forall a b c,
     In a (List.map id result) -> In b (List.map id result) ->
     In c (List.map msg_id (message db)) -> a < c < b ->
     In c (List.map id result)).
Proof.
  intros Hopen Hwf Hk Htarget result. subst result.
  unfold getMessageContext. rewrite Hopen.
  change (default 20 (Some k)) with k. cbn [fold_left].
  set (c := add_context db k ∅ target).
  assert (HC : forall x, x ∈ c <->
                 x = target \/ In x (beforeRows db target k) \/ In x (afterRows db target k)).
  { intros x. unfold c. rewrite elem_of_add_context. split.
    - intros [H | [H | [H | H]]]; auto. apply not_elem_of_empty in H. destruct H.
    - intros [H | [H | H]]; auto. }
  destruct (decide (size c = 0%nat)) as [Hsize | _].
  { exfalso. apply size_empty_iff in Hsize.
    apply (not_elem_of_empty (C := gset Z) target). rewrite <- Hsize. apply HC. auto. }
  pose proof (context_rows_ids db c Hwf) as Hperm.
  set (rows := order_by_asc (fun row : MessageRow * MemberRow => msg_id (fst row))
                 (List.filter (fun row => bool_decide (msg_id (fst row) ∈ c))
                    (message_join_member db))) in *.
  assert (Hrows : forall row, In row rows <->
                    In row (message_join_member db) /\ msg_id (fst row) ∈ c).
  { intros row. unfold rows. split.
    - intros H. apply (Permutation_in _ (order_by_asc_perm _ _)), filter_In in H as [H1 H2].
      apply bool_decide_eq_true in H2. auto.
    - intros [H1 H2]. apply (Permutation_in _ (Permutation_sym (order_by_asc_perm _ _))).
      apply filter_In. split; [exact H1 | apply bool_decide_eq_true, H2]. }
  assert (Hin : forall x, In x (List.map id (List.map select_result rows)) <->
                  In x (List.map msg_id (message db)) /\ x ∈ c).
  { intros x. split.
    - intros H. apply (Permutation_in _ Hperm), filter_In in H as [H1 H2].
      apply bool_decide_eq_true in H2. auto.
    - intros [H1 H2]. apply (Permutation_in _ (Permutation_sym Hperm)).
      apply filter_In. split; [exact H1 | apply bool_decide_eq_true, H2]. }
  assert (Hnd : NoDup (List.map id (List.map select_result rows))).
  { rewrite Hperm. apply NoDup_filter_bool. apply Hwf. }
  split; [|split; [|split; [|split; [|split]]]].
  - assert (Hsub : List.map id (List.map select_result rows) ⊆+
                   target :: beforeRows db target k ++ afterRows db target k).
    { apply NoDup_submseteq; [exact Hnd|]. intros x Hx.
      apply list_elem_of_In, Hin in Hx as [_ Hx]. apply HC in Hx.
      apply list_elem_of_In. simpl. rewrite in_app_iff.
      destruct Hx as [-> | [Hx | Hx]]; auto. }
    apply submseteq_length in Hsub. rewrite !length_map in Hsub.
    simpl in Hsub. rewrite length_app in Hsub.
    pose proof (sql_limit_length k
                  (order_by_desc (fun i : Z => i)
                     (List.map msg_id
                        (List.filter (fun msg => msg_id msg <? target) (message db)))) Hk) as B1.
    pose proof (sql_limit_length k
                  (order_by_asc (fun i : Z => i)
                     (List.map msg_id
                        (List.filter (fun msg => target <? msg_id msg) (message db)))) Hk) as B2.
    fold (beforeRows db target k) in B1. fold (afterRows db target k) in B2.
    rewrite length_map. lia.
  - apply Hin. split; [exact Htarget | apply HC; auto].
  - rewrite List.map_map. simpl.
    apply StronglySorted_map.
    apply (sorted_nodup_strict (fun row : MessageRow * MemberRow => msg_id (fst row))).
    + apply order_by_asc_sorted.
    + rewrite List.map_map in Hnd. exact Hnd.
  - intros r Hr. apply in_map_iff in Hr as (row & <- & Hrow).
    apply Hrows in Hrow as [Hrow _]. eauto.
  - intros row Hrow Hwin. apply in_map, Hrows. split; [exact Hrow | apply HC, Hwin].
  - intros a b x Ha Hb Hx [Hax Hxb].
    apply Hin. split; [exact Hx|]. apply HC.
    apply Hin in Ha as [_ Ha]. apply Hin in Hb as [_ Hb].
    apply HC in Ha. apply HC in Hb.
    destruct (Z.lt_trichotomy x target) as [Hlt | [Heq | Hgt]]; [|auto|].
    + right. left.
      destruct Ha as [-> | [Ha | Ha]]; [lia | |apply afterRows_In in Ha; lia].
      eapply beforeRows_closed; eauto.
    + right. right.
      destruct Hb as [-> | [Hb | Hb]]; [lia | apply beforeRows_In in Hb; lia |].
      eapply afterRows_closed; eauto.
Qed.

Lemma getMessageContext_window_witness :
  In 4 (List.map id (getMessageContext sample_stores "s1" (ManyIds [4]) (Some 2))).
Proof.
  pose proof (getMessageContext_window sample_stores "s1" sample_db 4 2) as H.
  assert (H1 : openDatabase sample_stores "s1" = Some sample_db) by (vm_compute; reflexivity).
  assert (H2 : well_formed sample_db).
  { unfold well_formed. repeat split; apply (bool_decide_unpack _); vm_compute; exact I. }
  assert (H3 : 0 <= 2) by lia.
  assert (H4 : In 4 (List.map msg_id (message sample_db))) by (simpl; auto 10).
  exact (proj1 (proj2 (H H1 H2 H3 H4))).
Defined.


(** ** [searchMessages]: what a page holds *)







(** X15: consecutive pages of [searchMessages] join up: a page of [a] rows
    at offset [o] followed by the page of [b] rows at offset [o + a] is the
    page of [a + b] rows at offset [o], so paging neither skips nor repeats a
    row. *)
Theorem searchMessages_pages_compose
  (stores : gmap string Db) (sid : string) (keywords : list string)
  (filter : option TimeFilter) (senderId : option Z) (o a b : Z) :
  0 <= o -> 0 <= a -> 0 <= b ->
  fst (searchMessages stores sid keywords filter (Some a) (Some o) senderId) ++
  fst (searchMessages stores sid keywords filter (Some b) (Some (o + a)) senderId) =
  fst (searchMessages stores sid keywords filter (Some (a + b)) (Some o) senderId).
Proof.
  intros Ho Ha Hb. unfold searchMessages.
  destruct (openDatabase stores sid) as [db|]; [|reflexivity].
  cbn [fst]. rewrite <- List.map_app. f_equal.
  set (l := order_by_desc _ _).
  unfold sql_limit, sql_offset. cbn [default from_option Datatypes.id].
  unfold Datatypes.id.
  destruct (Z.ltb_spec a 0); [lia|]. destruct (Z.ltb_spec b 0); [lia|].
  destruct (Z.ltb_spec (a + b) 0); [lia|].
  rewrite Z2Nat.inj_add by lia. rewrite (Nat.add_comm (Z.to_nat o)), <- skipn_skipn.
  set (L := skipn (Z.to_nat o) l).
  rewrite Z2Nat.inj_add by lia.
  rewrite firstn_skipn_comm.
  rewrite <- (firstn_skipn (Z.to_nat a) (firstn (Z.to_nat a + Z.to_nat b) L)) at 2.
  f_equal. rewrite firstn_firstn. f_equal. lia.
Qed.

Lemma searchMessages_pages_compose_witness :
  fst (searchMessages sample_stores "s1" [] None (Some 2) (Some 1) None) ++
  fst (searchMessages sample_stores "s1" [] None (Some 3) (Some (1 + 2)) None) =
  fst (searchMessages sample_stores "s1" [] None (Some (2 + 3)) (Some 1) None).
Proof.
  pose proof (searchMessages_pages_compose sample_stores "s1" [] None None 1 2 3) as H.
  assert (H1 : 0 <= 1) by lia.
  assert (H2 : 0 <= 2) by lia.
  assert (H3 : 0 <= 3) by lia.
  exact (H H1 H2 H3).
Defined.


(** ** [searchMessages] never misses a literal occurrence *)

Lemma like_percent pattern text :
  like (String "%" pattern) text =
  like pattern text ||
  match text with
  | EmptyString => false
  | String _ text' => like (String "%" pattern) text'
  end.
Proof. destruct text; reflexivity. Qed.

Lemma like_percent_all text : like "%" text = true.
Proof.
  induction text as [|c text IH]; [reflexivity|].
  rewrite like_percent, IH. apply orb_true_r.
Qed.

(** A pattern matches itself, wildcards included, in front of a matching
    rest. *)
Lemma like_literal k pattern text :
  like pattern text = true -> like (k +:+ pattern) (k +:+ text) = true.
Proof.
  intros H. induction k as [|c k IH]; [exact H|].
  change (String c k +:+ pattern) with (String c (k +:+ pattern)).
  change (String c k +:+ text) with (String c (k +:+ text)).
  destruct (Ascii.eqb c "%") eqn:E1.
  - apply Ascii.eqb_eq in E1. subst c. rewrite like_percent.
    cbn [orb]. rewrite like_percent, IH. apply orb_true_r.
  - destruct (Ascii.eqb c "_") eqn:E2.
    + cbn [like]. rewrite E1, E2. exact IH.
    + cbn [like]. rewrite E1, E2, Ascii.eqb_refl. exact IH.
Qed.

Lemma prefix_split k s : String.prefix k s = true -> exists rest, s = k +:+ rest.
Proof.
  revert s. induction k as [|c k IH]; intros s H.
  - exists s. reflexivity.
  - destruct s as [|c' s]; [discriminate|]. cbn [String.prefix] in H.
    destruct (ascii_dec c c') as [<- | _]; [|discriminate].
    destruct (IH s H) as (rest & ->). exists rest. reflexivity.
Qed.

Lemma like_prefix k s : String.prefix k s = true -> like (k +:+ "%") s = true.
Proof.
  intros H. apply prefix_split in H as (rest & ->). apply like_literal, like_percent_all.
Qed.

Lemma like_contains k text :
  contains k text = true -> like ("%" +:+ k +:+ "%") text = true.
Proof.
  change ("%" +:+ k +:+ "%") with (String "%" (k +:+ "%")).
  induction text as [|c text IH]; cbn [contains]; intros H; rewrite like_percent.
  - rewrite orb_false_r in H. rewrite (like_prefix _ _ H). reflexivity.
  - apply orb_true_iff in H as [H | H].
    + rewrite (like_prefix _ _ H). reflexivity.
    + rewrite (IH H). apply orb_true_r.
Qed.

(** X16: [searchMessages] never misses a literal occurrence: a message of a
    sender other than the system account whose content contains one of the
    keywords as a substring is counted in the total and is returned when the
    limit is lifted (a negative limit), whatever wildcard characters the
    keyword holds. *)
Theorem searchMessages_finds_literal
  (stores : gmap string Db) (sid : string) (keywords : list string) (db : Db)
  (row : MessageRow * MemberRow) (k text : string) :
  openDatabase stores sid = Some db ->
  In row (message_join_member db) ->
  not_system (snd row) = true ->
  msg_content (fst row) = Some text ->
  In k keywords ->
  contains k text = true ->
  In (select_result row) (fst (searchMessages stores sid keywords None (Some (-1)) None None)) /\
  0 < snd (searchMessages stores sid keywords None None None None).
Proof.
  intros Hopen Hrow Hsys Hc Hk Hlit. unfold searchMessages. rewrite Hopen. cbn [fst snd].
  assert (Hw : search_where keywords (buildTimeFilter None) None row = true).
  { unfold search_where. rewrite Hsys, Hc. cbn [buildTimeFilter eval_clause forallb andb].
    rewrite !andb_true_r. unfold keywordCondition.
    destruct keywords as [|k0 ks]; [reflexivity|].
    apply existsb_exists. exists k. split; [exact Hk|]. apply like_contains, Hlit. }
  assert (Hin : In row (List.filter (search_where keywords (buildTimeFilter None) None)
                          (message_join_member db)))
    by (apply filter_In; auto).
  split.
  - apply in_map. unfold sql_limit, sql_offset. cbn [default from_option Datatypes.id].
    unfold Datatypes.id. cbn [Z.ltb Z.compare Z.to_nat skipn].
    apply (Permutation_in _ (Permutation_sym (order_by_desc_perm _ _))), Hin.
  - destruct (List.filter _ (message_join_member db)); [destruct Hin|]. cbn [length]. lia.
Qed.

Lemma searchMessages_finds_literal_witness :
  In (select_result
        ({| msg_id := 6; msg_sender_id := 1; msg_ts := 120; msg_type := 0;
            msg_content := Some "a_c 100%"%string |},
         {| m_id := 1; m_platform_id := "u1"; m_account_name := Some "ann"%string;
            m_group_nickname := None |}))
     (fst (searchMessages sample_stores "s1" ["100%"%string] None (Some (-1)) None None)).
Proof.
  pose proof (searchMessages_finds_literal sample_stores "s1" ["100%"%string] sample_db
                ({| msg_id := 6; msg_sender_id := 1; msg_ts := 120; msg_type := 0;
                    msg_content := Some "a_c 100%"%string |},
                 {| m_id := 1; m_platform_id := "u1"; m_account_name := Some "ann"%string;
                    m_group_nickname := None |})
                "100%" "a_c 100%") as H.
  assert (H1 : openDatabase sample_stores "s1" = Some sample_db) by (vm_compute; reflexivity).
  assert (H2 : In ({| msg_id := 6; msg_sender_id := 1; msg_ts := 120; msg_type := 0;
                      msg_content := Some "a_c 100%"%string |},
                   {| m_id := 1; m_platform_id := "u1"; m_account_name := Some "ann"%string;
                      m_group_nickname := None |})
                  (message_join_member sample_db)) by (vm_compute; auto 10).
  assert (H3 : not_system {| m_id := 1; m_platform_id := "u1";
                             m_account_name := Some "ann"%string;
                             m_group_nickname := None |} = true) by reflexivity.
  assert (H4 : In "100%"%string ["100%"%string]) by (left; reflexivity).
  assert (H5 : contains "100%" "a_c 100%" = true) by reflexivity.
  exact (proj1 (H H1 H2 H3 eq_refl H4 H5)).
Defined.

(** ** [getConversationBetween] *)






(** ** [getMessageContext] around several targets *)




(** ** [getMessageContext] with context size 0 *)

(** X19: with context size 0, the way the message list fetches its scroll
    target, [getMessageContext] returns exactly the stored message with the
    given id, and nothing when no message has that id. *)
Theorem getMessageContext_target_only
  (stores : gmap string Db) (sid : string) (db : Db) (target : Z) :
  openDatabase stores sid = Some db ->
  well_formed db ->
  let result := getMessageContext stores sid (OneId target) (Some 0) in
  (In target (List.map msg_id (message db)) -> List.map id result = [target]) /\
  (~ In target (List.map msg_id (message db)) -> result = []).
Proof.
  intros Hopen Hwf result. subst result.
  unfold getMessageContext. rewrite Hopen.
  change (default 20 (Some 0)) with 0. cbn [fold_left].
  assert (Hc : add_context db 0 ∅ target = {[target]}).
  { unfold add_context, beforeRows, afterRows, sql_limit.
    change (0 <? 0) with false. change (Z.to_nat 0) with 0%nat.
    rewrite !firstn_O. cbn [fold_left]. apply union_empty_r_L. }
  rewrite Hc.
  destruct (decide (size ({[target]} : gset Z) = 0%nat)) as [Hsize | _].
  { rewrite size_singleton in Hsize. discriminate. }
  pose proof (context_rows_ids db {[target]} Hwf) as Hperm.
  set (rows := order_by_asc (fun row : MessageRow * MemberRow => msg_id (fst row))
                 (List.filter (fun row => bool_decide (msg_id (fst row) ∈ ({[target]} : gset Z)))
                    (message_join_member db))) in *.
  assert (Hnd : NoDup (List.map id (List.map select_result rows))).
  { rewrite Hperm. apply NoDup_filter_bool. apply Hwf. }
  assert (Hin : forall x, In x (List.map id (List.map select_result rows)) <->
                  In x (List.map msg_id (message db)) /\ x = target).
  { intros x. rewrite <- (elem_of_singleton (C := gset Z)). split.
    - intros H. apply (Permutation_in _ Hperm), filter_In in H as [H1 H2].
      apply bool_decide_eq_true in H2. auto.
    - intros [H1 H2]. apply (Permutation_in _ (Permutation_sym Hperm)).
      apply filter_In. split; [exact H1 | apply bool_decide_eq_true, H2]. }
  split.
  - intros Ht.
    destruct (List.map id (List.map select_result rows)) as [|x l] eqn:E.
    { exfalso. apply (proj2 (Hin target)); auto. }
    assert (x = target) as -> by (apply Hin; left; reflexivity).
    destruct l as [|y l]; [reflexivity|].
    assert (y = target) as -> by (apply Hin; right; left; reflexivity).
    apply NoDup_cons in Hnd as [Hx _]. exfalso. apply Hx. left.
  - intros Hn. destruct (List.map select_result rows) as [|r l] eqn:E; [reflexivity|].
    exfalso. apply Hn.
    destruct (proj1 (Hin (id r)) (or_introl eq_refl)) as [H1 H2]. rewrite <- H2. exact H1.
Qed.

Lemma getMessageContext_target_only_witness :
  List.map id (getMessageContext sample_stores "s1" (OneId 4) (Some 0)) = [4].
Proof.
  pose proof (getMessageContext_target_only sample_stores "s1" sample_db 4) as H.
  assert (H1 : openDatabase sample_stores "s1" = Some sample_db) by (vm_compute; reflexivity).
  assert (H2 : well_formed sample_db).
  { unfold well_formed. repeat split; apply (bool_decide_unpack _); vm_compute; exact I. }
  assert (H3 : In 4 (List.map msg_id (message sample_db))) by (simpl; auto 10).
  exact (proj1 (H H1 H2) H3).
Defined.

End AiQueryTheory.
